(** * K-LLM model proxy: a shallow embedding of [model-proxy.py]

    The development follows the source file top to bottom: the Python
    string primitives the proxy relies on, JSON values (the [dict]s and
    [list]s that [json.loads] produces), a backtracking matcher for the
    [re] patterns of the file, then the module-level functions
    ([build_tool_prompt], [convert_text_to_tool_calls],
    [fallback_tool_call], [inject_tool_descriptions],
    [rewrite_model_in_response], [strip_no_reply_from_content]) and the
    request handler ([do_POST], [_proxy], [_direct_proxy]).

    Text is modelled by [string], one character per code point, for code
    points below 128: the character classes of the matcher and of
    [strip], [lower] and [upper] are the ASCII ones.  The body of a
    backend response is a byte string, one byte per character.  Integers
    are [Z];
    JSON floats are not modelled.  An operation that raises in Python
    returns the exception in the error monad [M]; what lies outside the
    file (the clock, the environment, the JSON decoder, the two backends
    and the web search) is a field of [world]. *)

From Stdlib Require Import String Ascii List ZArith Lia Bool Arith DecimalString Permutation.
From Stdlib Require DecimalNat DecimalFacts.
Import ListNotations.
Set Warnings "-register-all".
Local Open Scope list_scope.
Local Open Scope string_scope.

(** ** Python string primitives *)

Module Py.

Definition nl : string := String "010"%char "".
Definition dq : string := String "034"%char "".
Definition bs : string := String "092"%char "".

Definition code (c : ascii) : nat := nat_of_ascii c.

(** [str.isspace] on the ASCII range. *)
Definition is_space (c : ascii) : bool :=
  let n := code c in
  (((9 <=? n) && (n <=? 13)) || ((28 <=? n) && (n <=? 32)))%nat.

Definition is_digit (c : ascii) : bool :=
  let n := code c in ((48 <=? n) && (n <=? 57))%nat.

Definition is_upper (c : ascii) : bool :=
  let n := code c in ((65 <=? n) && (n <=? 90))%nat.

Definition is_lower (c : ascii) : bool :=
  let n := code c in ((97 <=? n) && (n <=? 122))%nat.

(** [\w] on the ASCII range. *)
Definition is_word (c : ascii) : bool :=
  is_digit c || is_upper c || is_lower c || (code c =? 95)%nat.

Definition lower_char (c : ascii) : ascii :=
  if is_upper c then ascii_of_nat (code c + 32) else c.

Definition upper_char (c : ascii) : ascii :=
  if is_lower c then ascii_of_nat (code c - 32) else c.

Fixpoint map_chars (f : ascii -> ascii) (s : string) : string :=
  match s with
  | EmptyString => EmptyString
  | String c s' => String (f c) (map_chars f s')
  end.

Definition lower := map_chars lower_char.
Definition upper := map_chars upper_char.

Fixpoint lstrip (s : string) : string :=
  match s with
  | String c s' => if is_space c then lstrip s' else s
  | EmptyString => EmptyString
  end.

Fixpoint rstrip (s : string) : string :=
  match s with
  | EmptyString => EmptyString
  | String c s' =>
      match rstrip s' with
      | EmptyString => if is_space c then EmptyString else String c EmptyString
      | r => String c r
      end
  end.

Definition strip (s : string) : string := rstrip (lstrip s).

Definition startswith (p s : string) : bool := String.prefix p s.

(** [sub in s] *)
Fixpoint contains (sub s : string) : bool :=
  String.prefix sub s ||
  match s with
  | EmptyString => false
  | String _ s' => contains sub s'
  end.

(** [s[:n]] and [s[n:]] for [n >= 0], and [s[i:j]] for [0 <= i <= j]. *)
Fixpoint take (n : nat) (s : string) : string :=
  match n, s with
  | S n', String c s' => String c (take n' s')
  | _, _ => EmptyString
  end.

Fixpoint drop (n : nat) (s : string) : string :=
  match n, s with
  | S n', String _ s' => drop n' s'
  | _, _ => s
  end.

Definition slice (i j : nat) (s : string) : string := take (j - i) (drop i s).

(** [str.replace(old, new)]: the occurrences of [old] are found left to
    right and do not overlap.  [skip] counts the characters of the
    occurrence under replacement that are still to be dropped. *)
Fixpoint replace_from (old new : string) (skip : nat) (s : string) : string :=
  match s with
  | EmptyString => EmptyString
  | String c s' =>
      match skip with
      | S k => replace_from old new k s'
      | O =>
          if String.prefix old s
          then new ++ replace_from old new (String.length old - 1) s'
          else String c (replace_from old new 0 s')
      end
  end.

Fixpoint intersperse (new s : string) : string :=
  match s with
  | EmptyString => new
  | String c s' => new ++ String c (intersperse new s')
  end.

Definition replace (old new s : string) : string :=
  match old with
  | EmptyString => intersperse new s
  | _ => replace_from old new 0 s
  end.

Definition join (sep : string) (l : list string) : string := String.concat sep l.

Definition str_of_nat (n : nat) : string := NilZero.string_of_uint (Nat.to_uint n).
Definition str_of_Z (z : Z) : string := NilZero.string_of_int (Z.to_int z).

(** [range(0, stop, step)] for [step > 0]. *)
Definition range0 (stop step : nat) : list nat :=
  map (fun k => k * step) (seq 0 ((stop + step - 1) / step)).

(** [enumerate] *)
Fixpoint enumerate_from {A} (i : nat) (l : list A) : list (nat * A) :=
  match l with
  | [] => []
  | x :: l' => (i, x) :: enumerate_from (S i) l'
  end.

Definition enumerate {A} (l : list A) : list (nat * A) := enumerate_from 0 l.

(** [l[-n:]] for [n > 0]. *)
Definition last_n {A} (n : nat) (l : list A) : list A := skipn (length l - n) l.

End Py.


(** ** JSON values and Python dictionaries *)

(** What [json.loads] returns.  A [dict] keeps its insertion order, which
    [json.dumps] and iteration both observe, so it is an association list
    with at most one entry per key. *)
Inductive Json : Type :=
| JNull
| JBool (b : bool)
| JInt (z : Z)
| JStr (s : string)
| JList (l : list Json)
| JDict (d : list (string * Json)).

Definition dict := list (string * Json).

Fixpoint dict_get (d : dict) (k : string) : option Json :=
  match d with
  | [] => None
  | (k', v) :: d' => if String.eqb k k' then Some v else dict_get d' k
  end.

(** [d.get(k, default)] *)
Definition get_or (d : dict) (k : string) (default : Json) : Json :=
  match dict_get d k with Some v => v | None => default end.

(** [d.get(k)] *)
Definition get (d : dict) (k : string) : Json := get_or d k JNull.

(** [k in d] *)
Definition has_key (d : dict) (k : string) : bool :=
  match dict_get d k with Some _ => true | None => false end.

(** [d[k] = v]: an existing key keeps its position. *)
Fixpoint dict_set (d : dict) (k : string) (v : Json) : dict :=
  match d with
  | [] => [(k, v)]
  | (k', v') :: d' =>
      if String.eqb k k' then (k, v) :: d' else (k', v') :: dict_set d' k v
  end.

(** [del d[k]] *)
Fixpoint dict_del (d : dict) (k : string) : dict :=
  match d with
  | [] => []
  | (k', v') :: d' => if String.eqb k k' then d' else (k', v') :: dict_del d' k
  end.

(** Truth value of an object in a condition. *)
Definition truthy (j : Json) : bool :=
  match j with
  | JNull => false
  | JBool b => b
  | JInt z => negb (Z.eqb z 0)
  | JStr s => negb (String.eqb s "")
  | JList l => match l with [] => false | _ => true end
  | JDict d => match d with [] => false | _ => true end
  end.

(** [j == s] for a string [s]. *)
Definition is_str (j : Json) (s : string) : bool :=
  match j with JStr s' => String.eqb s' s | _ => false end.

(** [x or ''] where [x] is a string or a falsy value. *)
Definition str_or_empty (j : Json) : Json :=
  if truthy j then j else JStr "".

(** [x or None] *)
Definition or_none (j : Json) : Json :=
  if truthy j then j else JNull.

(** *** [json.dumps] with its default separators and [ensure_ascii] *)

Definition hex_digit (n : nat) : ascii :=
  if (n <? 10)%nat then ascii_of_nat (48 + n) else ascii_of_nat (87 + n).

Definition hex2 (n : nat) : string :=
  String (hex_digit (n / 16)) (String (hex_digit (n mod 16)) "").

Definition json_escape_char (c : ascii) : string :=
  let n := Py.code c in
  if (n =? 34)%nat then Py.bs ++ Py.dq
  else if (n =? 92)%nat then Py.bs ++ Py.bs
  else if (n =? 10)%nat then Py.bs ++ "n"
  else if (n =? 13)%nat then Py.bs ++ "r"
  else if (n =? 9)%nat then Py.bs ++ "t"
  else if (n =? 8)%nat then Py.bs ++ "b"
  else if (n =? 12)%nat then Py.bs ++ "f"
  else if ((n <? 32) || (126 <? n))%nat then Py.bs ++ "u00" ++ hex2 n
  else String c "".

Fixpoint json_escape (s : string) : string :=
  match s with
  | EmptyString => EmptyString
  | String c s' => json_escape_char c ++ json_escape s'
  end.

Definition dumps_str (s : string) : string := Py.dq ++ json_escape s ++ Py.dq.

Fixpoint json_dumps (j : Json) : string :=
  match j with
  | JNull => "null"
  | JBool true => "true"
  | JBool false => "false"
  | JInt z => Py.str_of_Z z
  | JStr s => dumps_str s
  | JList l =>
      "[" ++ Py.join ", " (map json_dumps l) ++ "]"
  | JDict d =>
      "{" ++ Py.join ", "
               ((fix items (d : list (string * Json)) : list string :=
                   match d with
                   | [] => []
                   | (k, v) :: d' => (dumps_str k ++ ": " ++ json_dumps v) :: items d'
                   end) d) ++ "}"
  end.

(** *** [str(x)] and [repr(x)] of a decoded value *)

Definition repr_quote (s : string) : ascii :=
  if Py.contains "'" s && negb (Py.contains Py.dq s) then "034"%char else "'"%char.

Definition repr_char (q c : ascii) : string :=
  let n := Py.code c in
  if (n =? 92)%nat then Py.bs ++ Py.bs
  else if Ascii.eqb c q then Py.bs ++ String c ""
  else if (n =? 10)%nat then Py.bs ++ "n"
  else if (n =? 13)%nat then Py.bs ++ "r"
  else if (n =? 9)%nat then Py.bs ++ "t"
  else if ((n <? 32) || (126 <? n))%nat then Py.bs ++ "x" ++ hex2 n
  else String c "".

Fixpoint repr_chars (q : ascii) (s : string) : string :=
  match s with
  | EmptyString => EmptyString
  | String c s' => repr_char q c ++ repr_chars q s'
  end.

Definition repr_str (s : string) : string :=
  let q := repr_quote s in String q (repr_chars q s ++ String q "").

Fixpoint py_repr (j : Json) : string :=
  match j with
  | JNull => "None"
  | JBool true => "True"
  | JBool false => "False"
  | JInt z => Py.str_of_Z z
  | JStr s => repr_str s
  | JList l => "[" ++ Py.join ", " (map py_repr l) ++ "]"
  | JDict d =>
      "{" ++ Py.join ", "
               ((fix items (d : list (string * Json)) : list string :=
                   match d with
                   | [] => []
                   | (k, v) :: d' => (repr_str k ++ ": " ++ py_repr v) :: items d'
                   end) d) ++ "}"
  end.

(** [str(x)], also what an f-string substitutes for [{x}]. *)
Definition py_str (j : Json) : string :=
  match j with
  | JStr s => s
  | _ => py_repr j
  end.

(** ** Exceptions *)

Inductive exn : Type :=
| JSONDecodeError
| KeyError
| IndexError
| AttributeError
| TypeError
| UnboundLocalError (name : string)
| OSError (msg : string).

Definition M (A : Type) : Type := (exn + A)%type.

Definition ret {A} (a : A) : M A := inr a.
Definition raise {A} (e : exn) : M A := inl e.
Definition bind {A B} (m : M A) (f : A -> M B) : M B :=
  match m with
  | inl e => inl e
  | inr a => f a
  end.

Declare Scope py_scope.
Delimit Scope py_scope with py.
Notation "x <- m ;; k" := (bind m (fun x => k))
  (at level 61, m at next level, right associativity) : py_scope.
Notation "m ;;; k" := (bind m (fun _ => k))
  (at level 61, right associativity) : py_scope.
Local Open Scope py_scope.

Fixpoint mapM {A B} (f : A -> M B) (l : list A) : M (list B) :=
  match l with
  | [] => ret []
  | x :: l' => y <- f x ;; ys <- mapM f l' ;; ret (y :: ys)
  end.

(** Attribute access [x.get]: only a [dict] has it. *)
Definition as_dict (j : Json) : M dict :=
  match j with
  | JDict d => ret d
  | _ => raise AttributeError
  end.

(** [for x in j]: a list yields its elements, a dict its keys, a string
    its characters; nothing else is iterable. *)
Definition iter (j : Json) : M (list Json) :=
  match j with
  | JList l => ret l
  | JDict d => ret (map (fun kv => JStr (fst kv)) d)
  | JStr s => ret (map (fun c => JStr (String c "")) (list_ascii_of_string s))
  | _ => raise TypeError
  end.

(** [for x in j] followed by [x.get(...)] on every element. *)
Definition iter_dicts (j : Json) : M (list dict) :=
  l <- iter j ;; mapM as_dict l.


(** ** The [re] module: a backtracking matcher

    Patterns are abstract syntax; [run] explores the alternatives in the
    order Python's matcher does (left alternative first, greedy
    repetitions longest first, lazy ones shortest first) and calls the
    continuation at every candidate end position, so the first success is
    the match [re] reports. *)

Module Re.

Record flags : Type := { IGNORECASE : bool; MULTILINE : bool; DOTALL : bool }.

Definition no_flags : flags := {| IGNORECASE := false; MULTILINE := false; DOTALL := false |}.

Inductive re : Type :=
| Eps
| Chr (c : ascii)
| Cls (neg : bool) (p : ascii -> bool)
| Dot
| Cat (r1 r2 : re)
| Alt (r1 r2 : re)
| Rep (greedy : bool) (lo : nat) (hi : option nat) (r : re)
| Grp (i : nat) (r : re)
| Bol
| Eol
| WordB.

(** A position in the subject: the character just before it (if any), the
    text still ahead, and the groups captured so far (latest first). *)
Record pos : Type := { before : option ascii; rest : string; groups : list (nat * string) }.

Definition chr_eq (fl : flags) (c a : ascii) : bool :=
  if IGNORECASE fl then Ascii.eqb (Py.lower_char c) (Py.lower_char a) else Ascii.eqb c a.

Definition is_nl (c : ascii) : bool := (Py.code c =? 10)%nat.

Definition at_bol (fl : flags) (p : pos) : bool :=
  match before p with
  | None => true
  | Some c => MULTILINE fl && is_nl c
  end.

Definition at_eol (fl : flags) (p : pos) : bool :=
  match rest p with
  | EmptyString => true
  | String c s' => is_nl c && (MULTILINE fl || String.eqb s' "")
  end.

Definition at_word_boundary (p : pos) : bool :=
  xorb (match before p with Some c => Py.is_word c | None => false end)
       (match rest p with String c _ => Py.is_word c | EmptyString => false end).

Definition eat (ok : ascii -> bool) (k : pos -> option pos) (p : pos) : option pos :=
  match rest p with
  | String a s' =>
      if ok a then k {| before := Some a; rest := s'; groups := groups p |} else None
  | EmptyString => None
  end.

Definition below (hi : option nat) (n : nat) : bool :=
  match hi with
  | None => true
  | Some h => (n <? h)%nat
  end.

Definition consumed (p p' : pos) : string :=
  Py.take (String.length (rest p) - String.length (rest p')) (rest p).

Definition capture (i : nat) (p p' : pos) : pos :=
  {| before := before p'; rest := rest p'; groups := (i, consumed p p') :: groups p' |}.

Fixpoint run (fl : flags) (r : re) (k : pos -> option pos) (p : pos) {struct r} : option pos :=
  match r with
  | Eps => k p
  | Chr c => eat (chr_eq fl c) k p
  | Cls neg ok => eat (fun a => xorb neg (ok a)) k p
  | Dot => eat (fun a => DOTALL fl || negb (is_nl a)) k p
  | Cat r1 r2 => run fl r1 (run fl r2 k) p
  | Alt r1 r2 =>
      match run fl r1 k p with
      | Some q => Some q
      | None => run fl r2 k p
      end
  | Rep greedy lo hi r' =>
      (fix loop (fuel n : nat) (p : pos) {struct fuel} : option pos :=
         match fuel with
         | O => None
         | S fuel' =>
             if greedy then
               match (if below hi n
                      then run fl r' (fun p' =>
                             if ((String.length (rest p') <? String.length (rest p)) || (n <? lo))%nat
                             then loop fuel' (S n) p' else None) p
                      else None) with
               | Some q => Some q
               | None => if (lo <=? n)%nat then k p else None
               end
             else
               match (if (lo <=? n)%nat then k p else None) with
               | Some q => Some q
               | None =>
                   if below hi n
                   then run fl r' (fun p' =>
                          if ((String.length (rest p') <? String.length (rest p)) || (n <? lo))%nat
                          then loop fuel' (S n) p' else None) p
                   else None
               end
         end) (S (String.length (rest p) + lo)) 0%nat p
  | Grp i r' => run fl r' (fun p' => k (capture i p p')) p
  | Bol => if at_bol fl p then k p else None
  | Eol => if at_eol fl p then k p else None
  | WordB => if at_word_boundary p then k p else None
  end.

(** A match object: where it starts, the text matched, the captures, and
    the position after it. *)
Record found : Type :=
  { m_start : nat; m_text : string; m_groups : list (nat * string);
    m_last : option ascii; m_rest : string }.

Definition match_at (fl : flags) (r : re) (start : nat) (prev : option ascii) (s : string)
  : option found :=
  let p := {| before := prev; rest := s; groups := [] |} in
  match run fl r (fun q => Some q) p with
  | Some q => Some {| m_start := start; m_text := consumed p q; m_groups := groups q;
                      m_last := before q; m_rest := rest q |}
  | None => None
  end.

Fixpoint search_from (fl : flags) (r : re) (start : nat) (prev : option ascii) (s : string)
  : option found :=
  match match_at fl r start prev s with
  | Some m => Some m
  | None =>
      match s with
      | EmptyString => None
      | String c s' => search_from fl r (S start) (Some c) s'
      end
  end.

(** [pattern.match(s)] and [pattern.search(s)] *)
Definition match_ (fl : flags) (r : re) (s : string) : option found := match_at fl r 0 None s.
Definition search (fl : flags) (r : re) (s : string) : option found := search_from fl r 0 None s.

(** [m.group(i)] for a group that took part in the match. *)
Fixpoint lookup (i : nat) (gs : list (nat * string)) : string :=
  match gs with
  | [] => ""
  | (j, t) :: gs' => if (i =? j)%nat then t else lookup i gs'
  end.

Definition group (m : found) (i : nat) : string := lookup i (m_groups m).

(** The successive matches, left to right and not overlapping.  After an
    empty match the scan moves one character on (none of the patterns of
    [model-proxy.py] can match the empty string). *)
Fixpoint finditer_from (fuel : nat) (fl : flags) (r : re) (prev : option ascii) (s : string)
  : list found :=
  match fuel with
  | O => []
  | S fuel' =>
      match search_from fl r 0 prev s with
      | None => []
      | Some m =>
          m :: match m_text m, m_rest m with
               | EmptyString, EmptyString => []
               | EmptyString, String c s' => finditer_from fuel' fl r (Some c) s'
               | _, s' => finditer_from fuel' fl r (m_last m) s'
               end
      end
  end.

Definition finditer (fl : flags) (r : re) (s : string) : list found :=
  finditer_from (S (String.length s)) fl r None s.

(** [pattern.sub(repl, s)] for a replacement without group references. *)
Fixpoint sub_from (fuel : nat) (fl : flags) (r : re) (repl : string) (prev : option ascii)
  (s : string) : string :=
  match fuel with
  | O => s
  | S fuel' =>
      match search_from fl r 0 prev s with
      | None => s
      | Some m =>
          Py.take (m_start m) s ++ repl ++
          match m_text m, m_rest m with
          | EmptyString, EmptyString => ""
          | EmptyString, String c s' => String c (sub_from fuel' fl r repl (Some c) s')
          | _, s' => sub_from fuel' fl r repl (m_last m) s'
          end
      end
  end.

Definition sub (fl : flags) (r : re) (repl s : string) : string :=
  sub_from (S (String.length s)) fl r repl None s.

(** Pattern syntax. *)
Fixpoint lit (s : string) : re :=
  match s with
  | EmptyString => Eps
  | String c EmptyString => Chr c
  | String c s' => Cat (Chr c) (lit s')
  end.

Fixpoint cat (rs : list re) : re :=
  match rs with
  | [] => Eps
  | [r] => r
  | r :: rs' => Cat r (cat rs')
  end.

Fixpoint alt (rs : list re) : re :=
  match rs with
  | [] => Cls false (fun _ => false)
  | [r] => r
  | r :: rs' => Alt r (alt rs')
  end.

Definition star (r : re) : re := Rep true 0 None r.
Definition plus (r : re) : re := Rep true 1 None r.
Definition opt (r : re) : re := Rep true 0 (Some 1%nat) r.
Definition plus_lazy (r : re) : re := Rep false 1 None r.
Definition at_least (n : nat) (r : re) : re := Rep true n None r.

Definition space : re := Cls false Py.is_space.     (* \s *)
Definition nonspace : re := Cls true Py.is_space.   (* \S *)
Definition word : re := Cls false Py.is_word.       (* \w *)
Definition digit : re := Cls false Py.is_digit.     (* \d *)
Definition not_nl : re := Cls true is_nl.           (* [^\n] *)
Definition newline : re := Cls false is_nl.         (* \n *)

End Re.

(** ** Dynamic typing helpers *)

Definition as_str (j : Json) : M string :=
  match j with
  | JStr s => ret s
  | _ => raise TypeError
  end.

(** [x + s] where [s] is a string: only a string [x] can be added to it. *)
Definition str_add (j : Json) (s : string) : M string :=
  t <- as_str j ;; ret (t ++ s).

(** Use of [j] as a set element or dictionary key. *)
Definition hashable (j : Json) : M unit :=
  match j with
  | JList _ | JDict _ => raise TypeError
  | _ => ret tt
  end.

(** [isinstance(part, dict) and part.get('type') == 'text'] *)
Definition text_part (part : Json) : option dict :=
  match part with
  | JDict d => if is_str (get d "type") "text" then Some d else None
  | _ => None
  end.

(** [m.get('role') in ('system', 'developer')] *)
Definition is_system (m : dict) : bool :=
  is_str (get m "role") "system" || is_str (get m "role") "developer".

(** ** Module-level configuration *)

Definition sdict := list (string * string).

Fixpoint sdict_get (d : sdict) (k : string) : option string :=
  match d with
  | [] => None
  | (k', v) :: d' => if String.eqb k k' then Some v else sdict_get d' k
  end.

Fixpoint sdict_set (d : sdict) (k v : string) : sdict :=
  match d with
  | [] => [(k, v)]
  | (k', v') :: d' =>
      if String.eqb k k' then (k, v) :: d' else (k', v') :: sdict_set d' k v
  end.

Definition MODEL_MAP : sdict :=
  [ ("gpt-5.2", "llama3.3:latest");
    ("gpt-5.1-codex", "qwen2.5-coder:32b");
    ("gpt-5", "llama3.3:latest");
    ("gpt-5-mini", "phi4:latest");
    ("gpt-4.1", "llama3.3:latest") ].

(** [{v: k for k, v in MODEL_MAP.items()}], then the explicit entry. *)
Definition REVERSE_MAP : sdict :=
  sdict_set (fold_left (fun acc kv => sdict_set acc (snd kv) (fst kv)) MODEL_MAP [])
            "llama3.3:latest" "gpt-5.2".

Record route : Type :=
  { host : string; port : Z; scheme : string; key : string;
    actual_model : string; strip_params : list string }.

Definition DIRECT_ROUTES (OPENROUTER_KEY : string) : list (string * route) :=
  [ ("deepseek-v3",
     {| host := "openrouter.ai"; port := 443; scheme := "https"; key := OPENROUTER_KEY;
        actual_model := "deepseek/deepseek-chat";
        strip_params := ["store"; "metadata"; "service_tier"] |});
    ("gemini-flash",
     {| host := "openrouter.ai"; port := 443; scheme := "https"; key := OPENROUTER_KEY;
        actual_model := "google/gemini-2.0-flash-001";
        strip_params := ["store"; "metadata"; "service_tier"] |}) ].

Fixpoint route_get (rs : list (string * route)) (k : string) : option route :=
  match rs with
  | [] => None
  | (k', r) :: rs' => if String.eqb k k' then Some r else route_get rs' k
  end.

Definition UNSUPPORTED_PARAMS : list string :=
  [ "thinking"; "reasoning_effort"; "store"; "metadata";
    "service_tier"; "parallel_tool_calls"; "stream_options";
    "tools"; "tool_choice" ].

(** ** NO_REPLY handling *)

Definition ICASE : Re.flags :=
  {| Re.IGNORECASE := true; Re.MULTILINE := false; Re.DOTALL := false |}.

Definition NO_REPLY_PATTERNS : list Re.re :=
  [ (* [^\n]*\bNO_REPLY\b[^\n]* *)
    Re.cat [Re.star Re.not_nl; Re.WordB; Re.lit "NO_REPLY"; Re.WordB; Re.star Re.not_nl];
    (* [^\n]*\bno[_\-\s]?reply\b[^\n]* *)
    Re.cat [Re.star Re.not_nl; Re.WordB; Re.lit "no";
            Re.opt (Re.Cls false (fun c => Ascii.eqb c "_" || Ascii.eqb c "-" || Py.is_space c));
            Re.lit "reply"; Re.WordB; Re.star Re.not_nl] ].

Definition SYSTEM_OVERRIDE : string :=
  Py.nl ++ Py.nl ++
  "IMPORTANT OVERRIDE: You must ALWAYS respond with helpful, conversational text. " ++
  "Never respond with just 'NO_REPLY' or any variant. Always engage with the user's message " ++
  "and provide a thoughtful response. If you're unsure what to say, ask a follow-up question.".

(** ** [build_tool_prompt] *)

(** [tool.get('function', {}).get('name', default)] *)
Definition function_name (tool : dict) (default : Json) : M Json :=
  f <- as_dict (get_or tool "function" (JDict [])) ;;
  ret (get_or f "name" default).

Fixpoint tool_names (tools : list Json) : M (list Json) :=
  match tools with
  | [] => ret []
  | t :: tools' =>
      tool <- as_dict t ;;
      if negb (is_str (get tool "type") "function") then tool_names tools'
      else
        name <- function_name tool (JStr "") ;;
        names <- tool_names tools' ;;
        ret (if truthy name then name :: names else names)
  end.

Definition em_dash : string := String "226" (String "128" (String "148" "")).

Definition XCITE : string := "cd /data/.openclaw/skills/xcite-bot && node scripts/".

Definition build_tool_prompt (tool_defs : Json) : M (option string) :=
  if negb (truthy tool_defs) then ret None
  else
    tools <- iter tool_defs ;;
    names <- tool_names tools ;;
    match names with
    | [] => ret None
    | _ =>
        strs <- mapM as_str names ;;
        ret (Some (
          Py.nl ++ Py.nl ++ "## TOOL CALLING " ++ em_dash ++ " YOU MUST FOLLOW THIS" ++ Py.nl ++
          "NEVER respond with just text. You MUST call tools." ++ Py.nl ++
          "Format: TOOL_CALL: <tool_name> <arguments>" ++ Py.nl ++ Py.nl ++
          "Available tools: " ++ Py.join ", " strs ++ Py.nl ++ Py.nl ++
          "When user says 'scout @X': TOOL_CALL: exec " ++ XCITE ++ "scout-batch.mjs --seed X" ++ Py.nl ++
          "When user says 'next': TOOL_CALL: exec " ++ XCITE ++ "prospect-store.mjs next" ++ Py.nl ++
          "When user says 'stats': TOOL_CALL: exec " ++ XCITE ++ "prospect-store.mjs stats" ++ Py.nl ++
          "When user says 'sent': TOOL_CALL: exec " ++ XCITE ++ "prospect-store.mjs mark-sent" ++ Py.nl ++
          "When user says 'skip': TOOL_CALL: exec " ++ XCITE ++ "prospect-store.mjs mark-skipped" ++ Py.nl ++
          "When user says 'replied': TOOL_CALL: exec " ++ XCITE ++ "prospect-store.mjs mark-replied" ++ Py.nl ++ Py.nl ++
          "IMPORTANT: Copy the TOOL_CALL line EXACTLY as shown. Do NOT explain, do NOT ask questions." ++ Py.nl))
    end.

(** ** Text-to-tool_calls converter *)

Definition MLINE : Re.flags :=
  {| Re.IGNORECASE := false; Re.MULTILINE := true; Re.DOTALL := false |}.

Definition DOTALL_ONLY : Re.flags :=
  {| Re.IGNORECASE := false; Re.MULTILINE := false; Re.DOTALL := true |}.

(** [^TOOL_CALL:\s*(\w+)\s+(.+)$] with [re.MULTILINE] *)
Definition TOOL_CALL_PATTERN : Re.re :=
  Re.cat [Re.Bol; Re.lit "TOOL_CALL:"; Re.star Re.space; Re.Grp 1 (Re.plus Re.word);
          Re.plus Re.space; Re.Grp 2 (Re.plus Re.Dot); Re.Eol].

(** [^exec\s+(.+)$] with [re.MULTILINE] *)
Definition BARE_EXEC_PATTERN : Re.re :=
  Re.cat [Re.Bol; Re.lit "exec"; Re.plus Re.space; Re.Grp 1 (Re.plus Re.Dot); Re.Eol].

(** Three backticks, any word characters, a newline, the group
    [(exec\s+.+?)], a newline and three backticks, with [re.DOTALL]. *)
Definition MARKDOWN_EXEC_PATTERN : Re.re :=
  Re.cat [Re.lit "```"; Re.star Re.word; Re.newline;
          Re.Grp 1 (Re.cat [Re.lit "exec"; Re.plus Re.space; Re.plus_lazy Re.Dot]);
          Re.newline; Re.lit "```"].

Definition tool_call (id name arguments : string) : Json :=
  JDict [ ("id", JStr id);
          ("type", JStr "function");
          ("function", JDict [("name", JStr name); ("arguments", JStr arguments)]) ].

(** The registry built by the first loop of [convert_text_to_tool_calls]:
    [known_tools] and [tool_params], the latter keeping the last
    definition of a name.  Only a string name can ever be looked up, so
    the other hashable names are left out. *)
Record registry : Type := { known_tools : list string; tool_params : sdict }.

Definition first_param (func : dict) : M string :=
  params <- as_dict (get_or func "parameters" (JDict [])) ;;
  let props := get_or params "properties" (JDict []) in
  if truthy props then
    match props with
    | JDict ((k, _) :: _) => ret k
    | _ => raise AttributeError
    end
  else ret "input".

Fixpoint scan_tools (tools : list Json) (reg : registry) : M registry :=
  match tools with
  | [] => ret reg
  | t :: tools' =>
      tool <- as_dict t ;;
      if negb (is_str (get tool "type") "function") then scan_tools tools' reg
      else
        func <- as_dict (get_or tool "function" (JDict [])) ;;
        let name := get_or func "name" (JStr "") in
        if truthy name then
          hashable name ;;;
          p <- first_param func ;;
          match name with
          | JStr n =>
              scan_tools tools' {| known_tools := n :: known_tools reg;
                                   tool_params := sdict_set (tool_params reg) n p |}
          | _ => scan_tools tools' reg
          end
        else scan_tools tools' reg
  end.

Definition known (reg : registry) (name : string) : bool :=
  existsb (String.eqb name) (known_tools reg).

Definition param_of (reg : registry) (name default : string) : string :=
  match sdict_get (tool_params reg) name with
  | Some p => p
  | None => default
  end.

(** The loop over the [TOOL_CALL:] matches: an unknown tool is skipped,
    its index is not reused. *)
Fixpoint explicit_calls (reg : registry) (matches : list (nat * Re.found)) : list Json :=
  match matches with
  | [] => []
  | (i, m) :: rest =>
      let tool_name := Re.group m 1 in
      let args_text := Re.group m 2 in
      if negb (known reg tool_name) then explicit_calls reg rest
      else
        tool_call ("call_" ++ tool_name ++ "_" ++ Py.str_of_nat i) tool_name
                  (json_dumps (JDict [(param_of reg tool_name "input", JStr (Py.strip args_text))]))
        :: explicit_calls reg rest
  end.

Definition markdown_call (param_name : string) (im : nat * Re.found) : Json :=
  let cmd := Py.strip (Re.group (snd im) 1) in
  let cmd := if Py.startswith "exec " cmd then Py.strip (Py.drop 5 cmd) else cmd in
  tool_call ("call_exec_md_" ++ Py.str_of_nat (fst im)) "exec"
            (json_dumps (JDict [(param_name, JStr cmd)])).

Definition bare_call (param_name : string) (im : nat * Re.found) : Json :=
  tool_call ("call_exec_bare_" ++ Py.str_of_nat (fst im)) "exec"
            (json_dumps (JDict [(param_name, JStr (Py.strip (Re.group (snd im) 1)))])).

(** The body of [convert_text_to_tool_calls] once the registry is built. *)
Definition convert_with (reg : registry) (content : string) : string * option (list Json) :=
  let matches := Re.finditer MLINE TOOL_CALL_PATTERN content in
  let tool_calls := explicit_calls reg (Py.enumerate matches) in
  match tool_calls with
  | _ :: _ => (Py.strip (Re.sub MLINE TOOL_CALL_PATTERN "" content), Some tool_calls)
  | [] =>
      if known reg "exec" then
        let md_matches := Re.finditer DOTALL_ONLY MARKDOWN_EXEC_PATTERN content in
        let md_calls := map (markdown_call (param_of reg "exec" "command")) (Py.enumerate md_matches) in
        match md_calls with
        | _ :: _ => (Py.strip (Re.sub DOTALL_ONLY MARKDOWN_EXEC_PATTERN "" content), Some md_calls)
        | [] =>
            let bare_matches := Re.finditer MLINE BARE_EXEC_PATTERN content in
            let bare_calls := map (bare_call (param_of reg "exec" "command")) (Py.enumerate bare_matches) in
            match bare_calls with
            | _ :: _ => (Py.strip (Re.sub MLINE BARE_EXEC_PATTERN "" content), Some bare_calls)
            | [] => (content, None)
            end
        end
      else (content, None)
  end.

Definition empty_registry : registry := {| known_tools := []; tool_params := [] |}.

(** [for tool in (tool_defs or [])] *)
Definition tools_or_empty (tool_defs : Json) : M (list Json) :=
  if truthy tool_defs then iter tool_defs else ret [].

Definition convert_text_to_tool_calls (content : Json) (tool_defs : Json)
  : M (string * option (list Json)) :=
  tools <- tools_or_empty tool_defs ;;
  reg <- scan_tools tools empty_registry ;;
  text <- as_str content ;;
  ret (convert_with reg text).

(** ** Fallback: the user message is a known command *)

Definition XCITE_FALLBACKS : sdict :=
  [ ("next", XCITE ++ "prospect-store.mjs next");
    ("stats", XCITE ++ "prospect-store.mjs stats");
    ("sent", XCITE ++ "prospect-store.mjs mark-sent");
    ("skip", XCITE ++ "prospect-store.mjs mark-skipped");
    ("replied", XCITE ++ "prospect-store.mjs mark-replied") ].

Definition ICASE_DOTALL : Re.flags :=
  {| Re.IGNORECASE := true; Re.MULTILINE := false; Re.DOTALL := true |}.

(** The common head of the command patterns: the start of the text, or a
    closing bracket and any white space after it. *)
Definition at_start_or_bracket : Re.re :=
  Re.Alt Re.Bol (Re.Cat (Re.Chr "]") (Re.star Re.space)).

(** [scout\s+@?(\S+)] with [re.IGNORECASE] *)
Definition SCOUT_RE : Re.re :=
  Re.cat [Re.lit "scout"; Re.plus Re.space; Re.opt (Re.Chr "@"); Re.Grp 1 (Re.plus Re.nonspace)].

(** The head, [(?:consensus|/k_llm|/k-llm|k-llm|k_llm|kllm)[:\s]+(.+)],
    with [re.IGNORECASE | re.DOTALL] *)
Definition CONSENSUS_RE : Re.re :=
  Re.cat [at_start_or_bracket;
          Re.alt [Re.lit "consensus"; Re.lit "/k_llm"; Re.lit "/k-llm"; Re.lit "k-llm";
                  Re.lit "k_llm"; Re.lit "kllm"];
          Re.plus (Re.Cls false (fun c => Ascii.eqb c ":" || Py.is_space c));
          Re.Grp 1 (Re.plus Re.Dot)].

(** The head, [enable\s+(\S+)], with [re.IGNORECASE] *)
Definition SKILL_ENABLE_RE : Re.re :=
  Re.cat [at_start_or_bracket; Re.lit "enable"; Re.plus Re.space; Re.Grp 1 (Re.plus Re.nonspace)].

(** The head, [disable\s+(\S+)], with [re.IGNORECASE] *)
Definition SKILL_DISABLE_RE : Re.re :=
  Re.cat [at_start_or_bracket; Re.lit "disable"; Re.plus Re.space; Re.Grp 1 (Re.plus Re.nonspace)].

(** The head, [(?:skills|skill list|/skills)], with [re.IGNORECASE] *)
Definition SKILL_LIST_RE : Re.re :=
  Re.cat [at_start_or_bracket; Re.alt [Re.lit "skills"; Re.lit "skill list"; Re.lit "/skills"]].

Definition SKILL_MANAGER : string := "node /data/.openclaw/skills/skill-manager.mjs".

Definition exec_call (id command : string) : Json :=
  tool_call id "exec" (json_dumps (JDict [("command", JStr command)])).

(** [any(t.get('function', {}).get('name') == 'exec'
        for t in tool_defs if t.get('type') == 'function')]:
    the generator is consumed up to the first hit. *)
Fixpoint any_exec (tools : list Json) : M bool :=
  match tools with
  | [] => ret false
  | t :: tools' =>
      d <- as_dict t ;;
      if is_str (get d "type") "function" then
        name <- function_name d JNull ;;
        if is_str name "exec" then ret true else any_exec tools'
      else any_exec tools'
  end.

(** The loop over [XCITE_FALLBACKS.items()]. *)
Fixpoint simple_command (msg : string) (table : sdict) : option string :=
  match table with
  | [] => None
  | (trigger, cmd) :: table' =>
      if String.eqb msg trigger || Py.startswith (trigger ++ " ") msg then Some cmd
      else simple_command msg table'
  end.

Definition exec_markers : list string :=
  ["Exec completed"; "consensus.mjs"; "Tool result"; "code 0"; "code 1"].

(** [f"TELEGRAM_BOT_TOKEN='{bot_token}'" if bot_token else ""] *)
Definition bot_token_env (bot_token : string) : string :=
  if String.eqb bot_token "" then "" else "TELEGRAM_BOT_TOKEN='" ++ bot_token ++ "'".

(** The command line of the K-LLM consensus call. *)
Definition consensus_command (OPENROUTER_KEY bot_token prompt : string) (chat_id : option string)
  : string :=
  let chat_id_arg :=
    match chat_id with
    | Some id => if String.eqb id "" then "" else " --chatId '" ++ id ++ "'"
    | None => ""
    end in
  "cd /data/.openclaw/skills/k-llm && OPENROUTER_API_KEY='" ++ OPENROUTER_KEY ++ "' " ++
  bot_token_env bot_token ++ " node scripts/consensus.mjs --prompt '" ++ prompt ++ "'" ++
  chat_id_arg.

(** [json.dumps({'command': cmd, 'timeoutMs': 120000})] *)
Definition consensus_arguments (OPENROUTER_KEY bot_token prompt : string)
  (chat_id : option string) : string :=
  json_dumps (JDict [("command", JStr (consensus_command OPENROUTER_KEY bot_token prompt chat_id));
                     ("timeoutMs", JInt 120000)]).

Definition consensus_call (OPENROUTER_KEY bot_token prompt : string) (chat_id : option string)
  : Json :=
  tool_call "call_consensus_0" "exec" (consensus_arguments OPENROUTER_KEY bot_token prompt chat_id).

(** The part of [fallback_tool_call] after the [exec] check. *)
Definition fallback_command (OPENROUTER_KEY bot_token user_msg : string) (chat_id : option string)
  : option (list Json) :=
  let msg := Py.lower (Py.strip user_msg) in
  match Re.search ICASE SKILL_LIST_RE (Py.strip user_msg) with
  | Some _ => Some [exec_call "call_skills_0" (SKILL_MANAGER ++ " list")]
  | None =>
  match Re.search ICASE SKILL_ENABLE_RE (Py.strip user_msg) with
  | Some em =>
      Some [exec_call "call_skills_0" (SKILL_MANAGER ++ " enable " ++ Py.lower (Re.group em 1))]
  | None =>
  match Re.search ICASE SKILL_DISABLE_RE (Py.strip user_msg) with
  | Some dm =>
      Some [exec_call "call_skills_0" (SKILL_MANAGER ++ " disable " ++ Py.lower (Re.group dm 1))]
  | None =>
  match simple_command msg XCITE_FALLBACKS with
  | Some cmd => Some [exec_call "call_fallback_0" cmd]
  | None =>
  match Re.match_ ICASE SCOUT_RE msg with
  | Some m =>
      Some [exec_call "call_fallback_0"
              (XCITE ++ "scout-batch.mjs --seed " ++ Py.lower (Re.group m 1))]
  | None =>
      if negb (existsb (fun marker => Py.contains marker user_msg) exec_markers) then
        match Re.search ICASE_DOTALL CONSENSUS_RE (Py.strip user_msg) with
        | Some cm =>
            let prompt := Py.replace "'" ("'" ++ Py.bs ++ "''") (Py.strip (Re.group cm 1)) in
            Some [consensus_call OPENROUTER_KEY bot_token prompt chat_id]
        | None => None
        end
      else None
  end end end end end.

Definition fallback_tool_call (OPENROUTER_KEY bot_token user_msg : string) (tool_defs : Json)
  (chat_id : option string) : M (option (list Json)) :=
  if negb (truthy tool_defs) then ret None
  else
    tools <- iter tool_defs ;;
    has_exec <- any_exec tools ;;
    if negb has_exec then ret None
    else ret (fallback_command OPENROUTER_KEY bot_token user_msg chat_id).

(** ** [inject_tool_descriptions] *)

(** The first text part of a content list gets [extra] appended. *)
Fixpoint append_to_first_text (parts : list Json) (extra : string) : M (list Json) :=
  match parts with
  | [] => ret []
  | part :: parts' =>
      match text_part part with
      | Some d =>
          t <- str_add (get_or d "text" (JStr "")) extra ;;
          ret (JDict (dict_set d "text" (JStr t)) :: parts')
      | None =>
          rest <- append_to_first_text parts' extra ;;
          ret (part :: rest)
      end
  end.

(** What the loops of [inject_tool_descriptions] and of the direct route
    do to the one system message they touch. *)
Definition append_to_message (msg : dict) (extra : string) : M dict :=
  match get_or msg "content" (JStr "") with
  | JStr content => ret (dict_set msg "content" (JStr (content ++ extra)))
  | JList parts =>
      parts' <- append_to_first_text parts extra ;;
      ret (dict_set msg "content" (JList parts'))
  | _ => ret msg
  end.

(** The first system or developer message, if any, is rewritten by [f]. *)
Fixpoint on_first_system (f : dict -> M dict) (msgs : list dict) : M (option (list dict)) :=
  match msgs with
  | [] => ret None
  | msg :: msgs' =>
      if is_system msg then
        msg' <- f msg ;; ret (Some (msg' :: msgs'))
      else
        r <- on_first_system f msgs' ;;
        ret (match r with Some l => Some (msg :: l) | None => None end)
  end.

Definition set_messages (data : dict) (msgs : list dict) : dict :=
  dict_set data "messages" (JList (map JDict msgs)).

(** [msgs] is the list held by [data['messages']], mutated in place; when
    the key is absent the list is a fresh one and the insertion is lost. *)
Definition inject_tool_descriptions (data : dict) (tool_text : string) : M dict :=
  msgs <- iter_dicts (get_or data "messages" (JList [])) ;;
  r <- on_first_system (fun msg => append_to_message msg tool_text) msgs ;;
  match r with
  | Some msgs' => ret (set_messages data msgs')
  | None =>
      let system := [("role", JStr "system"); ("content", JStr (Py.strip tool_text))] in
      match dict_get data "messages" with
      | None => ret data
      | Some (JList l) => ret (dict_set data "messages" (JList (JDict system :: l)))
      | Some _ => raise AttributeError
      end
  end.

(** ** [rewrite_model_in_response] *)

(** The body of a response is a byte string, one byte per character of
    a [string].  [decode('utf-8', errors='replace')] reads the well-formed
    UTF-8 sequences and puts U+FFFD in the place of every maximal
    ill-formed part: a byte that cannot start a sequence, a start byte
    whose next byte cannot follow it, or a sequence cut short by a byte
    that is not a continuation byte or by the end of the data.  The text
    is kept here in its UTF-8 encoding, which [encode('utf-8')] gives back
    at the end: the backend ids replaced are ASCII, so they occur in the
    encoding exactly where they occur in the text. *)
Definition REPLACEMENT_CHARACTER : string := String "239" (String "191" (String "189" "")).

Definition is_continuation (c : ascii) : bool :=
  ((128 <=? Py.code c) && (Py.code c <=? 191))%nat.

(** The byte after the start byte of a three-byte sequence: a
    continuation byte that gives neither an overlong form (after E0) nor a
    surrogate (after ED). *)
Definition second_of_three (lead c : ascii) : bool :=
  (is_continuation c
   && negb ((Py.code lead =? 224) && (Py.code c <? 160))
   && negb ((Py.code lead =? 237) && (160 <=? Py.code c)))%nat.

(** The byte after the start byte of a four-byte sequence: nothing
    overlong (after F0) and nothing above U+10FFFF (after F4). *)
Definition second_of_four (lead c : ascii) : bool :=
  (is_continuation c
   && negb ((Py.code lead =? 240) && (Py.code c <? 144))
   && negb ((Py.code lead =? 244) && (144 <=? Py.code c)))%nat.

(** [data.decode('utf-8', errors='replace').encode('utf-8')] *)
Fixpoint utf8_replaced (data : string) : string :=
  match data with
  | EmptyString => EmptyString
  | String b0 s1 =>
      let n0 := Py.code b0 in
      if (n0 <? 128)%nat then String b0 (utf8_replaced s1)
      else if ((n0 <? 194) || (244 <? n0))%nat then REPLACEMENT_CHARACTER ++ utf8_replaced s1
      else if (n0 <? 224)%nat then
        match s1 with
        | EmptyString => REPLACEMENT_CHARACTER
        | String b1 s2 =>
            if is_continuation b1 then String b0 (String b1 (utf8_replaced s2))
            else REPLACEMENT_CHARACTER ++ utf8_replaced s1
        end
      else if (n0 <? 240)%nat then
        match s1 with
        | EmptyString => REPLACEMENT_CHARACTER
        | String b1 s2 =>
            if second_of_three b0 b1 then
              match s2 with
              | EmptyString => REPLACEMENT_CHARACTER
              | String b2 s3 =>
                  if is_continuation b2 then String b0 (String b1 (String b2 (utf8_replaced s3)))
                  else REPLACEMENT_CHARACTER ++ utf8_replaced s2
              end
            else REPLACEMENT_CHARACTER ++ utf8_replaced s1
        end
      else
        match s1 with
        | EmptyString => REPLACEMENT_CHARACTER
        | String b1 s2 =>
            if second_of_four b0 b1 then
              match s2 with
              | EmptyString => REPLACEMENT_CHARACTER
              | String b2 s3 =>
                  if is_continuation b2 then
                    match s3 with
                    | EmptyString => REPLACEMENT_CHARACTER
                    | String b3 s4 =>
                        if is_continuation b3
                        then String b0 (String b1 (String b2 (String b3 (utf8_replaced s4))))
                        else REPLACEMENT_CHARACTER ++ utf8_replaced s3
                    end
                  else REPLACEMENT_CHARACTER ++ utf8_replaced s2
              end
            else REPLACEMENT_CHARACTER ++ utf8_replaced s1
        end
  end.

(** Bytes below 128 only. *)
Fixpoint ascii_only (s : string) : bool :=
  match s with
  | EmptyString => true
  | String c s' => (Py.code c <? 128)%nat && ascii_only s'
  end.

Definition rewrite_model_in_response (data_bytes : string) (original_model : Json) : M string :=
  fold_left (fun acc kv => t <- acc ;; m <- as_str original_model ;; ret (Py.replace (fst kv) m t))
            REVERSE_MAP (ret (utf8_replaced data_bytes)).

(** ** [strip_no_reply_from_content] *)

(** [\n{3,}] *)
Definition BLANK_LINES : Re.re := Re.at_least 3 Re.newline.

Definition strip_no_reply_text (content : string) : string :=
  let content := fold_left (fun c pattern => Re.sub ICASE pattern "" c) NO_REPLY_PATTERNS content in
  let content := Re.sub Re.no_flags BLANK_LINES (Py.nl ++ Py.nl) content in
  content ++ SYSTEM_OVERRIDE.

Definition strip_no_reply_from_content (content : Json) : Json :=
  match content with
  | JStr s => JStr (strip_no_reply_text s)
  | _ => content
  end.

(** ** The process and its surroundings

    What the handler reads from outside the request: two environment
    variables, the clock, the JSON decoder of the standard library, the
    two upstream services (an exchange either fails with a message or
    yields a status and a body) and the web search (the text found for a
    user message, when [needs_web_search] holds of it and [web_search]
    returns results). *)
Record world : Type :=
  { OPENROUTER_API_KEY : string;
    TELEGRAM_BOT_TOKEN : string;
    now : Z;
    json_loads : string -> option Json;
    upstream : string -> option string -> string + (Z * string);
    openrouter : route -> string -> string + (Z * string);
    search_results : string -> option string }.

(** What the client gets: a response with a status, a content type and a
    body; the 502 error object built from an exception by [_proxy]
    (empty prefix) or [_direct_proxy]; a response followed by a second
    one, when an exception is handled after the first was written; or
    nothing, when an exception leaves the handler before anything is
    written. *)
Inductive outcome : Type :=
| Sent (status : Z) (content_type : string) (body : string)
| Sent502 (prefix : string) (e : exn)
| SentTwice (first second : outcome)
| Unanswered (e : exn).

Definition caught_by (handled : list exn) (e : exn) : bool :=
  existsb (fun h =>
             match h, e with
             | JSONDecodeError, JSONDecodeError => true
             | KeyError, KeyError => true
             | IndexError, IndexError => true
             | _, _ => false
             end) handled.

(** [try: x = m  except handled: pass], [x] keeping [old] in that case. *)
Definition try_or {A} (handled : list exn) (m : M A) (old : A) : M A :=
  match m with
  | inl e => if caught_by handled e then ret old else raise e
  | inr a => ret a
  end.

Definition loads (w : world) (text : string) : M Json :=
  match json_loads w text with
  | Some j => ret j
  | None => raise JSONDecodeError
  end.

(** ** Subscripts and sizes *)

(** [j[0]] *)
Definition index0 (j : Json) : M Json :=
  match j with
  | JList (x :: _) => ret x
  | JList [] => raise IndexError
  | JStr (String c _) => ret (JStr (String c ""))
  | JStr EmptyString => raise IndexError
  | JDict _ => raise KeyError
  | _ => raise TypeError
  end.

(** [j[k]] for a string key *)
Definition subscript (j : Json) (k : string) : M Json :=
  match j with
  | JDict d => match dict_get d k with Some v => ret v | None => raise KeyError end
  | _ => raise TypeError
  end.

(** [len(j)] *)
Definition py_len (j : Json) : M nat :=
  match j with
  | JStr s => ret (String.length s)
  | JList l => ret (List.length l)
  | JDict d => ret (List.length d)
  | _ => raise TypeError
  end.

(** [j[i:i+n]] *)
Definition py_slice (i n : nat) (j : Json) : M Json :=
  match j with
  | JStr s => ret (JStr (Py.slice i (i + n) s))
  | JList l => ret (JList (firstn n (skipn i l)))
  | _ => raise TypeError
  end.

(** [resp_json.get('choices', [{}])[0]] *)
Definition first_choice (resp_json : dict) : M dict :=
  c <- index0 (get_or resp_json "choices" (JList [JDict []])) ;;
  as_dict c.

(** [resp_json.get('choices', [{}])[0].get('message', {})] *)
Definition first_message (resp_json : dict) : M dict :=
  c <- first_choice resp_json ;;
  as_dict (get_or c "message" (JDict [])).

(** [resp_json['choices'][0][k] = v] for each [(k, v)] of [updates] *)
Definition update_first_choice (resp_json : dict) (updates : list (string * Json)) : M dict :=
  choices <- subscript (JDict resp_json) "choices" ;;
  match choices with
  | JList (JDict c :: rest) =>
      ret (dict_set resp_json "choices"
             (JList (JDict (fold_left (fun c kv => dict_set c (fst kv) (snd kv)) updates c) :: rest)))
  | JList [] => raise IndexError
  | _ => raise TypeError
  end.

(** ** Server-sent events *)

Definition chunk (id created model delta finish_reason : Json) (usage : option Json) : Json :=
  JDict ([ ("id", id); ("object", JStr "chat.completion.chunk");
           ("created", created); ("model", model);
           ("choices", JList [JDict [("index", JInt 0); ("delta", delta);
                                     ("finish_reason", finish_reason)]]) ]
         ++ match usage with Some u => [("usage", u)] | None => [] end)%list.

(** The entry of [delta['tool_calls']] for the call [tc] at position [idx]. *)
Definition tool_call_delta (idx : nat) (tc : Json) : M Json :=
  id <- subscript tc "id" ;;
  f <- subscript tc "function" ;;
  name <- subscript f "name" ;;
  f <- subscript tc "function" ;;
  arguments <- subscript f "arguments" ;;
  ret (JDict [ ("index", JInt (Z.of_nat idx)); ("id", id); ("type", JStr "function");
               ("function", JDict [("name", name); ("arguments", arguments)]) ]).

(** [f'data: {json.dumps(c)}\n\n'] for every chunk, then the end marker. *)
Definition sse_body (chunks : list Json) : string :=
  String.concat "" (map (fun c => "data: " ++ json_dumps c ++ Py.nl ++ Py.nl) chunks)
  ++ "data: [DONE]" ++ Py.nl ++ Py.nl.

(** The content chunks of [_proxy] and [_direct_proxy]:
    [for i in range(0, max(len(content), 1), chunk_size)]. *)
Definition chunk_size : nat := 100.

Definition content_pieces (content : Json) : M (list Json) :=
  n <- py_len content ;;
  mapM (fun i => py_slice i chunk_size content) (Py.range0 (Nat.max n 1) chunk_size).

Definition content_chunks (id created model role content finish : Json) (usage : Json)
  : M (list Json) :=
  pieces <- content_pieces content ;;
  ret ([chunk id created model (JDict [("role", role); ("content", JStr "")]) JNull None]
       ++ map (fun piece => chunk id created model (JDict [("content", piece)]) JNull None) pieces
       ++ [chunk id created model (JDict []) finish (Some usage)])%list.

(** The tool-call chunks of [_proxy]: the role is set on the first one and
    removed again when it is [None]. *)
Definition proxy_tool_chunk (id created model role : Json) (it : nat * Json) : M Json :=
  d <- tool_call_delta (fst it) (snd it) ;;
  let role := match fst it with O => role | _ => JNull end in
  let delta := match role with
               | JNull => [("tool_calls", JList [d])]
               | _ => [("role", role); ("tool_calls", JList [d])]
               end in
  ret (chunk id created model (JDict delta) JNull None).

(** The tool-call chunks of the forced response and of [_direct_proxy]:
    the role is added to the first one. *)
Definition keyed_tool_chunk (id created model role : Json) (it : nat * Json) : M Json :=
  d <- tool_call_delta (fst it) (snd it) ;;
  let delta := match fst it with
               | O => [("tool_calls", JList [d]); ("role", role)]
               | _ => [("tool_calls", JList [d])]
               end in
  ret (chunk id created model (JDict delta) JNull None).

(** The fields the two converters read from the decoded response. *)
Record answer : Type :=
  { a_content : Json; a_role : Json; a_tool_calls : Json; a_finish : Json;
    a_id : Json; a_created : Json; a_usage : Json }.

Definition read_answer (resp_json : Json) : M answer :=
  r <- as_dict resp_json ;;
  msg <- first_message r ;;
  c <- first_choice r ;;
  ret {| a_content := str_or_empty (get_or msg "content" (JStr ""));
         a_role := get_or msg "role" (JStr "assistant");
         a_tool_calls := get msg "tool_calls";
         a_finish := get_or c "finish_reason" (JStr "stop");
         a_id := get_or r "id" (JStr "chatcmpl-0");
         a_created := get_or r "created" (JInt 0);
         a_usage := get_or r "usage" (JDict []) |}.

(** The conversion of [_proxy]. *)
Definition proxy_sse_chunks (resp_json : Json) (original_model : Json) : M (list Json) :=
  a <- read_answer resp_json ;;
  r <- as_dict resp_json ;;
  let model := get_or r "model" original_model in
  n <- py_len (a_content a) ;;
  py_slice 0 200 (a_content a) ;;;
  if truthy (a_tool_calls a) then
    py_len (a_tool_calls a) ;;;
    tcs <- iter (a_tool_calls a) ;;
    chunks <- mapM (proxy_tool_chunk (a_id a) (a_created a) model (a_role a)) (Py.enumerate tcs) ;;
    ret (chunks ++ [chunk (a_id a) (a_created a) model (JDict []) (JStr "tool_calls")
                          (Some (a_usage a))])%list
  else
    content_chunks (a_id a) (a_created a) model (a_role a) (a_content a) (a_finish a) (a_usage a).

(** The conversion of [_direct_proxy]: the model is the client's. *)
Definition direct_sse_chunks (resp_json : Json) (original_model : Json) : M (list Json) :=
  a <- read_answer resp_json ;;
  let model := original_model in
  if truthy (a_tool_calls a) then
    tcs <- iter (a_tool_calls a) ;;
    chunks <- mapM (keyed_tool_chunk (a_id a) (a_created a) model (a_role a)) (Py.enumerate tcs) ;;
    ret (chunks ++ [chunk (a_id a) (a_created a) model (JDict []) (JStr "tool_calls")
                          (Some (a_usage a))])%list
  else
    content_chunks (a_id a) (a_created a) model (a_role a) (a_content a) (a_finish a) (a_usage a).

(** The conversion of the forced response in [do_POST]. *)
Definition forced_sse_chunks (created original_model : Json) (forced_tc : list Json)
  : M (list Json) :=
  chunks <- mapM (keyed_tool_chunk (JStr "chatcmpl-forced-0") created original_model
                                   (JStr "assistant")) (Py.enumerate forced_tc) ;;
  ret (chunks ++ [chunk (JStr "chatcmpl-forced-0") created original_model (JDict [])
                        (JStr "tool_calls") None])%list.

(** ** [ProxyHandler._proxy] *)

Definition JSON_ERRORS : list exn := [JSONDecodeError; KeyError; IndexError].

Definition NO_ANSWER_FALLBACK : string := "Hey! I got your message. What's on your mind?".

(** [content.strip().upper() == 'NO_REPLY'] for a string [content] *)
Definition is_no_reply (content : Json) : bool :=
  match content with
  | JStr s => String.eqb (Py.upper (Py.strip s)) "NO_REPLY"
  | _ => false
  end.

(** The first [try] block of [_proxy]: tool calls are injected for a known
    command, or else extracted from the text of the answer. *)
Definition tool_call_block (w : world) (data : string) (tool_defs : Json)
  (last_user_text : option string) : M string :=
  resp_json <- loads w data ;;
  r <- as_dict resp_json ;;
  msg <- first_message r ;;
  let text_content := str_or_empty (get_or msg "content" (JStr "")) in
  forced_tc <-
    match last_user_text with
    | Some t =>
        if String.eqb t "" then ret None
        else fallback_tool_call (OPENROUTER_API_KEY w) (TELEGRAM_BOT_TOKEN w) t tool_defs None
    | None => ret None
    end ;;
  match forced_tc with
  | Some (tc :: tcs) =>
      let msg := dict_set (dict_set msg "tool_calls" (JList (tc :: tcs)))
                          "content" (or_none text_content) in
      r <- update_first_choice r [("message", JDict msg); ("finish_reason", JStr "tool_calls")] ;;
      ret (json_dumps (JDict r))
  | _ =>
      ct <- convert_text_to_tool_calls text_content tool_defs ;;
      match snd ct with
      | Some (tc :: tcs) =>
          let msg := dict_set (dict_set msg "content" (or_none (JStr (fst ct))))
                              "tool_calls" (JList (tc :: tcs)) in
          r <- update_first_choice r [("message", JDict msg); ("finish_reason", JStr "tool_calls")] ;;
          ret (json_dumps (JDict r))
      | _ => ret data
      end
  end.

(** The second [try] block: an answer that is just NO_REPLY is replaced. *)
Definition no_reply_block (w : world) (data : string) : M string :=
  resp_json <- loads w data ;;
  r <- as_dict resp_json ;;
  msg <- first_message r ;;
  if is_no_reply (get_or msg "content" (JStr "")) then
    choices <- subscript (JDict r) "choices" ;;
    c <- index0 choices ;;
    m <- subscript c "message" ;;
    match m with
    | JDict m =>
        r <- update_first_choice r [("message", JDict (dict_set m "content" (JStr NO_ANSWER_FALLBACK)))] ;;
        ret (json_dumps (JDict r))
    | _ => raise TypeError
    end
  else ret data.

Definition SSE : string := "text/event-stream; charset=utf-8".
Definition JSON : string := "application/json".

Definition exchange (r : string + (Z * string)) : M (Z * string) :=
  match r with
  | inl msg => raise (OSError msg)
  | inr x => ret x
  end.

Definition _proxy (w : world) (method : string) (body : option string)
  (client_wants_stream original_model tool_defs : Json) (last_user_text : option string)
  : outcome :=
  let post := String.eqb method "POST" in
  let run : M outcome :=
    resp <- exchange (upstream w method body) ;;
    let status := fst resp in
    data <- rewrite_model_in_response (snd resp) original_model ;;
    data <- (if post && truthy tool_defs
             then try_or JSON_ERRORS (tool_call_block w data tool_defs last_user_text) data
             else ret data) ;;
    data <- (if post then try_or JSON_ERRORS (no_reply_block w data) data else ret data) ;;
    if truthy client_wants_stream then
      match (resp_json <- loads w data ;; proxy_sse_chunks resp_json original_model) with
      | inr chunks => ret (Sent status SSE (sse_body chunks))
      | inl _ => ret (Sent status JSON data)
      end
    else ret (Sent status JSON data) in
  match run with
  | inr out => out
  | inl e => Sent502 "" e
  end.

(** ** [ProxyHandler._direct_proxy] *)

Definition _direct_proxy (w : world) (body_bytes : string) (client_wants_stream : Json)
  (original_model : string) (route_cfg : route) : outcome :=
  let run : M outcome :=
    resp <- exchange (openrouter w route_cfg body_bytes) ;;
    let status := fst resp in
    let data := snd resp in
    if truthy client_wants_stream then
      match (resp_json <- loads w data ;;
             chunks <- direct_sse_chunks resp_json (JStr original_model) ;;
             a <- read_answer resp_json ;;
             ret (chunks, a)) with
      | inr (chunks, a) =>
          let sent := Sent 200 SSE (sse_body chunks) in
          (* the log line written after the response *)
          match (py_len (a_content a) ;;;
                 py_len (if truthy (a_tool_calls a) then a_tool_calls a else JList [])) with
          | inr _ => ret sent
          | inl _ => ret (SentTwice sent (Sent status JSON data))
          end
      | inl _ => ret (Sent status JSON data)
      end
    else
      let data :=
        match json_loads w data with
        | Some (JDict r) => json_dumps (JDict (dict_set r "model" (JStr original_model)))
        | _ => data
        end in
      ret (Sent status JSON data) in
  match run with
  | inr out => out
  | inl e => Sent502 "Direct proxy error: " e
  end.

(** ** [ProxyHandler.do_POST] *)

(** The loop that prints every message: what it requires of them. *)
Definition debug_message (j : Json) : M dict :=
  m <- as_dict j ;;
  role <- as_str (get_or m "role" (JStr "?")) ;;
  match get_or m "content" (JStr "") with
  | JList parts =>
      match List.find (fun p => match text_part p with Some _ => true | None => false end) parts with
      | Some (JDict d) => as_str (get_or d "text" (JStr "")) ;;; ret m
      | _ => ret m
      end
  | _ => ret m
  end.

(** The text of a message as the fallback check reads it: the content
    itself, or the text of the first text part of a content list. *)
Fixpoint first_text (parts : list Json) : string :=
  match parts with
  | [] => ""
  | part :: parts' =>
      match text_part part with
      | Some d => match get_or d "text" (JStr "") with JStr t => t | _ => "" end
      | None => first_text parts'
      end
  end.

Definition message_text (m : dict) : string :=
  match get_or m "content" (JStr "") with
  | JStr c => c
  | JList parts => first_text parts
  | _ => ""
  end.

(** [(?:id:|telegram:)(\d{5,})] *)
Definition CHAT_ID_RE : Re.re :=
  Re.cat [Re.alt [Re.lit "id:"; Re.lit "telegram:"]; Re.Grp 1 (Re.at_least 5 Re.digit)].

(** Three backticks, [\s*\n\n(.+)], with [re.DOTALL] *)
Definition AFTER_METADATA_RE : Re.re :=
  Re.cat [Re.lit "```"; Re.star Re.space; Re.newline; Re.newline; Re.Grp 1 (Re.plus Re.Dot)].

(** [\n\n([^\n].+)] with [re.DOTALL] *)
Definition AFTER_BLANK_RE : Re.re :=
  Re.cat [Re.newline; Re.newline; Re.Grp 1 (Re.Cat Re.not_nl (Re.plus Re.Dot))].

(** The user text embedded in a metadata block, or [None] when the
    message is to be skipped. *)
Definition extract_from_metadata (txt : string) : option string :=
  match Re.search DOTALL_ONLY AFTER_METADATA_RE txt with
  | Some m => Some (Py.strip (Re.group m 1))
  | None =>
      match Re.search DOTALL_ONLY AFTER_BLANK_RE txt with
      | Some m =>
          let candidate := Py.strip (Re.group m 1) in
          if negb (Py.startswith "```" candidate) && negb (Py.startswith "{" candidate)
          then Some candidate else None
      | None => None
      end
  end.

Definition looks_like_cron (txt : string) : bool :=
  let stripped := Py.strip txt in
  Py.startswith "System:" stripped
  || Py.contains "cron job" (Py.lower stripped)
  || Py.startswith "A cron job" stripped
  || Py.contains "Cron:" (Py.take 200 stripped)
  || Py.startswith "NO_REPLY" stripped.

(** The loop over [reversed(messages)]: the latest genuine user text and
    the Telegram chat id met on the way. *)
Fixpoint latest_user_text (newest_first : list dict) (chat_id : option string)
  : option string * option string :=
  match newest_first with
  | [] => (None, chat_id)
  | m :: older =>
      if is_str (get m "role") "user" then
        let txt := message_text m in
        if Py.startswith "Conversation info" (Py.strip txt) then
          let chat_id :=
            match Re.search Re.no_flags CHAT_ID_RE txt with
            | Some im => Some (Re.group im 1)
            | None => chat_id
            end in
          match extract_from_metadata txt with
          | Some txt => if looks_like_cron txt then latest_user_text older chat_id
                        else (Some txt, chat_id)
          | None => latest_user_text older chat_id
          end
        else if looks_like_cron txt then latest_user_text older chat_id
        else (Some txt, chat_id)
      else latest_user_text older chat_id
  end.

(** [has_tool_results]: the last message that is not a system one is a
    tool result, an assistant turn with tool calls, or mentions a
    completed exec. *)
Definition has_tool_results (msgs : list dict) : bool :=
  let non_system_msgs := filter (fun m => negb (is_system m)) msgs in
  let last_non_sys := List.last non_system_msgs [] in
  is_str (get last_non_sys "role") "tool"
  || (is_str (get last_non_sys "role") "assistant" && truthy (get last_non_sys "tool_calls"))
  || Py.contains "Exec completed" (py_str (get_or last_non_sys "content" (JStr ""))).

(** The tool definitions used when the client sent none. *)
Definition SYNTHETIC_TOOLS : Json :=
  JList [JDict [("type", JStr "function");
                ("function", JDict [("name", JStr "exec");
                                    ("parameters",
                                     JDict [("type", JStr "object");
                                            ("properties", JDict [("command", JDict [("type", JStr "string")])]);
                                            ("required", JList [JStr "command"])])])]].

(** The forced tool call of [do_POST], if any. *)
Definition forced_tool_call (w : world) (data : dict) (msgs : list dict) : M (option (list Json)) :=
  let found := latest_user_text (rev msgs) None in
  let tool_defs_for_fallback := get_or data "tools" (JList []) in
  let skip := has_tool_results msgs in
  py_len tool_defs_for_fallback ;;;
  match fst found with
  | Some text =>
      if String.eqb text "" || skip then ret None
      else if truthy tool_defs_for_fallback then
        fallback_tool_call (OPENROUTER_API_KEY w) (TELEGRAM_BOT_TOKEN w) text
                           tool_defs_for_fallback (snd found)
      else
        fallback_tool_call (OPENROUTER_API_KEY w) (TELEGRAM_BOT_TOKEN w) text
                           SYNTHETIC_TOOLS (snd found)
  | None => ret None
  end.

Definition synth_resp (w : world) (original_model : Json) (forced_tc : list Json) : Json :=
  JDict [ ("id", JStr "chatcmpl-forced-0");
          ("object", JStr "chat.completion");
          ("created", JInt (now w));
          ("model", original_model);
          ("choices", JList [JDict [("index", JInt 0);
                                    ("message", JDict [("role", JStr "assistant");
                                                       ("content", JNull);
                                                       ("tool_calls", JList forced_tc)]);
                                    ("finish_reason", JStr "tool_calls")]]);
          ("usage", JDict [("prompt_tokens", JInt 0); ("completion_tokens", JInt 0);
                           ("total_tokens", JInt 0)]) ].

Definition forced_response (w : world) (client_wants_stream original_model : Json)
  (forced_tc : list Json) : M outcome :=
  if truthy client_wants_stream then
    chunks <- forced_sse_chunks (JInt (now w)) original_model forced_tc ;;
    ret (Sent 200 SSE (sse_body chunks))
  else ret (Sent 200 JSON (json_dumps (synth_resp w original_model forced_tc))).

(** *** The direct route *)

Definition DIRECT_OVERRIDE : string :=
  Py.nl ++ Py.nl ++
  "CRITICAL INSTRUCTION: You are chatting with a real user on Telegram. " ++
  "You MUST respond with helpful, natural, conversational text. " ++
  "NEVER output system commands like HEARTBEAT_OK, NO_REPLY, session_status, or tool names as your response. " ++
  "NEVER output just an emoji and a tool name. " ++
  "If the user says hello, greet them back warmly. " ++
  "If the user asks a question, answer it. " ++
  "Always be helpful, friendly, and conversational.".

(** [for p in params: if p in data: del data[p]], with the names removed. *)
Fixpoint strip_keys (params : list string) (data : dict) : dict * list string :=
  match params with
  | [] => (data, [])
  | p :: params' =>
      if has_key data p then
        let r := strip_keys params' (dict_del data p) in (fst r, p :: snd r)
      else strip_keys params' data
  end.

Definition direct_request (data : dict) (route_cfg : route) : M dict :=
  let data := fst (strip_keys (strip_params route_cfg) data) in
  let data := dict_set data "model" (JStr (actual_model route_cfg)) in
  let data := dict_set data "stream" (JBool false) in
  msgs <- iter_dicts (get_or data "messages" (JList [])) ;;
  r <- on_first_system (fun msg => append_to_message msg DIRECT_OVERRIDE) msgs ;;
  match r with
  | Some msgs' => ret (set_messages data msgs')
  | None => ret data
  end.

(** *** The local route *)

(** One step of the cleaning loop. *)
Definition clean_message (msg : dict) : dict :=
  if is_str (get msg "role") "tool" then
    let tool_content := get_or msg "content" (JStr "") in
    let tool_name := get_or msg "name" (JStr "tool") in
    [ ("role", JStr "user");
      ("content", JStr ("[Tool result from " ++ py_str tool_name ++ "]: " ++ py_str tool_content)) ]
  else
    let msg_copy := dict_del (dict_del msg "tool_calls") "tool_call_id" in
    let msg_copy :=
      if is_system msg_copy then
        match get_or msg_copy "content" (JStr "") with
        | JStr content => dict_set msg_copy "content" (strip_no_reply_from_content (JStr content))
        | JList parts =>
            dict_set msg_copy "content"
              (JList (map (fun part =>
                             match text_part part with
                             | Some d =>
                                 JDict (dict_set d "text"
                                          (strip_no_reply_from_content (get_or d "text" (JStr ""))))
                             | None => part
                             end) parts))
        | _ => msg_copy
        end
      else msg_copy in
    if is_str (get msg_copy "role") "assistant" then
      let content := get_or msg_copy "content" (JStr "") in
      if is_no_reply content then dict_set msg_copy "content" (JStr "(thinking...)")
      else if negb (truthy content) then dict_set msg_copy "content" (JStr "(no response)")
      else msg_copy
    else msg_copy.

Definition MAX_HISTORY : nat := 4.

(** Message trimming: the system and developer messages, then the last
    [MAX_HISTORY] of the others. *)
Definition trim_messages (cleaned_msgs : list dict) : list dict :=
  let system_msgs := filter is_system cleaned_msgs in
  let convo_msgs := filter (fun m => negb (is_system m)) cleaned_msgs in
  let convo_msgs :=
    if (MAX_HISTORY <? List.length convo_msgs)%nat then Py.last_n MAX_HISTORY convo_msgs
    else convo_msgs in
  (system_msgs ++ convo_msgs)%list.

(** The text of the last user message as the search step reads it, and
    the index of that message. *)
Fixpoint first_text_or_str (parts : list Json) : option Json :=
  match parts with
  | [] => None
  | part :: parts' =>
      match text_part part with
      | Some d => Some (get_or d "text" (JStr ""))
      | None =>
          match part with
          | JStr t => Some (JStr t)
          | _ => first_text_or_str parts'
          end
      end
  end.

Definition search_text (m : dict) : option Json :=
  match get_or m "content" (JStr "") with
  | JStr c => Some (JStr c)
  | JList parts => first_text_or_str parts
  | _ => None
  end.

(** The index of the last message satisfying [p]. *)
Fixpoint last_index {A} (p : A -> bool) (l : list A) : option nat :=
  match l with
  | [] => None
  | x :: l' =>
      match last_index p l' with
      | Some i => Some (S i)
      | None => if p x then Some 0%nat else None
      end
  end.

Definition is_user (m : dict) : bool := is_str (get m "role") "user".

Definition search_message (results : string) : dict :=
  [ ("role", JStr "system");
    ("content", JStr (
       "Web search results for context (use these to answer the user's question accurately):" ++
       Py.nl ++ Py.nl ++ results ++ Py.nl ++ Py.nl ++
       "Use the above search results to provide an accurate, up-to-date answer. " ++
       "Cite sources when relevant. If the results don't fully answer the question, " ++
       "say what you know and note what you couldn't verify.")) ].

(** [l.insert(i, x)] *)
Definition insert_at {A} (i : nat) (x : A) (l : list A) : list A :=
  (firstn i l ++ x :: skipn i l)%list.

(** The last debug line reads the first part of a content list. *)
Definition debug_last (msgs : list dict) : M unit :=
  match msgs with
  | [] => ret tt
  | _ =>
      match get_or (List.last msgs []) "content" (JStr "") with
      | JList (part :: _) => as_dict part ;;; ret tt
      | _ => ret tt
      end
  end.

(** The local variables [do_POST] reads after its [try] statement;
    [None] is a variable that has not been assigned. *)
Record locals : Type :=
  { l_body : string; l_client_wants_stream : Json; l_original_model : Json;
    l_tool_defs : option Json; l_last_user_text : option (option string) }.

Definition load {A} (name : string) (v : option A) : M A :=
  match v with
  | Some a => ret a
  | None => raise (UnboundLocalError name)
  end.

(** The call that follows the [try] statement. *)
Definition after_try (w : world) (l : locals) : outcome :=
  match (tool_defs <- load "tool_defs" (l_tool_defs l) ;;
         last_user_text <- load "last_user_text" (l_last_user_text l) ;;
         ret (_proxy w "POST" (Some (l_body l)) (l_client_wants_stream l) (l_original_model l)
                     tool_defs last_user_text)) with
  | inr out => out
  | inl e => Unanswered e
  end.

(** An exception in the [try] body: the handled ones are logged and
    control reaches the call after the statement. *)
Definition on_exception (w : world) (e : exn) (l : locals) : outcome :=
  if caught_by [JSONDecodeError; KeyError] e then after_try w l else Unanswered e.

(** The [try] body up to the direct route: either a response, or the data
    to go on with. *)
Definition shortcuts (w : world) (data : dict) : M (outcome + dict) :=
  let original_model := get_or data "model" (JStr "gpt-5.2") in
  let client_wants_stream := get_or data "stream" (JBool false) in
  all <- iter (get_or data "messages" (JList [])) ;;
  msgs <- mapM debug_message all ;;
  forced_tc <- forced_tool_call w data msgs ;;
  match forced_tc with
  | Some (tc :: tcs) =>
      out <- forced_response w client_wants_stream original_model (tc :: tcs) ;;
      ret (inl out)
  | _ =>
      hashable original_model ;;;
      match original_model with
      | JStr name =>
          match route_get (DIRECT_ROUTES (OPENROUTER_API_KEY w)) name with
          | Some route_cfg =>
              data <- direct_request data route_cfg ;;
              ret (inl (_direct_proxy w (json_dumps (JDict data)) client_wants_stream name route_cfg))
          | None => ret (inr data)
          end
      | _ => ret (inr data)
      end
  end.

(** From the model mapping to the trimmed history; [tool_defs] is
    assigned on the way in. *)
Definition normalize (data : dict) (tool_defs : Json) : M dict :=
  let data :=
    match get_or data "model" (JStr "gpt-5.2") with
    | JStr name =>
        match sdict_get MODEL_MAP name with
        | Some local_name => dict_set data "model" (JStr local_name)
        | None => data
        end
    | _ => data
    end in
  let data := dict_set data "stream" (JBool false) in
  let r := strip_keys UNSUPPORTED_PARAMS data in
  let data := fst r in
  data <- (if truthy tool_defs && existsb (String.eqb "tools") (snd r) then
             tool_text <- build_tool_prompt tool_defs ;;
             match tool_text with
             | Some t => if String.eqb t "" then ret data else inject_tool_descriptions data t
             | None => ret data
             end
           else ret data) ;;
  msgs <- iter_dicts (get_or data "messages" (JList [])) ;;
  ret (set_messages data (trim_messages (map clean_message msgs))).

(** The web search step and the last lines of the [try] body. *)
Definition search_step (w : world) (data : dict) : M (dict * option string) :=
  msgs <- iter_dicts (get_or data "messages" (JList [])) ;;
  let last_user_idx := last_index is_user msgs in
  let last_user_text :=
    match last_user_idx with
    | Some i => match search_text (nth i msgs []) with
                | Some (JStr t) => Some t
                | _ => None
                end
    | None => None
    end in
  let msgs :=
    match last_user_text, last_user_idx with
    | Some t, Some i =>
        if String.eqb t "" then msgs
        else match search_results w t with
             | Some results =>
                 if String.eqb results "" then msgs else insert_at i (search_message results) msgs
             | None => msgs
             end
    | _, _ => msgs
    end in
  debug_last msgs ;;;
  ret (set_messages data msgs, last_user_text).

Definition do_POST (w : world) (body : string) : outcome :=
  let unassigned :=
    {| l_body := body; l_client_wants_stream := JBool false; l_original_model := JStr "gpt-5.2";
       l_tool_defs := None; l_last_user_text := None |} in
  match loads w body with
  | inl e => on_exception w e unassigned
  | inr parsed =>
  match as_dict parsed with
  | inl e => on_exception w e unassigned
  | inr data =>
      let assigned :=
        {| l_body := body;
           l_client_wants_stream := get_or data "stream" (JBool false);
           l_original_model := get_or data "model" (JStr "gpt-5.2");
           l_tool_defs := None; l_last_user_text := None |} in
      match shortcuts w data with
      | inl e => on_exception w e assigned
      | inr (inl out) => out
      | inr (inr data) =>
          let tool_defs := get_or data "tools" (JList []) in
          let with_tools :=
            {| l_body := body;
               l_client_wants_stream := l_client_wants_stream assigned;
               l_original_model := l_original_model assigned;
               l_tool_defs := Some tool_defs; l_last_user_text := None |} in
          match normalize data tool_defs with
          | inl e => on_exception w e with_tools
          | inr data =>
              let searching :=
                {| l_body := body;
                   l_client_wants_stream := l_client_wants_stream assigned;
                   l_original_model := l_original_model assigned;
                   l_tool_defs := Some tool_defs; l_last_user_text := Some None |} in
              match search_step w data with
              | inl e => on_exception w e searching
              | inr (data, last_user_text) =>
                  after_try w {| l_body := json_dumps (JDict data);
                                 l_client_wants_stream := l_client_wants_stream assigned;
                                 l_original_model := l_original_model assigned;
                                 l_tool_defs := Some tool_defs;
                                 l_last_user_text := Some last_user_text |}
              end
          end
      end
  end end.

(** ** A JSON decoder for the examples

    [json_loads] is a parameter of the model.  The examples instantiate it
    with this decoder of the JSON grammar without fractions and exponents,
    and with [\u] escapes below 256 only; on such texts it agrees with
    [json.loads]. *)

Module Decoder.

Definition is_ws (c : ascii) : bool :=
  let n := Py.code c in ((n =? 32) || (n =? 9) || (n =? 10) || (n =? 13))%nat.

Fixpoint skip_ws (s : string) : string :=
  match s with
  | String c s' => if is_ws c then skip_ws s' else s
  | EmptyString => EmptyString
  end.

Definition hex_value (c : ascii) : option nat :=
  let n := Py.code c in
  if Py.is_digit c then Some (n - 48)
  else if ((97 <=? n) && (n <=? 102))%nat then Some (n - 87)
  else if ((65 <=? n) && (n <=? 70))%nat then Some (n - 55)
  else None.

(** The characters of a string literal after its opening quote. *)
Fixpoint string_body (s : string) : option (string * string) :=
  match s with
  | EmptyString => None
  | String c s' =>
      let n := Py.code c in
      if (n =? 34)%nat then Some ("", s')
      else if (n <? 32)%nat then None
      else if (n =? 92)%nat then
        match s' with
        | String e s'' =>
            let plain (x : ascii) :=
              match string_body s'' with
              | Some (t, r) => Some (String x t, r)
              | None => None
              end in
            let m := Py.code e in
            if (m =? 34)%nat then plain "034"%char
            else if (m =? 92)%nat then plain "092"%char
            else if (m =? 47)%nat then plain "/"%char
            else if (m =? 98)%nat then plain "008"%char
            else if (m =? 102)%nat then plain "012"%char
            else if (m =? 110)%nat then plain "010"%char
            else if (m =? 114)%nat then plain "013"%char
            else if (m =? 116)%nat then plain "009"%char
            else if (m =? 117)%nat then
              match s'' with
              | String a (String b (String x (String y s3))) =>
                  match hex_value a, hex_value b, hex_value x, hex_value y, string_body s3 with
                  | Some 0%nat, Some 0%nat, Some h, Some l, Some (t, r) =>
                      Some (String (ascii_of_nat (16 * h + l)) t, r)
                  | _, _, _, _, _ => None
                  end
              | _ => None
              end
            else None
        | EmptyString => None
        end
      else
        match string_body s' with
        | Some (t, r) => Some (String c t, r)
        | None => None
        end
  end.

Fixpoint digits (s : string) (acc : Z) : Z * string :=
  match s with
  | String c s' =>
      if Py.is_digit c then digits s' (10 * acc + Z.of_nat (Py.code c - 48))%Z else (acc, s)
  | EmptyString => (acc, s)
  end.

(** An integer literal; a fraction or an exponent is not decoded. *)
Definition number (s : string) : option (Z * string) :=
  let '(neg, t) := match s with
                   | String "-" t => (true, t)
                   | _ => (false, s)
                   end in
  match t with
  | String c t' =>
      if Py.is_digit c then
        let '(z, r) := if (Py.code c =? 48)%nat then (0%Z, t') else digits t 0%Z in
        match r with
        | String d _ =>
            if Py.is_digit d || Ascii.eqb d "." || Ascii.eqb d "e" || Ascii.eqb d "E" then None
            else Some (if neg then (- z)%Z else z, r)
        | EmptyString => Some (if neg then (- z)%Z else z, r)
        end
      else None
  | EmptyString => None
  end.

Fixpoint value (fuel : nat) (s : string) : option (Json * string) :=
  match fuel with
  | O => None
  | S fuel' =>
      match skip_ws s with
      | EmptyString => None
      | String c s' as t =>
          if Ascii.eqb c "034" then
            match string_body s' with
            | Some (x, r) => Some (JStr x, r)
            | None => None
            end
          else if Ascii.eqb c "[" then
            match skip_ws s' with
            | String "]" r => Some (JList [], r)
            | _ =>
                (fix elements (n : nat) (s : string) (acc : list Json) {struct n} :=
                   match n with
                   | O => None
                   | S n' =>
                       match value fuel' s with
                       | Some (v, r) =>
                           match skip_ws r with
                           | String "," r' => elements n' r' (v :: acc)
                           | String "]" r' => Some (JList (rev (v :: acc)), r')
                           | _ => None
                           end
                       | None => None
                       end
                   end) fuel' s' []
            end
          else if Ascii.eqb c "{" then
            match skip_ws s' with
            | String "}" r => Some (JDict [], r)
            | _ =>
                (fix members (n : nat) (s : string) (acc : dict) {struct n} :=
                   match n with
                   | O => None
                   | S n' =>
                       match skip_ws s with
                       | String q s1 =>
                           if Ascii.eqb q "034" then
                             match string_body s1 with
                             | Some (k, r) =>
                                 match skip_ws r with
                                 | String ":" r1 =>
                                     match value fuel' r1 with
                                     | Some (v, r2) =>
                                         match skip_ws r2 with
                                         | String "," r3 => members n' r3 (dict_set acc k v)
                                         | String "}" r3 => Some (JDict (dict_set acc k v), r3)
                                         | _ => None
                                         end
                                     | None => None
                                     end
                                 | _ => None
                                 end
                             | None => None
                             end
                           else None
                       | EmptyString => None
                       end
                   end) fuel' s' []
            end
          else if String.prefix "null" t then Some (JNull, Py.drop 4 t)
          else if String.prefix "true" t then Some (JBool true, Py.drop 4 t)
          else if String.prefix "false" t then Some (JBool false, Py.drop 5 t)
          else
            match number t with
            | Some (z, r) => Some (JInt z, r)
            | None => None
            end
      end
  end.

Definition json_decode (s : string) : option Json :=
  match value (S (String.length s)) s with
  | Some (j, r) => match skip_ws r with EmptyString => Some j | _ => None end
  | None => None
  end.

End Decoder.

(** ** Reading a stream back

    What a client of the event stream sees: the [delta] of every chunk,
    the content payloads in emission order, and the tool calls rebuilt
    from the tool-call deltas (a delta is the call plus its index). *)

Definition delta_of (c : Json) : dict :=
  match c with
  | JDict d =>
      match get d "choices" with
      | JList (JDict choice :: _) =>
          match get choice "delta" with
          | JDict delta => delta
          | _ => []
          end
      | _ => []
      end
  | _ => []
  end.

Definition content_payload (c : Json) : list string :=
  match dict_get (delta_of c) "content" with
  | Some (JStr piece) => [piece]
  | _ => []
  end.

Definition streamed_content (chunks : list Json) : string :=
  String.concat "" (flat_map content_payload chunks).



Definition call_of_delta (d : Json) : Json :=
  match d with
  | JDict e => JDict (dict_del e "index")
  | _ => d
  end.

Definition delta_tool_calls (c : Json) : list Json :=
  match dict_get (delta_of c) "tool_calls" with
  | Some (JList ds) => map call_of_delta ds
  | _ => []
  end.

Definition streamed_tool_calls (chunks : list Json) : list Json :=
  flat_map delta_tool_calls chunks.

(** The content of a unary response body once decoded. *)
Definition unary_content (resp_json : Json) : M Json :=
  r <- as_dict resp_json ;;
  msg <- first_message r ;;
  ret (get_or msg "content" (JStr "")).

(** ** The tool definitions of a request, as a set of names

    The names a client declares: those of the function-typed entries of
    its [tools] list.  The registry of [convert_text_to_tool_calls] and the
    [exec] check of [fallback_tool_call] are compared with it below. *)

Definition declared_name (t : Json) : list string :=
  match t with
  | JDict d =>
      if is_str (get d "type") "function" then
        match get_or d "function" (JDict []) with
        | JDict f =>
            match get_or f "name" (JStr "") with
            | JStr n => [n]
            | _ => []
            end
        | _ => []
        end
      else []
  | _ => []
  end.

Definition declared_tools (tool_defs : Json) : list string :=
  match tool_defs with
  | JList l => flat_map declared_name l
  | _ => []
  end.

(** The inbound rewrite as the specification words it: every backend id
    replaced by its own client-facing counterpart in [REVERSE_MAP]. *)
Definition rewrite_to_counterparts (text : string) : string :=
  fold_left (fun t kv => Py.replace (fst kv) (snd kv) t) REVERSE_MAP text.

(** ** Sample data for the examples *)

Module Sample.

Definition exec_tool (param : string) : Json :=
  JDict [ ("type", JStr "function");
          ("function",
           JDict [ ("name", JStr "exec");
                   ("parameters",
                    JDict [ ("type", JStr "object");
                            ("properties", JDict [(param, JDict [("type", JStr "string")])]) ]) ]) ].

Definition system (text : string) : dict := [("role", JStr "system"); ("content", JStr text)].
Definition user (text : string) : dict := [("role", JStr "user"); ("content", JStr text)].
Definition assistant (text : string) : dict := [("role", JStr "assistant"); ("content", JStr text)].

Definition assistant_calls (calls : list Json) : dict :=
  [("role", JStr "assistant"); ("content", JNull); ("tool_calls", JList calls)].

Definition tool_result (call_id name content : string) : dict :=
  [ ("role", JStr "tool"); ("tool_call_id", JStr call_id); ("name", JStr name);
    ("content", JStr content) ].

(** The body of a chat-completion request. *)
Definition request (model : string) (stream : bool) (tools : list Json) (msgs : list dict)
  : string :=
  json_dumps (JDict ([ ("model", JStr model); ("stream", JBool stream);
                       ("messages", JList (map JDict msgs)) ]
                     ++ match tools with
                        | [] => []
                        | _ => [("tools", JList tools)]
                        end)%list).

(** A backend answer with the given text, decoded and as a body. *)
Definition answer_dict (content : string) : dict :=
  [ ("id", JStr "chatcmpl-1"); ("created", JInt 1700000001);
    ("model", JStr "llama3.3:latest");
    ("choices",
     JList [JDict [ ("index", JInt 0);
                    ("message", JDict [ ("role", JStr "assistant");
                                        ("content", JStr content) ]);
                    ("finish_reason", JStr "stop") ]]) ].

Definition answer (content : string) : string := json_dumps (JDict (answer_dict content)).

Definition exec_tools : list Json := [exec_tool "command"].

(** A process with the given API key whose backends answer every request
    with [reply]; no web search. *)
Definition world (api_key reply : string) : world :=
  {| OPENROUTER_API_KEY := api_key; TELEGRAM_BOT_TOKEN := ""; now := 1700000000;
     json_loads := Decoder.json_decode;
     upstream := fun _ _ => inr (200%Z, reply);
     openrouter := fun _ _ => inr (200%Z, reply);
     search_results := fun _ => None |}.

Definition history : list dict :=
  [ system "You are helpful."; user "one"; assistant "two"; user "three";
    system "Be brief."; assistant "four"; user "five"; assistant "six" ].

(** The tool calls of a decoded response body. *)
Definition tool_calls_of (body : string) : option Json :=
  match Decoder.json_decode body with
  | Some (JDict r) =>
      match first_message r with
      | inr msg => dict_get msg "tool_calls"
      | inl _ => None
      end
  | _ => None
  end.

End Sample.

Definition text_pieces (c : string) : list string :=
  map (fun i => Py.slice i (i + chunk_size) c)
      (Py.range0 (Nat.max (String.length c) 1) chunk_size).

Definition call_of (x : string * string * string) : Json :=
  tool_call (fst (fst x)) (snd (fst x)) (snd x).
(** A tool call whose name satisfies [ok]. *)
Definition call_to (ok : string -> Prop) (tc : Json) : Prop :=
  exists id name arguments, tc = tool_call id name arguments /\ ok name.



(** Trimming as the specification words it: the oldest conversation turns
    are dropped and every other turn stays where it was. *)
Fixpoint drop_oldest (n : nat) (msgs : list dict) : list dict :=
  match msgs with
  | [] => []
  | m :: rest =>
      if is_system m then m :: drop_oldest n rest
      else match n with
           | O => m :: drop_oldest 0 rest
           | S n' => drop_oldest n' rest
           end
  end.

Definition trim_in_original_order (msgs : list dict) : list dict :=
  drop_oldest (List.length (filter (fun m => negb (is_system m)) msgs) - MAX_HISTORY) msgs.

(** The tool calls of the message of a decoded response. *)
Definition message_calls (resp_json : dict) : option Json :=
  match first_message resp_json with
  | inr msg => dict_get msg "tool_calls"
  | inl _ => None
  end.

(** ** Reading an escaped string back

    The first character of a text escaped by [json.dumps], with the rest
    of the text; nothing when the text starts with a bare quote. *)
Definition unescape_head (s : string) : option (ascii * string) :=
  match s with
  | EmptyString => None
  | String c r =>
      let n := Py.code c in
      if (n =? 34)%nat then None
      else if (n =? 92)%nat then
        match r with
        | String e r' =>
            let m := Py.code e in
            if (m =? 34)%nat then Some ("034"%char, r')
            else if (m =? 92)%nat then Some ("092"%char, r')
            else if (m =? 110)%nat then Some ("010"%char, r')
            else if (m =? 114)%nat then Some ("013"%char, r')
            else if (m =? 116)%nat then Some ("009"%char, r')
            else if (m =? 98)%nat then Some ("008"%char, r')
            else if (m =? 102)%nat then Some ("012"%char, r')
            else if (m =? 117)%nat then
              match r' with
              | String _ (String _ (String h (String l r''))) =>
                  match Decoder.hex_value h, Decoder.hex_value l with
                  | Some x, Some y => Some (ascii_of_nat (16 * x + y), r'')
                  | _, _ => None
                  end
              | _ => None
              end
            else None
        | EmptyString => None
        end
      else Some (c, r)
  end.

(** The characters [json.dumps] writes as they are: printable ASCII other
    than the quote and the backslash. *)
Definition plain_char (c : ascii) : bool :=
  let n := Py.code c in
  ((32 <=? n) && (n <=? 126) && negb (n =? 34) && negb (n =? 92))%nat.

Fixpoint json_plain (s : string) : bool :=
  match s with
  | EmptyString => true
  | String c s' => plain_char c && json_plain s'
  end.

(** The [arguments] string of a tool call. *)
Definition arguments_of (tc : Json) : M Json :=
  f <- subscript tc "function" ;; subscript f "arguments".

(** ** Well-formed dictionaries *)

(** A Python [dict] has one entry per key. *)
Definition unique_keys (d : dict) : Prop := NoDup (map fst d).

(** The data after the model mapping, the stream flag and the stripping. *)
Definition mapped_and_stripped (data : dict) : dict :=
  let data :=
    match get_or data "model" (JStr "gpt-5.2") with
    | JStr name =>
        match sdict_get MODEL_MAP name with
        | Some local_name => dict_set data "model" (JStr local_name)
        | None => data
        end
    | _ => data
    end in
  fst (strip_keys UNSUPPORTED_PARAMS (dict_set data "stream" (JBool false))).


(** ** Web search *)

(** The trigger words, between word boundaries, case ignored. *)
Definition SEARCH_TRIGGERS : Re.re :=
  Re.cat [Re.WordB;
          Re.alt (map Re.lit
                    ["latest"; "current"; "today"; "yesterday"; "recent"; "news"; "price";
                     "weather"; "score"; "stock"; "update"; "who is"; "what is"; "when is";
                     "when did"; "where is"; "how much"; "how many"; "search"; "look up";
                     "find out"; "google"; "what happened"; "tell me about"; "do you know";
                     "can you find"; "2024"; "2025"; "2026"]);
          Re.WordB].

(** A whole message that is a greeting or an acknowledgement, then
    optional white space and punctuation, case ignored. *)
Definition SEARCH_SKIP : Re.re :=
  Re.cat [Re.Bol;
          Re.alt (map Re.lit
                    ["hi"; "hello"; "hey"; "yo"; "sup"; "thanks"; "thank you"; "ok"; "okay";
                     "bye"; "good morning"; "good night"; "how are you"; "what's up";
                     "whats up"; "gm"; "gn"; "lol"; "haha"; "yes"; "no"; "yep"; "nah"]);
          Re.star Re.space;
          Re.star (Re.Cls false (fun c => Ascii.eqb c "?" || Ascii.eqb c "!" || Ascii.eqb c "."));
          Re.Eol].

Definition skip_markers : list string :=
  [ "Conversation info"; "conversation_label"; "HEARTBEAT"; "cron";
    "Cron:"; "[cron:"; "sessionId"; "sessionKey"; "transcript /";
    "Queued messages"; "Queued #"; "Queued announce";
    "was_mentioned"; "Read HEARTBEAT"; "Current time:";
    "untrusted metadata"; "signal-poll"; "health-check";
    "SKILL.md"; "Return your summary"; "Run signal polling";
    "Run the morning briefing"; "skill at /data/";
    "scripts/"; ".openclaw/"; "exec cd"; "exec node" ].

(** [s.endswith(suffix)] *)
Definition endswith (suffix s : string) : bool :=
  (String.length suffix <=? String.length s)%nat
  && String.eqb (Py.drop (String.length s - String.length suffix) s) suffix.

(** [s.split()]: the maximal runs of characters that are not white space. *)
Fixpoint split_from (word s : string) : list string :=
  match s with
  | EmptyString => if String.eqb word "" then [] else [word]
  | String c s' =>
      if Py.is_space c then
        if String.eqb word "" then split_from "" s' else word :: split_from "" s'
      else split_from (word ++ String c "") s'
  end.

Definition split (s : string) : list string := split_from "" s.

(** [needs_web_search], and [HAS_DDGS], which is set when the module is
    loaded. *)
Definition needs_web_search (HAS_DDGS : bool) (text : string) : bool :=
  if negb HAS_DDGS then false
  else if String.eqb text "" || (String.length (Py.strip text) <? 5)%nat then false
  else
    let text_clean := Py.strip text in
    if existsb (fun marker => Py.contains marker text_clean) skip_markers then false
    else if Py.startswith "[" text_clean || Py.startswith "{" text_clean then false
    else if (300 <? String.length text_clean)%nat then false
    else
      match Re.match_ ICASE SEARCH_SKIP text_clean, Re.search ICASE SEARCH_TRIGGERS text_clean with
      | Some _, _ => false
      | None, Some _ => true
      | None, None => endswith "?" text_clean && (4 <? List.length (split text_clean))%nat
      end.

(** One entry of the formatted results; [i] counts from 1. *)
Definition format_result (ir : nat * Json) : M string :=
  r <- as_dict (snd ir) ;;
  let title := get_or r "title" (JStr "") in
  let body := get_or r "body" (JStr "") in
  let href := get_or r "href" (JStr "") in
  ret ("[" ++ Py.str_of_nat (fst ir) ++ "] " ++ py_str title ++ Py.nl ++ py_str body ++ Py.nl ++
       "Source: " ++ py_str href).

(** [web_search]; [ddgs_text query max_results] is the list that the
    search client returns, or the exception it raises. *)
Definition web_search (HAS_DDGS : bool) (ddgs_text : string -> nat -> M (list Json))
  (query : string) (max_results : nat) : option string :=
  if negb HAS_DDGS then None
  else
    match ddgs_text query max_results with
    | inl _ => None
    | inr [] => None
    | inr results =>
        match mapM format_result (Py.enumerate_from 1 results) with
        | inl _ => None
        | inr formatted => Some (Py.join (Py.nl ++ Py.nl) formatted)
        end
    end.

Definition QUERY_PREFIXES : list string :=
  [ "can you"; "could you"; "please"; "tell me"; "do you know";
    "search for"; "look up"; "find out"; "google"; "what is"; "who is" ].

Fixpoint mem_char (c : ascii) (chars : string) : bool :=
  match chars with
  | EmptyString => false
  | String a chars' => Ascii.eqb c a || mem_char c chars'
  end.

(** [s.rstrip(chars)] *)
Fixpoint rstrip_chars (chars s : string) : string :=
  match s with
  | EmptyString => EmptyString
  | String c s' =>
      match rstrip_chars chars s' with
      | EmptyString => if mem_char c chars then EmptyString else String c EmptyString
      | r => String c r
      end
  end.

(** One turn of the prefix loop. *)
Definition drop_prefix (text prefix : string) : string :=
  if Py.startswith prefix (Py.lower text)
  then Py.strip (Py.drop (String.length prefix) text)
  else text.

Definition extract_search_query (user_text : string) : string :=
  let text := Py.strip user_text in
  let text := fold_left drop_prefix QUERY_PREFIXES text in
  let text := rstrip_chars "?.!" text in
  let text := if (String.length text <? 3)%nat then rstrip_chars "?.!" (Py.strip user_text)
              else text in
  if (200 <? String.length text)%nat then Py.take 200 text else text.

(** The search of [do_POST] for the text of the last user message: what
    the [search_results] field of a [world] stands for. *)
Definition search_for (HAS_DDGS : bool) (ddgs_text : string -> nat -> M (list Json))
  (last_user_text : string) : option string :=
  if needs_web_search HAS_DDGS last_user_text
  then web_search HAS_DDGS ddgs_text (extract_search_query last_user_text) 5
  else None.

(** The [id] of a tool call. *)
Definition call_id (tc : Json) : Json :=
  match tc with
  | JDict d => get d "id"
  | _ => JNull
  end.

(** [q] occurs in [s] as a contiguous piece. *)
Definition piece_of (q s : string) : Prop := exists pre post : string, s = pre ++ q ++ post.

(** ** Sample data for the examples of the web search and of the routes *)

Module Cases.

(** One search result. *)
Definition hit : Json :=
  JDict [ ("title", JStr "Forecast"); ("body", JStr "Sunny."); ("href", JStr "https://example.org/w") ].

(** A search client that finds [hit] for every query. *)
Definition ddgs_text (query : string) (max_results : nat) : M (list Json) := ret [hit].

(** A process that searches as [do_POST] does, with that client. *)
Definition searching (reply : string) : world :=
  {| OPENROUTER_API_KEY := "sk-or-1"; TELEGRAM_BOT_TOKEN := ""; now := 1700000000;
     json_loads := Decoder.json_decode;
     upstream := fun _ _ => inr (200%Z, reply);
     openrouter := fun _ _ => inr (200%Z, reply);
     search_results := search_for true ddgs_text |}.


Definition deepseek : route :=
  {| host := "openrouter.ai"; port := 443; scheme := "https"; key := "sk-or-1";
     actual_model := "deepseek/deepseek-chat";
     strip_params := ["store"; "metadata"; "service_tier"] |}.

(** Decoded request data with a parameter that is stripped on both routes. *)
Definition stored (model : string) (msgs : list dict) : dict :=
  [ ("model", JStr model); ("stream", JBool true); ("store", JBool true);
    ("temperature", JInt 1); ("messages", JList (map JDict msgs)) ].


(** A backend answer that carries a tool call of its own. *)
Definition answer_calling (name : string) : string :=
  json_dumps
    (JDict [ ("id", JStr "chatcmpl-1"); ("created", JInt 1700000001);
             ("model", JStr "llama3.3:latest");
             ("choices",
              JList [JDict [ ("index", JInt 0);
                             ("message",
                              JDict [ ("role", JStr "assistant"); ("content", JNull);
                                      ("tool_calls", JList [tool_call "call_1" name "{}"]) ]);
                             ("finish_reason", JStr "tool_calls") ]]) ]).

End Cases.

(** * Properties *)

Example strip_ex : Py.strip "  foo bar  " = "foo bar".
Proof. reflexivity. Qed.

Example replace_ex : Py.replace "aa" "b" "aaaxaa" = "baxb".
Proof. reflexivity. Qed.

Example range0_ex : Py.range0 250 100 = [0; 100; 200].
Proof. reflexivity. Qed.

Example str_of_nat_ex : Py.str_of_nat 120 = "120" /\ Py.str_of_Z (-7) = "-7" /\ Py.str_of_Z 0 = "0".
Proof. repeat split; reflexivity. Qed.

Example json_dumps_ex :
  json_dumps (JDict [("command", JStr "foo bar"); ("timeoutMs", JInt 120000); ("x", JList [JNull; JBool true])])
  = "{" ++ Py.dq ++ "command" ++ Py.dq ++ ": " ++ Py.dq ++ "foo bar" ++ Py.dq ++ ", "
        ++ Py.dq ++ "timeoutMs" ++ Py.dq ++ ": 120000, " ++ Py.dq ++ "x" ++ Py.dq ++ ": [null, true]}".
Proof. reflexivity. Qed.

Example py_str_ex :
  py_str (JList [JDict [("type", JStr "text")]; JNull]) = "[{'type': 'text'}, None]".
Proof. reflexivity. Qed.

Example re_ex1 :
  let r := Re.cat [Re.Bol; Re.lit "ab"; Re.Grp 1 (Re.plus Re.word); Re.plus Re.space; Re.Grp 2 (Re.plus Re.Dot); Re.Eol] in
  map (fun m => (Re.group m 1, Re.group m 2))
      (Re.finditer {| Re.IGNORECASE := false; Re.MULTILINE := true; Re.DOTALL := false |} r
         ("abc  d e" ++ Py.nl ++ "zz" ++ Py.nl ++ "abX y"))
  = [("c", "d e"); ("X", "y")].
Proof. vm_compute. reflexivity. Qed.

(** ** Lists *)

Section ListFacts.

Context {A : Type}.

Lemma filter_all (p : A -> bool) (l : list A) :
  (forall x, In x l -> p x = true) -> filter p l = l.
Proof.
  induction l as [| x l IH]; simpl; intros H; [reflexivity |].
  rewrite (H x (or_introl eq_refl)). f_equal. apply IH. intros y Hy. apply H. now right.
Qed.

Lemma filter_none (p : A -> bool) (l : list A) :
  (forall x, In x l -> p x = false) -> filter p l = [].
Proof.
  induction l as [| x l IH]; simpl; intros H; [reflexivity |].
  rewrite (H x (or_introl eq_refl)). apply IH. intros y Hy. apply H. now right.
Qed.

Lemma In_skipn (n : nat) (l : list A) (x : A) : In x (skipn n l) -> In x l.
Proof.
  revert l. induction n as [| n IH]; intros [| y l]; simpl; auto.
Qed.

Lemma last_n_split (n : nat) (l : list A) :
  (n < length l)%nat ->
  l = (firstn (length l - n) l ++ Py.last_n n l)%list
  /\ length (firstn (length l - n) l) = (length l - n)%nat
  /\ length (Py.last_n n l) = n.
Proof.
  intros H. unfold Py.last_n. split; [| split].
  - symmetry. apply firstn_skipn.
  - rewrite length_firstn. lia.
  - rewrite length_skipn. lia.
Qed.

End ListFacts.

(** ** History trimming *)

Lemma trim_messages_long (msgs : list dict) :
  (MAX_HISTORY < length (filter (fun m => negb (is_system m)) msgs))%nat ->
  trim_messages msgs
  = (filter is_system msgs
     ++ Py.last_n MAX_HISTORY (filter (fun m => negb (is_system m)) msgs))%list.
Proof.
  intros H. unfold trim_messages.
  apply Nat.ltb_lt in H. rewrite H. reflexivity.
Qed.

Lemma trim_messages_short (msgs : list dict) :
  (length (filter (fun m => negb (is_system m)) msgs) <= MAX_HISTORY)%nat ->
  trim_messages msgs
  = (filter is_system msgs ++ filter (fun m => negb (is_system m)) msgs)%list.
Proof.
  intros H. unfold trim_messages.
  apply Nat.ltb_ge in H. rewrite H. reflexivity.
Qed.

Lemma last_n_not_system (n : nat) (msgs : list dict) (m : dict) :
  In m (Py.last_n n (filter (fun m => negb (is_system m)) msgs)) -> is_system m = false.
Proof.
  intros H. apply In_skipn in H. apply filter_In in H.
  destruct H as [_ H]. now apply negb_true_iff in H.
Qed.

(** C4 (as amended). For a cleaned message list with [k]
    system/developer turns and [m] conversation turns, [m] above the
    history window [MAX_HISTORY] (4), trimming yields the [k]
    system/developer turns followed by the last [MAX_HISTORY] conversation
    turns: the system turns of the result are those of the input, its
    conversation turns are the input's conversation turns without the
    oldest [m - MAX_HISTORY], each group in its original order, the system
    turns ahead of the conversation turns wherever they stood, and the
    result has [k + MAX_HISTORY] turns. *)
Theorem trim_keeps_system_and_last_window :
  forall (msgs : list dict) (k m : nat),
    k = length (filter is_system msgs) ->
    m = length (filter (fun x => negb (is_system x)) msgs) ->
    (MAX_HISTORY < m)%nat ->
    exists dropped kept : list dict,
      filter (fun x => negb (is_system x)) msgs = (dropped ++ kept)%list
      /\ length dropped = (m - MAX_HISTORY)%nat
      /\ length kept = MAX_HISTORY
      /\ trim_messages msgs = (filter is_system msgs ++ kept)%list
      /\ filter is_system (trim_messages msgs) = filter is_system msgs
      /\ filter (fun x => negb (is_system x)) (trim_messages msgs) = kept
      /\ length (trim_messages msgs) = (k + MAX_HISTORY)%nat.
Proof.
  intros msgs k m Hk Hm Hlt. subst k m.
  set (convo := filter (fun x => negb (is_system x)) msgs) in *.
  destruct (last_n_split MAX_HISTORY convo Hlt) as (Hsplit & Hdrop & Hkeep).
  exists (firstn (length convo - MAX_HISTORY) convo), (Py.last_n MAX_HISTORY convo).
  assert (Htrim : trim_messages msgs
                  = (filter is_system msgs ++ Py.last_n MAX_HISTORY convo)%list)
    by (apply trim_messages_long; exact Hlt).
  assert (Hsys : forall x, In x (filter is_system msgs) -> is_system x = true)
    by (intros x Hx; apply filter_In in Hx; tauto).
  assert (Hconv : forall x, In x (Py.last_n MAX_HISTORY convo) -> is_system x = false)
    by (intros x Hx; eapply last_n_not_system; exact Hx).
  repeat split; try assumption.
  - rewrite Htrim, filter_app, (filter_all _ _ Hsys), (filter_none _ _ Hconv).
    apply app_nil_r.
  - rewrite Htrim, filter_app.
    rewrite (filter_none (fun x => negb (is_system x)) (filter is_system msgs)).
    + apply filter_all. intros x Hx. now rewrite (Hconv x Hx).
    + intros x Hx. now rewrite (Hsys x Hx).
  - rewrite Htrim, length_app, Hkeep. reflexivity.
Qed.

(** ** Dictionaries *)

Lemma dict_get_set_same (d : dict) (k : string) (v : Json) :
  dict_get (dict_set d k v) k = Some v.
Proof.
  induction d as [| [k' v'] d IH]; simpl.
  - now rewrite String.eqb_refl.
  - destruct (String.eqb k k') eqn:E; simpl.
    + now rewrite String.eqb_refl.
    + now rewrite E.
Qed.

Lemma dict_get_set_other (d : dict) (k k' : string) (v : Json) :
  k <> k' -> dict_get (dict_set d k v) k' = dict_get d k'.
Proof.
  intros Hne. induction d as [| [k0 v0] d IH]; simpl.
  - destruct (String.eqb k' k) eqn:E; [| reflexivity].
    apply String.eqb_eq in E. congruence.
  - destruct (String.eqb k k0) eqn:E; simpl.
    + apply String.eqb_eq in E. subst k0.
      destruct (String.eqb k' k) eqn:E'; [| reflexivity].
      apply String.eqb_eq in E'. congruence.
    + destruct (String.eqb k' k0); [reflexivity | exact IH].
Qed.

Lemma dict_get_del_other (d : dict) (k k' : string) :
  k <> k' -> dict_get (dict_del d k) k' = dict_get d k'.
Proof.
  intros Hne. induction d as [| [k0 v0] d IH]; simpl; [reflexivity |].
  destruct (String.eqb k k0) eqn:E; simpl.
  - apply String.eqb_eq in E. subst k0.
    destruct (String.eqb k' k) eqn:E'; [| reflexivity].
    apply String.eqb_eq in E'. congruence.
  - destruct (String.eqb k' k0); [reflexivity | exact IH].
Qed.

Lemma get_set_other (d : dict) (k k' : string) (v : Json) :
  k <> k' -> get (dict_set d k v) k' = get d k'.
Proof. intros H. unfold get, get_or. now rewrite dict_get_set_other. Qed.

Lemma get_del_other (d : dict) (k k' : string) :
  k <> k' -> get (dict_del d k) k' = get d k'.
Proof. intros H. unfold get, get_or. now rewrite dict_get_del_other. Qed.

Lemma is_str_inv (j : Json) (s : string) : is_str j s = true -> j = JStr s.
Proof.
  destruct j; simpl; try discriminate. intros H. apply String.eqb_eq in H. now subst.
Qed.

Lemma is_system_role (m : dict) :
  is_system m = true -> get m "role" = JStr "system" \/ get m "role" = JStr "developer".
Proof.
  unfold is_system. intros H. apply orb_true_iff in H.
  destruct H as [H | H]; apply is_str_inv in H; auto.
Qed.

(** ** NO_REPLY stripping of system messages *)

Lemma sub_no_match (fl : Re.flags) (r : Re.re) (repl s : string) :
  Re.search fl r s = None -> Re.sub fl r repl s = s.
Proof.
  unfold Re.search, Re.sub. intros H. simpl. now rewrite H.
Qed.

Lemma clean_system_message (msg : dict) (c : string) :
  is_system msg = true ->
  get_or msg "content" (JStr "") = JStr c ->
  clean_message msg
  = dict_set (dict_del (dict_del msg "tool_calls") "tool_call_id") "content"
             (JStr (strip_no_reply_text c)).
Proof.
  intros Hsys Hc.
  assert (Hrole : get (dict_del (dict_del msg "tool_calls") "tool_call_id") "role" = get msg "role")
    by (rewrite !get_del_other by discriminate; reflexivity).
  assert (Hcont : get_or (dict_del (dict_del msg "tool_calls") "tool_call_id") "content" (JStr "")
                  = JStr c)
    by (unfold get_or in *; rewrite !dict_get_del_other by discriminate; exact Hc).
  unfold clean_message.
  assert (Hsys' : is_system (dict_del (dict_del msg "tool_calls") "tool_call_id") = true)
    by (unfold is_system in *; rewrite Hrole; exact Hsys).
  rewrite Hsys', Hcont.
  assert (Hrole' : get (dict_set (dict_del (dict_del msg "tool_calls") "tool_call_id") "content"
                          (strip_no_reply_from_content (JStr c))) "role" = get msg "role")
    by (rewrite get_set_other by discriminate; exact Hrole).
  rewrite Hrole'.
  destruct (is_system_role msg Hsys) as [R | R]; rewrite R; reflexivity.
Qed.

Lemma trim_keeps_system (msgs : list dict) (m : dict) :
  In m msgs -> is_system m = true -> In m (trim_messages msgs).
Proof.
  intros Hin Hsys. unfold trim_messages. apply in_or_app. left.
  apply filter_In. split; assumption.
Qed.

(** C9. On the local route every system or developer message whose
    content is a string [c] leaves the cleaning loop with content
    [stripped ++ SYSTEM_OVERRIDE], where [stripped] is [c] after the two
    NO_REPLY substitutions and the collapse of blank lines; the message is
    kept by the trimming; the override is appended also when nothing was
    stripped ([stripped = c] when no pattern matches); and the stripper
    returns a content that is not a string unchanged. *)
Theorem system_message_gets_override :
  forall (msgs : list dict) (msg : dict) (c : string),
    In msg msgs ->
    is_system msg = true ->
    get_or msg "content" (JStr "") = JStr c ->
    exists stripped : string,
      stripped = Re.sub Re.no_flags BLANK_LINES (Py.nl ++ Py.nl)
                   (fold_left (fun t pattern => Re.sub ICASE pattern "" t) NO_REPLY_PATTERNS c)
      /\ strip_no_reply_from_content (JStr c) = JStr (stripped ++ SYSTEM_OVERRIDE)
      /\ get (clean_message msg) "content" = JStr (stripped ++ SYSTEM_OVERRIDE)
      /\ In (clean_message msg) (trim_messages (map clean_message msgs))
      /\ ((forall pattern, In pattern NO_REPLY_PATTERNS -> Re.search ICASE pattern c = None) ->
          Re.search Re.no_flags BLANK_LINES c = None ->
          stripped = c)
      /\ (forall j : Json, (forall s, j <> JStr s) -> strip_no_reply_from_content j = j).
Proof.
  intros msgs msg c Hin Hsys Hc.
  eexists. split; [reflexivity |].
  pose proof (clean_system_message msg c Hsys Hc) as Hclean.
  split; [reflexivity |]. split; [| split; [| split]].
  - rewrite Hclean. unfold get, get_or. rewrite dict_get_set_same. reflexivity.
  - apply trim_keeps_system.
    + apply in_map. exact Hin.
    + rewrite Hclean. unfold is_system in *.
      rewrite get_set_other by discriminate.
      rewrite !get_del_other by discriminate. exact Hsys.
  - intros Hnone Hblank. simpl.
    rewrite (sub_no_match ICASE _ "" c) by (apply Hnone; simpl; auto).
    rewrite (sub_no_match ICASE _ "" c) by (apply Hnone; simpl; auto).
    apply sub_no_match. exact Hblank.
  - intros j Hj. destruct j; try reflexivity. exfalso. eapply Hj. reflexivity.
Qed.

(** ** Slices and chunks *)

Lemma take_drop_app (a b : nat) (s : string) :
  Py.take a s ++ Py.take b (Py.drop a s) = Py.take (a + b) s.
Proof.
  revert s. induction a as [| a IH]; intros s; simpl.
  - destruct s; reflexivity.
  - destruct s as [| c s]; simpl.
    + destruct b; reflexivity.
    + now rewrite IH.
Qed.

Lemma drop_drop (a b : nat) (s : string) :
  Py.drop b (Py.drop a s) = Py.drop (a + b) s.
Proof.
  revert s. induction a as [| a IH]; intros s; simpl.
  - destruct s; reflexivity.
  - destruct s as [| c s]; simpl; [destruct b; reflexivity | apply IH].
Qed.

Lemma take_all (n : nat) (s : string) :
  (String.length s <= n)%nat -> Py.take n s = s.
Proof.
  revert s. induction n as [| n IH]; intros [| c s]; simpl; intros H;
    try reflexivity; try lia.
  f_equal. apply IH. lia.
Qed.

Lemma slice_window (i n : nat) (s : string) :
  Py.slice i (i + n) s = Py.take n (Py.drop i s).
Proof. unfold Py.slice. now replace (i + n - i)%nat with n by lia. Qed.

Lemma concat_empty_sep (l : list string) :
  String.concat "" l = fold_right String.append "" l.
Proof.
  induction l as [| x l IH]; [reflexivity |].
  simpl. rewrite <- IH. destruct l as [| y l]; simpl.
  - clear IH. induction x; simpl; congruence.
  - reflexivity.
Qed.

Lemma pieces_window (n q k : nat) (s : string) :
  fold_right String.append ""
    (map (fun i => Py.slice i (i + S n) s) (map (fun j => (j * S n)%nat) (seq k q)))
  = Py.take (q * S n) (Py.drop (k * S n) s).
Proof.
  revert k. induction q as [| q IH]; intros k.
  - simpl. destruct (Py.drop (k * S n) s); reflexivity.
  - cbn [seq map fold_right]. rewrite IH, slice_window.
    replace (S k * S n)%nat with (k * S n + S n)%nat by lia.
    rewrite <- drop_drop, take_drop_app. f_equal.
Qed.

(** The pieces of a text, joined, are the text. *)
Lemma pieces_join (s : string) :
  fold_right String.append ""
    (map (fun i => Py.slice i (i + chunk_size) s)
         (Py.range0 (Nat.max (String.length s) 1) chunk_size)) = s.
Proof.
  unfold Py.range0, chunk_size.
  rewrite (pieces_window 99 _ 0 s). simpl Py.drop.
  replace (Py.drop 0 s) with s by (destruct s; reflexivity).
  apply take_all.
  set (m := Nat.max (String.length s) 1).
  pose proof (Nat.div_mod_eq (m + 100 - 1) 100) as Hd.
  pose proof (Nat.mod_upper_bound (m + 100 - 1) 100) as Hm.
  assert (String.length s <= m)%nat by (unfold m; lia).
  lia.
Qed.


(** ** The error monad *)

Lemma mapM_total {A B} (f : A -> M B) (g : A -> B) (l : list A) :
  (forall x, f x = ret (g x)) -> mapM f l = ret (map g l).
Proof.
  intros H. induction l as [| x l IH]; simpl; [reflexivity |].
  now rewrite H, IH.
Qed.

(** ** The stream of a text answer *)

Lemma content_pieces_text (c : string) :
  content_pieces (JStr c) = ret (map JStr (text_pieces c)).
Proof.
  unfold content_pieces, text_pieces. simpl.
  rewrite (mapM_total _ (fun i => JStr (Py.slice i (i + chunk_size) c))) by reflexivity.
  now rewrite map_map.
Qed.

Lemma content_chunks_text (id created model role finish usage : Json) (c : string) :
  content_chunks id created model role (JStr c) finish usage
  = ret ([chunk id created model (JDict [("role", role); ("content", JStr "")]) JNull None]
         ++ map (fun piece => chunk id created model (JDict [("content", JStr piece)]) JNull None)
                (text_pieces c)
         ++ [chunk id created model (JDict []) finish (Some usage)])%list.
Proof.
  unfold content_chunks. rewrite content_pieces_text. simpl. now rewrite map_map.
Qed.

Lemma streamed_content_pieces (id created model : Json) (pieces : list string) (rest : list Json) :
  flat_map content_payload
    (map (fun piece => chunk id created model (JDict [("content", JStr piece)]) JNull None) pieces
     ++ rest)%list
  = (pieces ++ flat_map content_payload rest)%list.
Proof.
  induction pieces as [| p pieces IH]; simpl; [reflexivity |]. now rewrite IH.
Qed.

Lemma streamed_content_text (id created model role finish usage : Json) (c : string) :
  streamed_content
    ([chunk id created model (JDict [("role", role); ("content", JStr "")]) JNull None]
     ++ map (fun piece => chunk id created model (JDict [("content", JStr piece)]) JNull None)
            (text_pieces c)
     ++ [chunk id created model (JDict []) finish (Some usage)])%list
  = c.
Proof.
  unfold streamed_content.
  cbn [app flat_map]. rewrite streamed_content_pieces.
  change (content_payload (chunk id created model (JDict [("role", role); ("content", JStr "")])
                                 JNull None)) with [""].
  change (flat_map content_payload [chunk id created model (JDict []) finish (Some usage)])
    with (@nil string).
  rewrite app_nil_r, concat_empty_sep. simpl. apply pieces_join.
Qed.

(** What [proxy_sse_chunks] and [direct_sse_chunks] do with a text answer. *)
Lemma proxy_sse_chunks_text (r : dict) (original_model : Json) (a : answer) (c : string) :
  read_answer (JDict r) = ret a ->
  a_content a = JStr c ->
  truthy (a_tool_calls a) = false ->
  proxy_sse_chunks (JDict r) original_model
  = content_chunks (a_id a) (a_created a) (get_or r "model" original_model) (a_role a)
                   (JStr c) (a_finish a) (a_usage a).
Proof.
  intros Ha Hc Ht. unfold proxy_sse_chunks. rewrite Ha. simpl. rewrite Hc, Ht. reflexivity.
Qed.

Lemma direct_sse_chunks_text (r : dict) (original_model : Json) (a : answer) (c : string) :
  read_answer (JDict r) = ret a ->
  a_content a = JStr c ->
  truthy (a_tool_calls a) = false ->
  direct_sse_chunks (JDict r) original_model
  = content_chunks (a_id a) (a_created a) original_model (a_role a)
                   (JStr c) (a_finish a) (a_usage a).
Proof.
  intros Ha Hc Ht. unfold direct_sse_chunks. rewrite Ha. simpl. rewrite Hc, Ht. reflexivity.
Qed.


(** ** The stream of tool calls *)

Lemma streamed_tool_calls_app (l1 l2 : list Json) :
  streamed_tool_calls (l1 ++ l2)%list = (streamed_tool_calls l1 ++ streamed_tool_calls l2)%list.
Proof. apply flat_map_app. Qed.

Lemma content_payload_app (l1 l2 : list Json) :
  flat_map content_payload (l1 ++ l2)%list
  = (flat_map content_payload l1 ++ flat_map content_payload l2)%list.
Proof. apply flat_map_app. Qed.

Lemma proxy_tool_chunks_calls (id created model role : Json) (calls : list (string * string * string)) :
  forall i : nat,
  exists chunks : list Json,
    mapM (proxy_tool_chunk id created model role) (Py.enumerate_from i (map call_of calls))
    = ret chunks
    /\ streamed_tool_calls chunks = map call_of calls
    /\ flat_map content_payload chunks = [].
Proof.
  induction calls as [| [[cid name] args] calls IH]; intros i.
  - exists []. repeat split.
  - destruct (IH (S i)) as (chunks & E & Htc & Hc).
    cbn [map Py.enumerate_from mapM].
    unfold proxy_tool_chunk at 1. cbn [fst snd call_of].
    change (tool_call_delta i (tool_call cid name args))
      with (ret (JDict [ ("index", JInt (Z.of_nat i)); ("id", JStr cid); ("type", JStr "function");
                         ("function", JDict [("name", JStr name); ("arguments", JStr args)]) ])).
    cbn [bind ret]. rewrite E. cbn [bind ret].
    eexists. split; [reflexivity |].
    change (call_of (cid, name, args)) with (tool_call cid name args).
    split.
    + unfold streamed_tool_calls in *. cbn [flat_map]. rewrite Htc.
      destruct i; destruct role; reflexivity.
    + cbn [flat_map]. rewrite Hc. destruct i; destruct role; reflexivity.
Qed.

Lemma keyed_tool_chunks_calls (id created model role : Json) (calls : list (string * string * string)) :
  forall i : nat,
  exists chunks : list Json,
    mapM (keyed_tool_chunk id created model role) (Py.enumerate_from i (map call_of calls))
    = ret chunks
    /\ streamed_tool_calls chunks = map call_of calls
    /\ flat_map content_payload chunks = [].
Proof.
  induction calls as [| [[cid name] args] calls IH]; intros i.
  - exists []. repeat split.
  - destruct (IH (S i)) as (chunks & E & Htc & Hc).
    cbn [map Py.enumerate_from mapM].
    unfold keyed_tool_chunk at 1. cbn [fst snd call_of].
    change (tool_call_delta i (tool_call cid name args))
      with (ret (JDict [ ("index", JInt (Z.of_nat i)); ("id", JStr cid); ("type", JStr "function");
                         ("function", JDict [("name", JStr name); ("arguments", JStr args)]) ])).
    cbn [bind ret]. rewrite E. cbn [bind ret].
    eexists. split; [reflexivity |].
    change (call_of (cid, name, args)) with (tool_call cid name args).
    split.
    + unfold streamed_tool_calls in *. cbn [flat_map]. rewrite Htc.
      destruct i; reflexivity.
    + cbn [flat_map]. rewrite Hc. destruct i; reflexivity.
Qed.

Lemma text_stream_has_no_tool_calls (id created model role finish usage : Json) (c : string) :
  streamed_tool_calls
    ([chunk id created model (JDict [("role", role); ("content", JStr "")]) JNull None]
     ++ map (fun piece => chunk id created model (JDict [("content", JStr piece)]) JNull None)
            (text_pieces c)
     ++ [chunk id created model (JDict []) finish (Some usage)])%list
  = [].
Proof.
  rewrite !streamed_tool_calls_app.
  change (streamed_tool_calls [chunk id created model (JDict [("role", role); ("content", JStr "")])
                                     JNull None]) with (@nil Json).
  change (streamed_tool_calls [chunk id created model (JDict []) finish (Some usage)])
    with (@nil Json).
  rewrite app_nil_r. cbn [app].
  induction (text_pieces c) as [| p l IH]; [reflexivity | exact IH].
Qed.

Lemma read_answer_content (r : dict) (a : answer) :
  read_answer (JDict r) = ret a ->
  exists j, unary_content (JDict r) = ret j /\ a_content a = str_or_empty j.
Proof.
  unfold read_answer, unary_content. simpl.
  destruct (first_message r) as [e | msg]; simpl; [discriminate |].
  destruct (first_choice r) as [e | ch]; simpl; [discriminate |].
  intros H. inversion H. subst a. simpl. eexists. split; reflexivity.
Qed.

Lemma truthy_calls (calls : list (string * string * string)) :
  calls <> [] -> truthy (JList (map call_of calls)) = true.
Proof. destruct calls; [congruence | reflexivity]. Qed.

(** C2 (as amended). Let a decoded response have content text [c] (an
    absent or null content reading as the empty text, as in the unary
    body).  If it has no tool calls, the streams built by [_proxy] and
    [_direct_proxy] carry content payloads that join, in emission order,
    to [c], and no tool-call delta.  If it has tool calls, each made of an
    id, a name and an arguments string, both streams carry tool-call
    deltas from which exactly these calls are rebuilt, in order, and no
    content payload at all: the text [c] is not streamed.  The stream of
    the forced response of [do_POST] rebuilds its tool calls in the same
    way. *)
Theorem stream_reconstructs_answer :
  forall (r : dict) (original_model : Json) (a : answer) (c : string),
    read_answer (JDict r) = ret a ->
    a_content a = JStr c ->
    (exists j, unary_content (JDict r) = ret j /\ str_or_empty j = JStr c)
    /\ (truthy (a_tool_calls a) = false ->
        exists chunks chunks' : list Json,
          proxy_sse_chunks (JDict r) original_model = ret chunks
          /\ direct_sse_chunks (JDict r) original_model = ret chunks'
          /\ streamed_content chunks = c
          /\ streamed_content chunks' = c
          /\ streamed_tool_calls chunks = []
          /\ streamed_tool_calls chunks' = [])
    /\ (forall calls : list (string * string * string),
          calls <> [] ->
          a_tool_calls a = JList (map call_of calls) ->
          exists chunks chunks' : list Json,
            proxy_sse_chunks (JDict r) original_model = ret chunks
            /\ direct_sse_chunks (JDict r) original_model = ret chunks'
            /\ streamed_tool_calls chunks = map call_of calls
            /\ streamed_tool_calls chunks' = map call_of calls
            /\ flat_map content_payload chunks = []
            /\ flat_map content_payload chunks' = [])
    /\ (forall (created : Json) (calls : list (string * string * string)),
          exists chunks : list Json,
            forced_sse_chunks created original_model (map call_of calls) = ret chunks
            /\ streamed_tool_calls chunks = map call_of calls
            /\ flat_map content_payload chunks = []).
Proof.
  intros r original_model a c Ha Hc. split; [| split; [| split]].
  - destruct (read_answer_content r a Ha) as (j & Hj & E).
    exists j. split; [exact Hj |]. congruence.
  - intros Ht.
    rewrite (proxy_sse_chunks_text r original_model a c Ha Hc Ht).
    rewrite (direct_sse_chunks_text r original_model a c Ha Hc Ht).
    rewrite !content_chunks_text.
    do 2 eexists. split; [reflexivity |]. split; [reflexivity |].
    rewrite !streamed_content_text. repeat split.
    + apply text_stream_has_no_tool_calls.
    + apply text_stream_has_no_tool_calls.
  - intros calls Hne Hcalls.
    pose proof (truthy_calls calls Hne) as Ht.
    destruct (proxy_tool_chunks_calls (a_id a) (a_created a) (get_or r "model" original_model)
                (a_role a) calls 0) as (chunks & E & Htc & Hcp).
    destruct (keyed_tool_chunks_calls (a_id a) (a_created a) original_model
                (a_role a) calls 0) as (chunks' & E' & Htc' & Hcp').
    unfold proxy_sse_chunks, direct_sse_chunks. rewrite Ha. cbn [bind ret as_dict].
    rewrite Hc, Hcalls, Ht. cbn [py_len py_slice bind ret iter].
    unfold Py.enumerate. rewrite E, E'. cbn [bind ret].
    do 2 eexists. split; [reflexivity |]. split; [reflexivity |].
    rewrite !streamed_tool_calls_app, !content_payload_app, Htc, Htc', Hcp, Hcp'.
    repeat split; try apply app_nil_r.
  - intros created calls.
    destruct (keyed_tool_chunks_calls (JStr "chatcmpl-forced-0") created original_model
                (JStr "assistant") calls 0) as (chunks & E & Htc & Hcp).
    unfold forced_sse_chunks, Py.enumerate. rewrite E. cbn [bind ret].
    eexists. split; [reflexivity |].
    rewrite streamed_tool_calls_app, content_payload_app, Htc, Hcp.
    split; apply app_nil_r.
Qed.

(** ** Witnesses for the history window and the stream *)

Lemma trim_keeps_system_and_last_window_witness :
  exists dropped kept : list dict,
    filter (fun x => negb (is_system x)) Sample.history = (dropped ++ kept)%list
    /\ length dropped = (6 - MAX_HISTORY)%nat
    /\ length kept = MAX_HISTORY
    /\ trim_messages Sample.history = (filter is_system Sample.history ++ kept)%list
    /\ filter is_system (trim_messages Sample.history) = filter is_system Sample.history
    /\ filter (fun x => negb (is_system x)) (trim_messages Sample.history) = kept
    /\ length (trim_messages Sample.history) = (2 + MAX_HISTORY)%nat.
Proof.
  apply (trim_keeps_system_and_last_window Sample.history 2 6).
  - reflexivity.
  - reflexivity.
  - unfold MAX_HISTORY. lia.
Defined.

(** The trimming of the specification keeps the same turns: its system
    turns are those of the input and its conversation turns are the last
    [MAX_HISTORY] of them. *)
Lemma drop_oldest_groups (msgs : list dict) :
  forall n : nat,
    filter is_system (drop_oldest n msgs) = filter is_system msgs
    /\ filter (fun m => negb (is_system m)) (drop_oldest n msgs)
       = skipn n (filter (fun m => negb (is_system m)) msgs).
Proof.
  induction msgs as [| m msgs IH]; intros n; [now destruct n |].
  cbn [drop_oldest filter]. destruct (is_system m) eqn:Em; cbn [negb].
  - cbn [filter]. rewrite Em. cbn [negb]. destruct (IH n) as [-> ->]. split; reflexivity.
  - destruct n as [| n].
    + cbn [filter skipn]. rewrite Em. cbn [negb]. destruct (IH 0%nat) as [-> E].
      rewrite E. split; reflexivity.
    + cbn [skipn]. apply IH.
Qed.

Lemma trim_in_original_order_groups (msgs : list dict) :
  filter is_system (trim_in_original_order msgs) = filter is_system msgs
  /\ filter (fun m => negb (is_system m)) (trim_in_original_order msgs)
     = Py.last_n MAX_HISTORY (filter (fun m => negb (is_system m)) msgs).
Proof. unfold trim_in_original_order, Py.last_n. apply drop_oldest_groups. Qed.

(** C4 does not hold as stated: in a history where a system turn stands
    between conversation turns, the turns kept are the right ones but not
    in their original relative order; the system turn [Be brief.] comes
    after the user turn [three] in the request and before it in the
    trimmed list. *)
Lemma trim_moves_system_turns_ahead :
  trim_in_original_order Sample.history
  = [ Sample.system "You are helpful."; Sample.user "three"; Sample.system "Be brief.";
      Sample.assistant "four"; Sample.user "five"; Sample.assistant "six" ]
  /\ trim_messages Sample.history
     = [ Sample.system "You are helpful."; Sample.system "Be brief.";
         Sample.user "three"; Sample.assistant "four"; Sample.user "five"; Sample.assistant "six" ]
  /\ trim_messages Sample.history <> trim_in_original_order Sample.history.
Proof.
  split; [reflexivity |]. split; [reflexivity |]. vm_compute. discriminate.
Qed.


Example trim_history_ex :
  trim_messages Sample.history
  = [ Sample.system "You are helpful."; Sample.system "Be brief.";
      Sample.user "three"; Sample.assistant "four"; Sample.user "five"; Sample.assistant "six" ].
Proof. reflexivity. Qed.

(** ** [str.replace] and [in] *)

Lemma prefix_append (p r : string) : String.prefix p (p ++ r) = true.
Proof.
  induction p as [| a p IH]; simpl.
  - destruct r; reflexivity.
  - destruct (ascii_dec a a); [exact IH | congruence].
Qed.

Lemma contains_unfold (x s : string) :
  Py.contains x s
  = (String.prefix x s
     || match s with
        | EmptyString => false
        | String _ s' => Py.contains x s'
        end).
Proof. destruct s; reflexivity. Qed.

Lemma contains_append_l (x r : string) : Py.contains x (x ++ r) = true.
Proof. rewrite contains_unfold, prefix_append. reflexivity. Qed.

Lemma contains_cons (x s : string) (c : ascii) :
  Py.contains x s = true -> Py.contains x (String c s) = true.
Proof. intros H. simpl. rewrite H. apply orb_true_r. Qed.

Lemma contains_append_r (x l r : string) :
  Py.contains x r = true -> Py.contains x (l ++ r) = true.
Proof.
  intros H. induction l as [| c l IH]; simpl String.append; [exact H |].
  apply contains_cons, IH.
Qed.

Lemma prefix_empty_subject (x : string) : x <> "" -> String.prefix x "" = false.
Proof. destruct x; [congruence | reflexivity]. Qed.

Lemma replace_from_hit (old new s : string) :
  old <> "" ->
  Py.contains old s = true ->
  Py.contains new (Py.replace_from old new 0 s) = true.
Proof.
  intros Hold. induction s as [| c s IH]; intros H.
  - rewrite contains_unfold, (prefix_empty_subject old Hold) in H. discriminate.
  - rewrite contains_unfold in H. cbn [Py.replace_from].
    destruct (String.prefix old (String c s)).
    + apply contains_append_l.
    + apply contains_cons, IH. exact H.
Qed.

Lemma replace_from_miss (old new s : string) :
  Py.contains old s = false -> Py.replace_from old new 0 s = s.
Proof.
  induction s as [| c s IH]; intros H; [reflexivity |].
  rewrite contains_unfold in H. apply orb_false_iff in H. destruct H as [Hp Hc].
  cbn [Py.replace_from]. rewrite Hp. f_equal. apply IH, Hc.
Qed.

Lemma replace_unfold (old new s : string) :
  old <> "" -> Py.replace old new s = Py.replace_from old new 0 s.
Proof. destruct old; [congruence | reflexivity]. Qed.

(** A replacement either leaves the text alone or leaves the new text in it. *)
Lemma replace_cases (old new s : string) :
  old <> "" ->
  (Py.contains old s = false /\ Py.replace old new s = s)
  \/ (Py.contains old s = true /\ Py.contains new (Py.replace old new s) = true).
Proof.
  intros Hold. rewrite (replace_unfold old new s Hold).
  destruct (Py.contains old s) eqn:E.
  - right. split; [reflexivity |]. now apply replace_from_hit.
  - left. split; [reflexivity |]. now apply replace_from_miss.
Qed.

(** ** Bodies that are not UTF-8 *)

Lemma utf8_replaced_ascii (s : string) : ascii_only s = true -> utf8_replaced s = s.
Proof.
  induction s as [| c s IH]; [reflexivity |]. cbn [ascii_only utf8_replaced].
  intros H. apply andb_true_iff in H. destruct H as [Hc Hs].
  rewrite Hc. now rewrite IH.
Qed.

Lemma prefix_utf8_replaced (p : string) :
  forall s, ascii_only p = true -> String.prefix p s = true ->
            String.prefix p (utf8_replaced s) = true.
Proof.
  induction p as [| c p IH]; intros s Hp H.
  - now destruct (utf8_replaced s).
  - destruct s as [| a s]; [discriminate H |].
    cbn [ascii_only] in Hp. apply andb_true_iff in Hp. destruct Hp as [Hc Hp].
    simpl in H. destruct (ascii_dec c a) as [<- |]; [| discriminate H].
    cbn [utf8_replaced]. rewrite Hc. simpl.
    destruct (ascii_dec c c); [now apply IH | congruence].
Qed.

Lemma is_continuation_high (c : ascii) : is_continuation c = true -> (Py.code c <? 128)%nat = false.
Proof.
  unfold is_continuation. intros H. apply andb_true_iff in H. destruct H as [H _].
  apply Nat.leb_le in H. apply Nat.ltb_ge. exact H.
Qed.

Lemma second_of_three_high (l c : ascii) :
  second_of_three l c = true -> (Py.code c <? 128)%nat = false.
Proof.
  unfold second_of_three. intros H. apply andb_true_iff in H. destruct H as [H _].
  apply andb_true_iff in H. destruct H as [H _]. now apply is_continuation_high.
Qed.

Lemma second_of_four_high (l c : ascii) :
  second_of_four l c = true -> (Py.code c <? 128)%nat = false.
Proof.
  unfold second_of_four. intros H. apply andb_true_iff in H. destruct H as [H _].
  apply andb_true_iff in H. destruct H as [H _]. now apply is_continuation_high.
Qed.

(** An ASCII text does not start at a byte that is not ASCII. *)
Lemma contains_after_high_byte (c a : ascii) (b t : string) :
  (Py.code c <? 128)%nat = true -> (Py.code a <? 128)%nat = false ->
  Py.contains (String c b) (String a t) = true -> Py.contains (String c b) t = true.
Proof.
  intros Hc Ha H. rewrite contains_unfold in H. apply orb_true_iff in H.
  destruct H as [H | H]; [| exact H].
  simpl in H. destruct (ascii_dec c a); [congruence | discriminate H].
Qed.

Lemma contains_empty_subject (c : ascii) (b : string) : Py.contains (String c b) "" = false.
Proof. reflexivity. Qed.

Lemma contains_utf8_replaced (c : ascii) (b : string) :
  ascii_only (String c b) = true ->
  forall s, Py.contains (String c b) s = true ->
            Py.contains (String c b) (utf8_replaced s) = true.
Proof.
  intros Hb s.
  assert (Hc : (Py.code c <? 128)%nat = true)
    by (cbn [ascii_only] in Hb; apply andb_true_iff in Hb; tauto).
  remember (String.length s) as n eqn:Hn.
  assert (Hlen : (String.length s <= n)%nat) by lia. clear Hn.
  revert s Hlen. induction n as [| n IH]; intros s Hlen H.
  - destruct s; [discriminate H | simpl in Hlen; lia].
  - destruct s as [| a s1]; [discriminate H |].
    rewrite contains_unfold in H. apply orb_true_iff in H. destruct H as [H | H].
    + rewrite contains_unfold. apply orb_true_iff. left.
      now apply prefix_utf8_replaced.
    + simpl in Hlen.
      assert (IH1 : Py.contains (String c b) (utf8_replaced s1) = true)
        by (apply IH; [lia | exact H]).
      cbn [utf8_replaced].
      destruct (Py.code a <? 128)%nat; [now apply contains_cons |].
      destruct ((Py.code a <? 194) || (244 <? Py.code a))%nat;
        [now apply contains_append_r |].
      destruct s1 as [| b1 s2]; [discriminate H |]. simpl in Hlen.
      assert (IH2 : (Py.code b1 <? 128)%nat = false ->
                    Py.contains (String c b) (utf8_replaced s2) = true).
      { intros Hb1. apply IH; [lia |].
        apply (contains_after_high_byte c b1 b s2 Hc Hb1). exact H. }
      destruct (Py.code a <? 224)%nat.
      { destruct (is_continuation b1) eqn:E1; [| now apply contains_append_r].
        apply contains_cons, contains_cons, IH2. now apply is_continuation_high. }
      assert (Hthree : forall b2 s3,
                 s2 = String b2 s3 -> (Py.code b1 <? 128)%nat = false ->
                 ((Py.code b2 <? 128)%nat = false ->
                  Py.contains (String c b) (utf8_replaced s3) = true)).
      { intros b2 s3 -> Hb1 Hb2. apply IH; [simpl in Hlen; lia |].
        apply (contains_after_high_byte c b2 b s3 Hc Hb2).
        apply (contains_after_high_byte c b1 b _ Hc Hb1). exact H. }
      destruct (Py.code a <? 240)%nat.
      { destruct (second_of_three a b1) eqn:E1; [| now apply contains_append_r].
        apply second_of_three_high in E1.
        destruct s2 as [| b2 s3] eqn:Es2.
        - apply contains_after_high_byte in H; [discriminate H | exact Hc | exact E1].
        - destruct (is_continuation b2) eqn:E2.
          + apply contains_cons, contains_cons, contains_cons.
            apply (Hthree b2 s3 eq_refl E1). now apply is_continuation_high.
          + apply contains_append_r. now apply IH2. }
      destruct (second_of_four a b1) eqn:E1; [| now apply contains_append_r].
      apply second_of_four_high in E1.
      destruct s2 as [| b2 s3] eqn:Es2.
      { apply contains_after_high_byte in H; [discriminate H | exact Hc | exact E1]. }
      destruct (is_continuation b2) eqn:E2; [| apply contains_append_r; now apply IH2].
      apply is_continuation_high in E2.
      pose proof (Hthree b2 s3 eq_refl E1 E2) as IH3.
      destruct s3 as [| b3 s4].
      { apply contains_after_high_byte in H; [| exact Hc | exact E1].
        apply contains_after_high_byte in H; [discriminate H | exact Hc | exact E2]. }
      destruct (is_continuation b3) eqn:E3; [| now apply contains_append_r].
      apply is_continuation_high in E3.
      do 4 apply contains_cons. apply IH; [simpl in Hlen; lia |].
      apply (contains_after_high_byte c b3 b s4 Hc E3).
      apply (contains_after_high_byte c b2 b _ Hc E2).
      apply (contains_after_high_byte c b1 b _ Hc E1). exact H.
Qed.

Example utf8_replaced_ex :
  utf8_replaced (String "255" "ok") = REPLACEMENT_CHARACTER ++ "ok"
  /\ utf8_replaced (String "195" (String "169" "!")) = String "195" (String "169" "!")
  /\ utf8_replaced (String "195" "!") = REPLACEMENT_CHARACTER ++ "!"
  /\ utf8_replaced (String "a" (String "226" (String "130" ""))) = "a" ++ REPLACEMENT_CHARACTER
  /\ utf8_replaced (String "237" (String "160" (String "128" "")))
     = REPLACEMENT_CHARACTER ++ REPLACEMENT_CHARACTER ++ REPLACEMENT_CHARACTER.
Proof. repeat split. Qed.

(** ** The inbound model-name rewrite *)

Lemma rewrite_model_unfold (data_bytes X : string) :
  rewrite_model_in_response data_bytes (JStr X)
  = ret (Py.replace "phi4:latest" X
           (Py.replace "qwen2.5-coder:32b" X
              (Py.replace "llama3.3:latest" X (utf8_replaced data_bytes)))).
Proof. reflexivity. Qed.

Lemma model_map_backend_known (X b : string) :
  sdict_get MODEL_MAP X = Some b -> In b (map fst REVERSE_MAP).
Proof.
  unfold MODEL_MAP. cbn [sdict_get].
  repeat (destruct (String.eqb X _);
          [intros H; inversion H; subst; simpl; tauto |]).
  discriminate.
Qed.

(** C3 (as amended). The inbound rewrite decodes the body (a byte that
    is not UTF-8 becomes U+FFFD) and replaces the occurrences of every
    known backend model id, in the order of [REVERSE_MAP], by the client
    model id [X] of the request (not by the id's own counterpart in
    [REVERSE_MAP]).  So when the response body contains a known backend
    id, and in particular the id [MODEL_MAP] maps [X] to, the final body
    contains [X].  A decoded text with no known backend id is left as it
    is, and decoding does nothing to a body of ASCII bytes. *)
Theorem rewrite_puts_request_model :
  forall (data_bytes X : string),
  exists out : string,
    rewrite_model_in_response data_bytes (JStr X) = ret out
    /\ out = Py.replace "phi4:latest" X
               (Py.replace "qwen2.5-coder:32b" X
                  (Py.replace "llama3.3:latest" X (utf8_replaced data_bytes)))
    /\ (forall b, In b (map fst REVERSE_MAP) -> Py.contains b data_bytes = true ->
        Py.contains X out = true)
    /\ (forall b, sdict_get MODEL_MAP X = Some b -> Py.contains b data_bytes = true ->
        Py.contains X out = true)
    /\ ((forall b, In b (map fst REVERSE_MAP) ->
                   Py.contains b (utf8_replaced data_bytes) = false) ->
        out = utf8_replaced data_bytes)
    /\ (ascii_only data_bytes = true -> utf8_replaced data_bytes = data_bytes).
Proof.
  intros data_bytes X. eexists. split; [apply rewrite_model_unfold |]. split; [reflexivity |].
  set (text := utf8_replaced data_bytes).
  assert (Hdecoded : forall b, In b (map fst REVERSE_MAP) -> Py.contains b data_bytes = true ->
                     Py.contains b text = true).
  { intros b Hb Hin. simpl in Hb.
    destruct Hb as [Hb | [Hb | [Hb | []]]]; subst b;
      apply contains_utf8_replaced; (reflexivity || exact Hin). }
  assert (Hknown : forall b, In b (map fst REVERSE_MAP) -> Py.contains b text = true ->
                   Py.contains X
                     (Py.replace "phi4:latest" X
                        (Py.replace "qwen2.5-coder:32b" X (Py.replace "llama3.3:latest" X text)))
                   = true).
  { intros b Hb Hin.
    destruct (replace_cases "llama3.3:latest" X text) as [[M1 E1] | [_ H1]]; [discriminate | |].
    - rewrite E1.
      destruct (replace_cases "qwen2.5-coder:32b" X text) as [[M2 E2] | [_ H2]];
        [discriminate | |].
      + rewrite E2.
        destruct (replace_cases "phi4:latest" X text) as [[M3 E3] | [_ H3]];
          [discriminate | | exact H3].
        simpl in Hb. destruct Hb as [Hb | [Hb | [Hb | []]]]; subst b; congruence.
      + destruct (replace_cases "phi4:latest" X (Py.replace "qwen2.5-coder:32b" X text))
          as [[_ E3] | [_ H3]]; [discriminate | | exact H3].
        rewrite E3. exact H2.
    - destruct (replace_cases "qwen2.5-coder:32b" X (Py.replace "llama3.3:latest" X text))
        as [[_ E2] | [_ H2]]; [discriminate | |].
      + rewrite E2.
        destruct (replace_cases "phi4:latest" X (Py.replace "llama3.3:latest" X text))
          as [[_ E3] | [_ H3]]; [discriminate | | exact H3].
        rewrite E3. exact H1.
      + destruct (replace_cases "phi4:latest" X
                    (Py.replace "qwen2.5-coder:32b" X (Py.replace "llama3.3:latest" X text)))
          as [[_ E3] | [_ H3]]; [discriminate | | exact H3].
        rewrite E3. exact H2. }
  split; [intros b Hb Hin; apply (Hknown b Hb), Hdecoded; assumption |]. split.
  - intros b Hb Hin. apply (Hknown b); [| apply Hdecoded; [| exact Hin]];
      eapply model_map_backend_known; exact Hb.
  - split; [| apply utf8_replaced_ascii].
    intros Hnone.
    destruct (replace_cases "llama3.3:latest" X text) as [[_ E1] | [H1 _]]; [discriminate | |].
    2: { rewrite Hnone in H1; [discriminate | simpl; tauto]. }
    rewrite E1.
    destruct (replace_cases "qwen2.5-coder:32b" X text) as [[_ E2] | [H2 _]]; [discriminate | |].
    2: { rewrite Hnone in H2; [discriminate | simpl; tauto]. }
    rewrite E2.
    destruct (replace_cases "phi4:latest" X text) as [[_ E3] | [H3 _]]; [discriminate | |].
    2: { rewrite Hnone in H3; [discriminate | simpl; tauto]. }
    exact E3.
Qed.

(** C3 does not hold as stated: with the request model [gpt-5-mini] a
    response that mentions [llama3.3:latest] comes back with [gpt-5-mini]
    in its place, whereas the counterpart of that backend id in
    [REVERSE_MAP] is [gpt-5.2]. *)
Lemma rewrite_ignores_counterparts :
  sdict_get REVERSE_MAP "llama3.3:latest" = Some "gpt-5.2"
  /\ rewrite_to_counterparts "served by llama3.3:latest" = "served by gpt-5.2"
  /\ rewrite_model_in_response "served by llama3.3:latest" (JStr "gpt-5-mini")
     = ret "served by gpt-5-mini"
  /\ rewrite_model_in_response "served by llama3.3:latest" (JStr "gpt-5-mini")
     <> ret (rewrite_to_counterparts "served by llama3.3:latest").
Proof.
  repeat split; try reflexivity. vm_compute. discriminate.
Qed.

(** ** A request body that is not JSON *)

(** C1 fails on the code: when the body is not valid JSON the handler
    catches the decoding error and goes on to the call of [_proxy], whose
    arguments [tool_defs] and [last_user_text] were never assigned; the
    [UnboundLocalError] leaves [do_POST] and nothing is sent. *)
Theorem malformed_body_is_not_answered :
  forall (w : world) (body : string),
    json_loads w body = None ->
    do_POST w body = Unanswered (UnboundLocalError "tool_defs").
Proof.
  intros w body H. unfold do_POST, loads. rewrite H. reflexivity.
Qed.

Lemma malformed_body_is_not_answered_witness :
  json_loads (Sample.world "sk-or-1" (Sample.answer "Hello.")) "{not json" = None
  /\ do_POST (Sample.world "sk-or-1" (Sample.answer "Hello.")) "{not json"
     = Unanswered (UnboundLocalError "tool_defs").
Proof.
  split.
  - reflexivity.
  - apply (malformed_body_is_not_answered (Sample.world "sk-or-1" (Sample.answer "Hello."))
             "{not json").
    reflexivity.
Defined.

(** ** The registry of tool definitions *)

(** The definitions scanned are the elements of the client's list. *)
Lemma tools_or_empty_inv (tool_defs : Json) (tools : list Json) (reg0 reg : registry) :
  tools_or_empty tool_defs = ret tools ->
  scan_tools tools reg0 = ret reg ->
  declared_tools tool_defs = flat_map declared_name tools.
Proof.
  unfold tools_or_empty. destruct (truthy tool_defs) eqn:Ht; intros H Hscan.
  - destruct tool_defs as [| b | z | s | l | d]; simpl in H; try discriminate.
    + exfalso. inversion H. subst tools.
      destruct s as [| c s]; [discriminate Ht | simpl in Hscan; discriminate].
    + inversion H. reflexivity.
    + exfalso. inversion H. subst tools.
      destruct d as [| [k v] d]; [discriminate Ht | simpl in Hscan; discriminate].
  - inversion H. subst tools. destruct tool_defs as [| | | | l |]; try reflexivity.
    destruct l; [reflexivity | discriminate].
Qed.

Lemma known_In (reg : registry) (name : string) :
  known reg name = true <-> In name (known_tools reg).
Proof.
  unfold known. rewrite existsb_exists. split.
  - intros (x & Hx & E). apply String.eqb_eq in E. now subst.
  - intros H. exists name. split; [exact H | apply String.eqb_refl].
Qed.

(** Every name of the registry is declared by one of the definitions
    scanned. *)
Lemma scan_tools_declared (tools : list Json) :
  forall reg0 reg : registry,
    scan_tools tools reg0 = ret reg ->
    forall name, In name (known_tools reg) ->
                 In name (known_tools reg0) \/ In name (flat_map declared_name tools).
Proof.
  induction tools as [| t tools IH]; intros reg0 reg H name Hin.
  - inversion H. subst. now left.
  - cbn [scan_tools] in H. cbn [flat_map].
    destruct t as [| | | | | tool]; try (simpl in H; discriminate).
    cbn [as_dict bind ret] in H. unfold declared_name at 1.
    destruct (is_str (get tool "type") "function"); cbn [negb] in H.
    2: { destruct (IH _ _ H name Hin); [now left | right; exact H0]. }
    destruct (get_or tool "function" (JDict [])) as [| | | | | func];
      try (simpl in H; discriminate).
    cbn [as_dict bind ret] in H.
    destruct (truthy (get_or func "name" (JStr ""))) eqn:Ht.
    2: { destruct (IH _ _ H name Hin) as [Hl | Hr]; [now left |].
         right. apply in_or_app. now right. }
    destruct (get_or func "name" (JStr "")) as [| b | z | n | l | d];
      try (simpl in H; discriminate).
    + simpl in H. destruct (first_param func); simpl in H; [discriminate |].
      destruct (IH _ _ H name Hin); [now left | right; exact H0].
    + simpl in H. destruct (first_param func); simpl in H; [discriminate |].
      destruct (IH _ _ H name Hin); [now left | right; exact H0].
    + simpl in H. destruct (first_param func) as [e | p]; simpl in H; [discriminate |].
      destruct (IH _ _ H name Hin) as [Hl | Hr].
      * simpl in Hl. destruct Hl as [Hl | Hl]; [| now left].
        subst. right. simpl. now left.
      * right. apply in_or_app. now right.
Qed.

Lemma scan_tools_known_declared (tools : list Json) (reg : registry) (name : string) :
  scan_tools tools empty_registry = ret reg ->
  known reg name = true ->
  In name (flat_map declared_name tools).
Proof.
  intros H Hk. apply known_In in Hk.
  destruct (scan_tools_declared tools _ _ H name Hk) as [[] | Hd]. exact Hd.
Qed.

Lemma explicit_calls_known (reg : registry) (matches : list (nat * Re.found)) :
  Forall (call_to (fun name => known reg name = true)) (explicit_calls reg matches).
Proof.
  induction matches as [| [i m] matches IH]; simpl; [constructor |].
  destruct (known reg (Re.group m 1)) eqn:E; simpl; [| exact IH].
  constructor; [| exact IH].
  do 3 eexists. split; [reflexivity | exact E].
Qed.

Lemma convert_with_known (reg : registry) (content cleaned : string) (tcs : list Json) :
  convert_with reg content = (cleaned, Some tcs) ->
  Forall (call_to (fun name => known reg name = true)) tcs.
Proof.
  unfold convert_with.
  pose proof (explicit_calls_known reg (Py.enumerate (Re.finditer MLINE TOOL_CALL_PATTERN content)))
    as Hex.
  destruct (explicit_calls reg _) as [| tc0 tcs0].
  2: { intros H. inversion H. subst. exact Hex. }
  destruct (known reg "exec") eqn:Hexec; [| discriminate].
  destruct (map (markdown_call _) _) as [| md mds] eqn:Emd.
  2: { intros H. inversion H. subst tcs. rewrite <- Emd.
       apply Forall_forall. intros tc Hin. apply in_map_iff in Hin.
       destruct Hin as (im & E & _). subst tc.
       do 3 eexists. split; [reflexivity | exact Hexec]. }
  destruct (map (bare_call _) _) as [| b bs] eqn:Eb; [discriminate |].
  intros H. inversion H. subst tcs. rewrite <- Eb.
  apply Forall_forall. intros tc Hin. apply in_map_iff in Hin.
  destruct Hin as (im & E & _). subst tc.
  do 3 eexists. split; [reflexivity | exact Hexec].
Qed.

Lemma any_exec_declared (l : list Json) :
  any_exec l = ret true -> In "exec" (flat_map declared_name l).
Proof.
  induction l as [| t l IH]; intros H; simpl in H; [discriminate |].
  cbn [flat_map]. apply in_or_app.
  destruct t as [| | | | | d]; simpl in H; try discriminate.
  unfold declared_name.
  destruct (is_str (get d "type") "function"); [| right; apply IH; exact H].
  unfold function_name in H.
  destruct (get_or d "function" (JDict [])) as [| | | | | f]; simpl in H; try discriminate.
  destruct (is_str (get_or f "name" JNull) "exec") eqn:E.
  - left. apply is_str_inv in E. unfold get_or in *.
    destruct (dict_get f "name"); [| discriminate]. subst. simpl. now left.
  - right. apply IH. exact H.
Qed.

Lemma fallback_command_exec (k t msg : string) (chat : option string) (tcs : list Json) :
  fallback_command k t msg chat = Some tcs ->
  Forall (call_to (fun name => name = "exec")) tcs.
Proof.
  unfold fallback_command, exec_call, consensus_call. intros H.
  repeat match type of H with
         | match ?x with _ => _ end = _ => destruct x
         | (if ?x then _ else _) = _ => destruct x
         end;
    try discriminate; inversion H; subst;
    (constructor; [do 3 eexists; split; reflexivity | constructor]).
Qed.

Lemma fallback_tool_call_exec (k t msg : string) (tool_defs : Json) (chat : option string)
  (tcs : list Json) :
  fallback_tool_call k t msg tool_defs chat = ret (Some tcs) ->
  Forall (call_to (fun name => name = "exec")) tcs /\ In "exec" (declared_tools tool_defs).
Proof.
  unfold fallback_tool_call.
  destruct (truthy tool_defs) eqn:Ht; cbn [negb]; [| discriminate].
  destruct (iter tool_defs) as [e | l] eqn:Ei; cbn [bind]; [discriminate |].
  destruct (any_exec l) as [e | b] eqn:Ea; cbn [bind]; [discriminate |].
  destruct b; cbn [negb]; [| discriminate].
  intros H. inversion H as [Hc]. split; [eapply fallback_command_exec; exact Hc |].
  pose proof (any_exec_declared l Ea) as Hd.
  destruct tool_defs as [| | | s | l' | d]; simpl in Ei; try discriminate.
  - inversion Ei. subst l. exfalso.
    destruct s as [| c s]; [discriminate Ht | simpl in Ea; discriminate].
  - inversion Ei. subst l'. exact Hd.
  - inversion Ei. subst l. exfalso.
    destruct d as [| [k0 v0] d]; [discriminate Ht | simpl in Ea; discriminate].
Qed.

Lemma forced_tool_call_exec (w : world) (data : dict) (msgs : list dict) (tcs : list Json) :
  forced_tool_call w data msgs = ret (Some tcs) ->
  Forall (call_to (fun name => name = "exec")) tcs
  /\ (In "exec" (declared_tools (get_or data "tools" (JList [])))
      \/ truthy (get_or data "tools" (JList [])) = false).
Proof.
  unfold forced_tool_call.
  destruct (py_len (get_or data "tools" (JList []))) as [e | n]; cbn [bind]; [discriminate |].
  destruct (fst (latest_user_text (rev msgs) None)) as [text |]; [| discriminate].
  destruct (String.eqb text "" || has_tool_results msgs); [discriminate |].
  destruct (truthy (get_or data "tools" (JList []))) eqn:Ht; intros H.
  - destruct (fallback_tool_call_exec _ _ _ _ _ _ H) as [Hf Hd]. split; [exact Hf | now left].
  - destruct (fallback_tool_call_exec _ _ _ _ _ _ H) as [Hf _]. split; [exact Hf | now right].
Qed.

(** ** Tool calls in the responses *)

Lemma try_or_cases {A} (handled : list exn) (m : M A) (old x : A) :
  try_or handled m old = ret x -> m = ret x \/ x = old.
Proof.
  unfold try_or. destruct m as [e | a]; [| now left].
  destruct (caught_by handled e); [| discriminate]. intros H. inversion H. now right.
Qed.

Lemma fold_set_other (updates : list (string * Json)) (k : string) :
  forall c : dict,
    (forall kv, In kv updates -> fst kv <> k) ->
    dict_get (fold_left (fun c kv => dict_set c (fst kv) (snd kv)) updates c) k = dict_get c k.
Proof.
  induction updates as [| kv updates IH]; intros c H; [reflexivity |]. cbn [fold_left].
  rewrite IH by (intros kv' Hin; apply H; now right).
  apply dict_get_set_other. apply H. now left.
Qed.

(** After [resp_json['choices'][0]['message'] = msg], and other updates
    of the first choice, the message of the response is [msg]. *)
Lemma updated_message (r r' msg : dict) (more : list (string * Json)) :
  (forall kv, In kv more -> fst kv <> "message") ->
  update_first_choice r (("message", JDict msg) :: more) = ret r' ->
  first_message r' = ret msg.
Proof.
  intros Hmore H. unfold update_first_choice in H. cbn [subscript] in H.
  destruct (dict_get r "choices") as [choices |]; cbn [bind ret] in H; [| discriminate H].
  destruct choices as [| | | | [| [| | | | | c] rest] |]; try discriminate H.
  inversion H as [E]. clear H.
  unfold first_message, first_choice, get_or. rewrite dict_get_set_same.
  cbn [index0 as_dict bind ret fold_left].
  rewrite (fold_set_other more "message" _ Hmore), dict_get_set_same. reflexivity.
Qed.

Lemma exec_calls_declared (tool_defs : Json) (tcs : list Json) :
  Forall (call_to (fun name => name = "exec")) tcs ->
  In "exec" (declared_tools tool_defs) ->
  Forall (call_to (fun name => In name (declared_tools tool_defs))) tcs.
Proof.
  intros Hall Hin. eapply Forall_impl; [| exact Hall].
  intros tc (id & name & args & E & ->). exists id, "exec", args. now split.
Qed.

Lemma extracted_calls_declared (content tool_defs : Json) (cleaned : string) (tcs : list Json) :
  convert_text_to_tool_calls content tool_defs = ret (cleaned, Some tcs) ->
  Forall (call_to (fun name => In name (declared_tools tool_defs))) tcs.
Proof.
  intros H. unfold convert_text_to_tool_calls in H.
  destruct (tools_or_empty tool_defs) as [e | tools] eqn:Et; cbn [bind] in H; [discriminate |].
  destruct (scan_tools tools empty_registry) as [e | reg] eqn:Es; cbn [bind] in H;
    [discriminate |].
  destruct (as_str content) as [e | text]; cbn [bind] in H; [discriminate |].
  inversion H as [Hc].
  pose proof (convert_with_known reg text cleaned tcs Hc) as Hk.
  rewrite (tools_or_empty_inv tool_defs tools _ _ Et Es).
  eapply Forall_impl; [| exact Hk].
  intros tc (id & name & args & E & Hn).
  exists id, name, args. split; [exact E |].
  eapply scan_tools_known_declared; eassumption.
Qed.

(** The first [try] block of [_proxy] returns the body as it came, or the
    encoding of a response whose message carries calls named after the
    request's tool definitions. *)
Lemma tool_call_block_cases (w : world) (data : string) (tool_defs : Json)
  (last_user_text : option string) (out : string) :
  tool_call_block w data tool_defs last_user_text = ret out ->
  out = data
  \/ exists (r' : dict) (tcs : list Json),
       out = json_dumps (JDict r')
       /\ message_calls r' = Some (JList tcs)
       /\ Forall (call_to (fun name => In name (declared_tools tool_defs))) tcs.
Proof.
  unfold tool_call_block. intros H.
  destruct (loads w data) as [e | resp_json]; cbn [bind] in H; [discriminate H |].
  destruct (as_dict resp_json) as [e | r]; cbn [bind] in H; [discriminate H |].
  destruct (first_message r) as [e | msg]; cbn [bind] in H; [discriminate H |].
  match type of H with
  | bind ?f _ = _ => destruct f as [e | forced_tc] eqn:Ef; cbn [bind] in H; [discriminate H |]
  end.
  assert (Hinstalled : forall (msg' : dict) (tcs : list Json),
             dict_get msg' "tool_calls" = Some (JList tcs) ->
             Forall (call_to (fun name => In name (declared_tools tool_defs))) tcs ->
             (r0 <- update_first_choice r [("message", JDict msg');
                                           ("finish_reason", JStr "tool_calls")] ;;
              ret (json_dumps (JDict r0))) = ret out ->
             exists (r' : dict) (tcs : list Json),
               out = json_dumps (JDict r')
               /\ message_calls r' = Some (JList tcs)
               /\ Forall (call_to (fun name => In name (declared_tools tool_defs))) tcs).
  { intros msg' tcs Hget Hall H'.
    destruct (update_first_choice r _) as [e | r0] eqn:Eu; cbn [bind ret] in H';
      [discriminate H' |].
    inversion H' as [E]. exists r0, tcs. split; [reflexivity |]. split; [| exact Hall].
    unfold message_calls.
    rewrite (updated_message r r0 msg' [("finish_reason", JStr "tool_calls")]); [exact Hget | | exact Eu].
    intros kv [<- | []]. discriminate. }
  assert (Hconv : (ct <- convert_text_to_tool_calls
                           (str_or_empty (get_or msg "content" (JStr ""))) tool_defs ;;
                   match snd ct with
                   | Some (tc :: tcs) =>
                       r0 <- update_first_choice r
                               [("message",
                                 JDict (dict_set (dict_set msg "content" (or_none (JStr (fst ct))))
                                                 "tool_calls" (JList (tc :: tcs))));
                                ("finish_reason", JStr "tool_calls")] ;;
                       ret (json_dumps (JDict r0))
                   | _ => ret data
                   end) = ret out ->
                  out = data
                  \/ exists (r' : dict) (tcs : list Json),
                       out = json_dumps (JDict r')
                       /\ message_calls r' = Some (JList tcs)
                       /\ Forall (call_to (fun name => In name (declared_tools tool_defs))) tcs).
  { intros H'.
    destruct (convert_text_to_tool_calls _ tool_defs) as [e | [cleaned calls]] eqn:Ec;
      cbn [bind fst snd] in H'; [discriminate H' |].
    destruct calls as [[| tc tcs] |]; try (inversion H'; now left).
    right. eapply Hinstalled; [| | exact H'].
    - apply dict_get_set_same.
    - eapply extracted_calls_declared. exact Ec. }
  destruct forced_tc as [[| tc tcs] |]; try (now apply Hconv).
  right. eapply Hinstalled; [| | exact H].
  - rewrite dict_get_set_other by discriminate. apply dict_get_set_same.
  - destruct last_user_text as [t |]; [| discriminate Ef].
    destruct (String.eqb t ""); [discriminate Ef |].
    destruct (fallback_tool_call_exec _ _ _ _ _ _ Ef) as [Hexec Hdecl].
    now apply exec_calls_declared.
Qed.

(** The second [try] block returns the body as it came, or the encoding
    of the decoded response with another content and the same tool
    calls. *)
Lemma no_reply_block_cases (w : world) (data out : string) :
  no_reply_block w data = ret out ->
  out = data
  \/ exists r r' : dict,
       json_loads w data = Some (JDict r)
       /\ out = json_dumps (JDict r')
       /\ message_calls r' = message_calls r.
Proof.
  unfold no_reply_block, loads. intros H.
  destruct (json_loads w data) as [resp_json |] eqn:El; cbn [bind] in H; [| discriminate H].
  destruct resp_json as [| | | | | r]; try discriminate H. cbn [as_dict bind ret] in H.
  destruct (first_message r) as [e | msg] eqn:Em; cbn [bind] in H; [discriminate H |].
  destruct (is_no_reply (get_or msg "content" (JStr ""))); [| inversion H; now left].
  right. cbn [subscript] in H.
  destruct (dict_get r "choices") as [choices |] eqn:Ech; cbn [bind ret] in H; [| discriminate H].
  destruct (index0 choices) as [e | c] eqn:Ei; cbn [bind] in H; [discriminate H |].
  destruct c as [| | | | | c]; try discriminate H. cbn [subscript] in H.
  destruct (dict_get c "message") as [m |] eqn:Ecm; cbn [bind ret] in H; [| discriminate H].
  destruct m as [| | | | | m]; try discriminate H.
  destruct (update_first_choice r _) as [e | r'] eqn:Eu; cbn [bind ret] in H; [discriminate H |].
  inversion H as [E]. exists r, r'. split; [reflexivity |]. split; [reflexivity |].
  unfold message_calls.
  rewrite (updated_message r r' _ [] (fun kv (F : In kv []) => match F with end) Eu), Em.
  assert (msg = m).
  { unfold first_message, first_choice, get_or in Em. rewrite Ech in Em.
    rewrite Ei in Em. cbn [as_dict bind ret] in Em. rewrite Ecm in Em.
    cbn [as_dict] in Em. now inversion Em. }
  subst m. apply dict_get_set_other. discriminate.
Qed.

Lemma synth_resp_calls (w : world) (original_model : Json) (tcs : list Json) :
  exists r : dict,
    synth_resp w original_model tcs = JDict r /\ message_calls r = Some (JList tcs).
Proof. eexists. split; reflexivity. Qed.

(** C5 (as amended). The tool calls the proxy puts into a response are
    named after the tool definitions of the request.  Every call extracted
    from response text by [convert_text_to_tool_calls] names a function
    tool declared in [tool_defs], and a [TOOL_CALL:] line naming any other
    tool yields no call; every call returned by [fallback_tool_call] is an
    [exec] call and [exec] is declared in [tool_defs]; the forced call of
    [do_POST] is an [exec] call where either [exec] is declared in the
    request's [tools] or the request has no tool definitions at all (the
    handler then matches against a synthetic [exec] definition).  In the
    responses: the first block of [_proxy] returns the backend body as it
    came or the encoding of a response whose message carries such calls;
    the body that [_proxy] answers a POST with, or builds the stream from,
    is the backend body after the model-name rewrite, passed on as it is
    with whatever calls it holds, or that encoding, in both cases possibly
    with the content replaced by the NO_REPLY interception, which keeps the
    calls; and the shortcut of [do_POST] answers with a completion whose
    message carries the forced calls. *)
Theorem synthesized_calls_name_declared_tools :
  (forall (content tool_defs : Json) (cleaned : string) (tcs : list Json),
      convert_text_to_tool_calls content tool_defs = ret (cleaned, Some tcs) ->
      Forall (call_to (fun name => In name (declared_tools tool_defs))) tcs)
  /\ (forall (reg : registry) (i : nat) (m : Re.found) (rest : list (nat * Re.found)),
         known reg (Re.group m 1) = false ->
         explicit_calls reg ((i, m) :: rest) = explicit_calls reg rest)
  /\ (forall (api_key token user_msg : string) (tool_defs : Json) (chat_id : option string)
             (tcs : list Json),
         fallback_tool_call api_key token user_msg tool_defs chat_id = ret (Some tcs) ->
         Forall (call_to (fun name => name = "exec")) tcs
         /\ In "exec" (declared_tools tool_defs))
  /\ (forall (w : world) (data : dict) (msgs : list dict) (tcs : list Json),
         forced_tool_call w data msgs = ret (Some tcs) ->
         Forall (call_to (fun name => name = "exec")) tcs
         /\ (In "exec" (declared_tools (get_or data "tools" (JList [])))
             \/ truthy (get_or data "tools" (JList [])) = false))
  /\ (forall (w : world) (data : string) (tool_defs : Json) (last_user_text : option string)
             (out : string),
         tool_call_block w data tool_defs last_user_text = ret out ->
         out = data
         \/ exists (r' : dict) (tcs : list Json),
              out = json_dumps (JDict r')
              /\ message_calls r' = Some (JList tcs)
              /\ Forall (call_to (fun name => In name (declared_tools tool_defs))) tcs)
  /\ (forall (w : world) (body : option string) (client_wants_stream original_model : Json)
             (tool_defs : Json) (last_user_text : option string)
             (status : Z) (content_type payload : string),
         _proxy w "POST" body client_wants_stream original_model tool_defs last_user_text
         = Sent status content_type payload ->
         exists raw rewritten converted final : string,
           upstream w "POST" body = inr (status, raw)
           /\ rewrite_model_in_response raw original_model = ret rewritten
           /\ (converted = rewritten
               \/ exists (r' : dict) (tcs : list Json),
                    converted = json_dumps (JDict r')
                    /\ message_calls r' = Some (JList tcs)
                    /\ Forall (call_to (fun name => In name (declared_tools tool_defs))) tcs)
           /\ (final = converted
               \/ exists r r' : dict,
                    json_loads w converted = Some (JDict r)
                    /\ final = json_dumps (JDict r')
                    /\ message_calls r' = message_calls r)
           /\ ((content_type = JSON /\ payload = final)
               \/ exists (resp_json : Json) (chunks : list Json),
                    content_type = SSE
                    /\ json_loads w final = Some resp_json
                    /\ proxy_sse_chunks resp_json original_model = ret chunks
                    /\ payload = sse_body chunks))
  /\ (forall (w : world) (body : string) (data : dict) (all : list Json) (msgs : list dict)
             (tc : Json) (tcs : list Json),
         json_loads w body = Some (JDict data) ->
         iter (get_or data "messages" (JList [])) = ret all ->
         mapM debug_message all = ret msgs ->
         forced_tool_call w data msgs = ret (Some (tc :: tcs)) ->
         truthy (get_or data "stream" (JBool false)) = false ->
         exists r : dict,
           do_POST w body = Sent 200 JSON (json_dumps (JDict r))
           /\ message_calls r = Some (JList (tc :: tcs))).
Proof.
  split; [| split; [| split; [| split; [| split; [| split]]]]].
  - intros. eapply extracted_calls_declared. eassumption.
  - intros reg i m rest H. simpl. now rewrite H.
  - intros. eapply fallback_tool_call_exec. eassumption.
  - intros. eapply forced_tool_call_exec. eassumption.
  - intros. eapply tool_call_block_cases. eassumption.
  - intros w body stream om tool_defs lut status ctype payload H.
    unfold _proxy in H. cbn [String.eqb Ascii.eqb Bool.eqb andb] in H.
    destruct (upstream w "POST" body) as [msg | [status0 raw]] eqn:Eup;
      cbn [exchange bind ret] in H; [discriminate H |].
    cbn [fst snd] in H.
    destruct (rewrite_model_in_response raw om) as [e | rewritten] eqn:Erw; cbn [bind] in H;
      [discriminate H |].
    match type of H with
    | match bind ?c _ with _ => _ end = _ =>
        destruct c as [e | converted] eqn:Ec; cbn [bind] in H; [discriminate H |]
    end.
    destruct (try_or JSON_ERRORS (no_reply_block w converted) converted) as [e | final] eqn:En;
      cbn [bind] in H; [discriminate H |].
    assert (Hc : converted = rewritten
                 \/ exists (r' : dict) (tcs : list Json),
                      converted = json_dumps (JDict r')
                      /\ message_calls r' = Some (JList tcs)
                      /\ Forall (call_to (fun name => In name (declared_tools tool_defs))) tcs).
    { destruct (truthy tool_defs); [| inversion Ec; now left].
      apply try_or_cases in Ec. destruct Ec as [Ec | Ec]; [| now left].
      eapply tool_call_block_cases. exact Ec. }
    assert (Hn : final = converted
                 \/ exists r r' : dict,
                      json_loads w converted = Some (JDict r)
                      /\ final = json_dumps (JDict r')
                      /\ message_calls r' = message_calls r).
    { apply try_or_cases in En. destruct En as [En | En]; [| now left].
      now apply no_reply_block_cases. }
    match goal with
    | |- ?G => assert (Hjson : Sent status0 JSON final = Sent status ctype payload -> G)
    end.
    { intros E. inversion E. subst. exists raw, rewritten, converted, payload.
      split; [reflexivity |]. split; [exact Erw |]. split; [exact Hc |]. split; [exact Hn |].
      left. now split. }
    destruct (truthy stream); [| now apply Hjson].
    unfold loads in H. destruct (json_loads w final) as [resp_json |] eqn:El;
      cbn [bind ret raise] in H; [| now apply Hjson].
    destruct (proxy_sse_chunks resp_json om) as [e | chunks] eqn:Es; cbn [ret] in H;
      [now apply Hjson |].
    inversion H. subst. exists raw, rewritten, converted, final.
    split; [reflexivity |]. split; [exact Erw |]. split; [exact Hc |]. split; [exact Hn |].
    right. exists resp_json, chunks. repeat split; assumption.
  - intros w body data all msgs tc tcs Hload Hiter Hdbg Hforced Hs.
    destruct (synth_resp_calls w (get_or data "model" (JStr "gpt-5.2")) (tc :: tcs))
      as (r & Er & Hcalls).
    exists r. split; [| exact Hcalls]. rewrite <- Er.
    unfold do_POST, loads. rewrite Hload. cbn [as_dict ret].
    unfold shortcuts. rewrite Hiter. cbn [bind ret]. rewrite Hdbg. cbn [bind ret].
    rewrite Hforced. cbn [bind ret]. unfold forced_response. rewrite Hs. reflexivity.
Qed.

(** C5 does not hold as stated, for two reasons.  A request that
    supplies no tool definitions and whose user turn is [next] is answered
    with a tool call named [exec].  And a tool call that the backend
    itself puts into its answer is passed on as it is: with [exec] as the
    only declared tool, the call to [delete_files] of the backend reaches
    the client. *)
Lemma undeclared_tool_calls_reach_the_client :
  (let w := Sample.world "sk-or-1" (Sample.answer "Hello.") in
   let body := Sample.request "gpt-5.2" false [] [Sample.user "next"] in
   let call := exec_call "call_fallback_0" (XCITE ++ "prospect-store.mjs next") in
   (exists data, json_loads w body = Some (JDict data)
                 /\ declared_tools (get_or data "tools" (JList [])) = [])
   /\ do_POST w body = Sent 200 JSON (json_dumps (synth_resp w (JStr "gpt-5.2") [call]))
   /\ Sample.tool_calls_of (json_dumps (synth_resp w (JStr "gpt-5.2") [call]))
      = Some (JList [call])
   /\ call = tool_call "call_fallback_0" "exec"
               (json_dumps (JDict [("command", JStr (XCITE ++ "prospect-store.mjs next"))])))
  /\ (let w := Sample.world "sk-or-1" (Cases.answer_calling "delete_files") in
      let body := Sample.request "gpt-5.2" false Sample.exec_tools [Sample.user "hi"] in
      (exists data, json_loads w body = Some (JDict data)
                    /\ declared_tools (get_or data "tools" (JList [])) = ["exec"])
      /\ exists out : string,
           do_POST w body = Sent 200 JSON out
           /\ Sample.tool_calls_of out = Some (JList [tool_call "call_1" "delete_files" "{}"])).
Proof.
  cbv zeta. split; [split; [| split; [| split]] | split].
  - eexists. split; [vm_compute; reflexivity | reflexivity].
  - vm_compute. reflexivity.
  - vm_compute. reflexivity.
  - reflexivity.
  - eexists. split; [vm_compute; reflexivity | reflexivity].
  - eexists. split; [vm_compute; reflexivity | vm_compute; reflexivity].
Qed.

(** ** The parameter names of the registry *)









(** ** Strings *)

Lemma append_assoc (a b c : string) : (a ++ b) ++ c = a ++ (b ++ c).
Proof. induction a as [| x a IH]; simpl; [reflexivity | now rewrite IH]. Qed.

Lemma length_append (a b : string) :
  String.length (a ++ b) = (String.length a + String.length b)%nat.
Proof. induction a as [| x a IH]; simpl; [reflexivity | now rewrite IH]. Qed.

Lemma append_inj_l (a x y : string) : a ++ x = a ++ y -> x = y.
Proof. induction a as [| c a IH]; simpl; intros H; [exact H | inversion H; auto]. Qed.

Lemma append_inj_r (x y b : string) : x ++ b = y ++ b -> x = y.
Proof.
  revert y. induction x as [| c x IH]; intros [| d y] H; simpl in H.
  - reflexivity.
  - apply (f_equal String.length) in H. simpl in H. rewrite length_append in H. lia.
  - apply (f_equal String.length) in H. simpl in H. rewrite length_append in H. lia.
  - inversion H. f_equal. now apply IH.
Qed.

Lemma contains_middle (a x b : string) : Py.contains x (a ++ x ++ b) = true.
Proof. apply contains_append_r, contains_append_l. Qed.

(** ** JSON escaping *)

Lemma json_escape_append (a b : string) :
  json_escape (a ++ b) = json_escape a ++ json_escape b.
Proof.
  induction a as [| c a IH]; simpl; [reflexivity |]. now rewrite IH, append_assoc.
Qed.

Lemma unescape_head_escape (c : ascii) (r : string) :
  unescape_head (json_escape_char c ++ r) = Some (c, r).
Proof.
  destruct c as [b0 b1 b2 b3 b4 b5 b6 b7].
  destruct b0, b1, b2, b3, b4, b5, b6, b7; reflexivity.
Qed.

Lemma unescape_head_quote (r : string) : unescape_head (Py.dq ++ r) = None.
Proof. reflexivity. Qed.

(** Two escaped texts that agree up to their closing quotes are escapes of
    the same text. *)
Lemma json_escape_inj (s1 s2 r1 r2 : string) :
  json_escape s1 ++ Py.dq ++ r1 = json_escape s2 ++ Py.dq ++ r2 -> s1 = s2.
Proof.
  revert s2. induction s1 as [| c1 s1 IH]; intros [| c2 s2] H.
  - reflexivity.
  - exfalso. cbn [json_escape] in H. rewrite append_assoc in H.
    apply (f_equal unescape_head) in H.
    rewrite unescape_head_escape in H. simpl in H. discriminate.
  - exfalso. cbn [json_escape] in H. rewrite append_assoc in H.
    apply (f_equal unescape_head) in H.
    rewrite unescape_head_escape in H. simpl in H. discriminate.
  - cbn [json_escape] in H. rewrite !append_assoc in H.
    apply (f_equal unescape_head) in H.
    rewrite !unescape_head_escape in H. inversion H. subst c2. f_equal.
    apply IH. assumption.
Qed.

Lemma plain_char_escape (c : ascii) : plain_char c = true -> json_escape_char c = String c "".
Proof.
  destruct c as [b0 b1 b2 b3 b4 b5 b6 b7].
  destruct b0, b1, b2, b3, b4, b5, b6, b7; intros H; try discriminate H; reflexivity.
Qed.

Lemma json_plain_escape (s : string) : json_plain s = true -> json_escape s = s.
Proof.
  induction s as [| c s IH]; simpl; intros H; [reflexivity |].
  apply andb_true_iff in H. destruct H as [Hc Hs].
  now rewrite (plain_char_escape c Hc), (IH Hs).
Qed.

(** ** The consensus command *)

Lemma consensus_arguments_unfold (api_key token prompt : string) (chat_id : option string) :
  consensus_arguments api_key token prompt chat_id
  = ("{" ++ Py.dq ++ "command" ++ Py.dq ++ ": " ++ Py.dq)
    ++ json_escape (consensus_command api_key token prompt chat_id)
    ++ Py.dq ++ (", " ++ Py.dq ++ "timeoutMs" ++ Py.dq ++ ": 120000}").
Proof.
  unfold consensus_arguments. cbn [json_dumps map]. unfold Py.join, dumps_str.
  cbn [String.concat]. rewrite !append_assoc. reflexivity.
Qed.

Lemma consensus_command_key (api_key token prompt : string) (chat_id : option string) :
  exists tail : string,
    consensus_command api_key token prompt chat_id
    = "cd /data/.openclaw/skills/k-llm && OPENROUTER_API_KEY='" ++ api_key ++ tail
    /\ forall api_key', consensus_command api_key' token prompt chat_id
                        = "cd /data/.openclaw/skills/k-llm && OPENROUTER_API_KEY='"
                          ++ api_key' ++ tail.
Proof. eexists. split; [reflexivity | intros; reflexivity]. Qed.

Lemma consensus_command_token (api_key token prompt : string) (chat_id : option string) :
  exists tail : string,
    forall token', consensus_command api_key token' prompt chat_id
                   = ("cd /data/.openclaw/skills/k-llm && OPENROUTER_API_KEY='"
                      ++ api_key ++ "' ") ++ bot_token_env token' ++ tail.
Proof.
  eexists. intros token'. unfold consensus_command, bot_token_env.
  rewrite !append_assoc. reflexivity.
Qed.

Lemma bot_token_env_inj (t1 t2 : string) : bot_token_env t1 = bot_token_env t2 -> t1 = t2.
Proof.
  unfold bot_token_env.
  destruct (String.eqb_spec t1 ""), (String.eqb_spec t2 ""); intros H.
  - congruence.
  - destruct t2; [congruence | discriminate H].
  - destruct t1; [congruence | discriminate H].
  - apply (append_inj_l "TELEGRAM_BOT_TOKEN='") in H.
    now apply append_inj_r in H.
Qed.

Lemma consensus_command_inj_key (k1 k2 token prompt : string) (chat_id : option string) :
  consensus_command k1 token prompt chat_id = consensus_command k2 token prompt chat_id ->
  k1 = k2.
Proof.
  destruct (consensus_command_key k1 token prompt chat_id) as (tail & _ & E).
  rewrite (E k1), (E k2). intros H.
  apply append_inj_l in H. now apply append_inj_r in H.
Qed.

Lemma consensus_command_inj_token (api_key t1 t2 prompt : string) (chat_id : option string) :
  consensus_command api_key t1 prompt chat_id = consensus_command api_key t2 prompt chat_id ->
  t1 = t2.
Proof.
  destruct (consensus_command_token api_key t1 prompt chat_id) as (tail & E).
  rewrite (E t1), (E t2). intros H.
  apply append_inj_l in H. apply append_inj_r in H. now apply bot_token_env_inj.
Qed.

Lemma consensus_arguments_inj (k1 k2 t1 t2 prompt : string) (chat_id : option string) :
  consensus_arguments k1 t1 prompt chat_id = consensus_arguments k2 t2 prompt chat_id ->
  consensus_command k1 t1 prompt chat_id = consensus_command k2 t2 prompt chat_id.
Proof.
  rewrite !consensus_arguments_unfold. intros H.
  apply append_inj_l in H. eapply json_escape_inj. exact H.
Qed.

Lemma consensus_command_contains_key (api_key token prompt : string) (chat_id : option string) :
  Py.contains api_key (consensus_command api_key token prompt chat_id) = true.
Proof.
  destruct (consensus_command_key api_key token prompt chat_id) as (tail & E & _).
  rewrite E. apply contains_middle.
Qed.

Lemma consensus_command_contains_token (api_key token prompt : string) (chat_id : option string) :
  token <> "" ->
  Py.contains token (consensus_command api_key token prompt chat_id) = true.
Proof.
  intros Hne.
  destruct (consensus_command_token api_key token prompt chat_id) as (tail & E).
  rewrite (E token). unfold bot_token_env.
  destruct (String.eqb_spec token ""); [congruence |].
  apply contains_append_r. rewrite !append_assoc. apply contains_middle.
Qed.

Lemma consensus_arguments_contain_escaped_key (api_key token prompt : string)
  (chat_id : option string) :
  Py.contains (json_escape api_key) (consensus_arguments api_key token prompt chat_id) = true.
Proof.
  rewrite consensus_arguments_unfold.
  destruct (consensus_command_key api_key token prompt chat_id) as (tail & E & _).
  rewrite E, !json_escape_append.
  apply contains_append_r. rewrite !append_assoc. apply contains_middle.
Qed.

(** The branch of [fallback_command] is chosen by the user message alone. *)
Lemma fallback_command_consensus (api_key token user_msg : string) (chat_id : option string)
  (tc : Json) :
  fallback_command api_key token user_msg chat_id = Some [tc] ->
  subscript tc "id" = ret (JStr "call_consensus_0") ->
  exists prompt : string,
    tc = consensus_call api_key token prompt chat_id
    /\ forall api_key' token',
         fallback_command api_key' token' user_msg chat_id
         = Some [consensus_call api_key' token' prompt chat_id].
Proof.
  unfold fallback_command.
  destruct (Re.search ICASE SKILL_LIST_RE (Py.strip user_msg)).
  { intros H Hid. inversion H. subst tc. discriminate Hid. }
  destruct (Re.search ICASE SKILL_ENABLE_RE (Py.strip user_msg)).
  { intros H Hid. inversion H. subst tc. discriminate Hid. }
  destruct (Re.search ICASE SKILL_DISABLE_RE (Py.strip user_msg)).
  { intros H Hid. inversion H. subst tc. discriminate Hid. }
  destruct (simple_command (Py.lower (Py.strip user_msg)) XCITE_FALLBACKS).
  { intros H Hid. inversion H. subst tc. discriminate Hid. }
  destruct (Re.match_ ICASE SCOUT_RE (Py.lower (Py.strip user_msg))).
  { intros H Hid. inversion H. subst tc. discriminate Hid. }
  destruct (negb (existsb (fun marker => Py.contains marker user_msg) exec_markers));
    [| discriminate].
  destruct (Re.search ICASE_DOTALL CONSENSUS_RE (Py.strip user_msg)) as [cm |]; [| discriminate].
  intros H _. inversion H. eexists. split; [reflexivity | intros; reflexivity].
Qed.

Lemma fallback_tool_call_consensus (api_key token user_msg : string) (tool_defs : Json)
  (chat_id : option string) (tc : Json) :
  fallback_tool_call api_key token user_msg tool_defs chat_id = ret (Some [tc]) ->
  subscript tc "id" = ret (JStr "call_consensus_0") ->
  exists prompt : string,
    tc = consensus_call api_key token prompt chat_id
    /\ forall api_key' token',
         fallback_tool_call api_key' token' user_msg tool_defs chat_id
         = ret (Some [consensus_call api_key' token' prompt chat_id]).
Proof.
  unfold fallback_tool_call.
  destruct (truthy tool_defs); cbn [negb]; [| discriminate].
  destruct (iter tool_defs) as [e | l]; cbn [bind]; [discriminate |].
  destruct (any_exec l) as [e | b]; cbn [bind]; [discriminate |].
  destruct b; cbn [negb]; [| discriminate].
  intros H Hid. inversion H as [Hc].
  destruct (fallback_command_consensus _ _ _ _ _ Hc Hid) as (prompt & E & Hall).
  exists prompt. split; [exact E |]. intros k' t'. now rewrite Hall.
Qed.

(** C8 (as amended). When the consensus directive fires (the tool call
    returned by [fallback_tool_call] is the one with id
    [call_consensus_0]), the arguments string is the JSON encoding of an
    object whose [command] contains the value of [OPENROUTER_API_KEY]
    verbatim, and that of [TELEGRAM_BOT_TOKEN] when it is set; the
    arguments string itself contains the key as JSON escapes it, which is
    the key verbatim when it consists of printable ASCII characters other
    than the quote and the backslash.  A run that differs only in the key,
    or only in the token, returns a tool call with different arguments. *)
Theorem consensus_call_carries_api_key :
  forall (api_key token user_msg : string) (tool_defs : Json) (chat_id : option string)
         (tc : Json),
    fallback_tool_call api_key token user_msg tool_defs chat_id = ret (Some [tc]) ->
    subscript tc "id" = ret (JStr "call_consensus_0") ->
    exists command arguments : string,
      tc = tool_call "call_consensus_0" "exec" arguments
      /\ arguments = json_dumps (JDict [("command", JStr command); ("timeoutMs", JInt 120000)])
      /\ Py.contains api_key command = true
      /\ (token <> "" -> Py.contains token command = true)
      /\ Py.contains (json_escape api_key) arguments = true
      /\ (json_plain api_key = true -> Py.contains api_key arguments = true)
      /\ (forall api_key', api_key' <> api_key ->
          exists arguments',
            fallback_tool_call api_key' token user_msg tool_defs chat_id
            = ret (Some [tool_call "call_consensus_0" "exec" arguments'])
            /\ arguments' <> arguments)
      /\ (forall token', token' <> token ->
          exists arguments',
            fallback_tool_call api_key token' user_msg tool_defs chat_id
            = ret (Some [tool_call "call_consensus_0" "exec" arguments'])
            /\ arguments' <> arguments).
Proof.
  intros api_key token user_msg tool_defs chat_id tc H Hid.
  destruct (fallback_tool_call_consensus _ _ _ _ _ _ H Hid) as (prompt & E & Hall).
  exists (consensus_command api_key token prompt chat_id),
         (consensus_arguments api_key token prompt chat_id).
  split; [exact E |]. split; [reflexivity |].
  split; [apply consensus_command_contains_key |].
  split; [apply consensus_command_contains_token |].
  split; [apply consensus_arguments_contain_escaped_key |].
  split; [| split].
  - intros Hplain. rewrite <- (json_plain_escape api_key Hplain) at 1.
    apply consensus_arguments_contain_escaped_key.
  - intros k' Hne. exists (consensus_arguments k' token prompt chat_id).
    split; [apply Hall |]. intros Heq. apply Hne.
    apply consensus_arguments_inj in Heq. eapply consensus_command_inj_key. exact Heq.
  - intros t' Hne. exists (consensus_arguments api_key t' prompt chat_id).
    split; [apply Hall |]. intros Heq. apply Hne.
    apply consensus_arguments_inj in Heq. eapply consensus_command_inj_token. exact Heq.
Qed.

(** C8 does not hold as stated: with a key that contains a quote the
    arguments string holds the key in its escaped form only. *)
Lemma quoted_key_is_escaped_in_arguments :
  let api_key := "sk" ++ Py.dq ++ "or" in
  exists arguments : string,
    fallback_tool_call api_key "" "consensus: hi" (JList Sample.exec_tools) None
    = ret (Some [tool_call "call_consensus_0" "exec" arguments])
    /\ Py.contains api_key arguments = false
    /\ Py.contains ("sk" ++ Py.bs ++ Py.dq ++ "or") arguments = true.
Proof.
  cbv zeta. eexists. split; [vm_compute; reflexivity |].
  split; vm_compute; reflexivity.
Qed.

Lemma consensus_call_carries_api_key_witness :
  exists arguments : string,
    fallback_tool_call "sk-or-1" "" "consensus: hi" (JList Sample.exec_tools) None
    = ret (Some [tool_call "call_consensus_0" "exec" arguments])
    /\ Py.contains "sk-or-1" arguments = true.
Proof.
  destruct (consensus_call_carries_api_key "sk-or-1" "" "consensus: hi"
              (JList Sample.exec_tools) None
              (consensus_call "sk-or-1" "" "hi" None) eq_refl eq_refl)
    as (command & arguments & Htc & _ & _ & _ & _ & Hplain & _).
  exists arguments. split.
  - rewrite <- Htc. reflexivity.
  - apply Hplain. reflexivity.
Defined.

(** ** The stream next to the unary answer *)

(** C2 does not hold as stated: the backend answers with a sentence
    and a [TOOL_CALL:] line; the unary response carries the sentence as
    its content beside the tool call, the stream of the same response
    carries the tool call only, so its content payloads join to the empty
    text. *)
Lemma text_beside_tool_calls_is_not_streamed :
  let w := Sample.world "sk-or-1"
             (Sample.answer ("Running it now." ++ Py.nl ++ "TOOL_CALL: exec ls -la")) in
  let request := fun stream =>
    Sample.request "gpt-5.2" stream Sample.exec_tools [Sample.user "list the files"] in
  exists (body : string) (resp : Json) (chunks : list Json),
    do_POST w (request false) = Sent 200 JSON body
    /\ json_loads w body = Some resp
    /\ unary_content resp = ret (JStr "Running it now.")
    /\ proxy_sse_chunks resp (JStr "gpt-5.2") = ret chunks
    /\ do_POST w (request true) = Sent 200 SSE (sse_body chunks)
    /\ streamed_content chunks = ""
    /\ streamed_content chunks <> "Running it now.".
Proof.
  cbv zeta. do 3 eexists.
  split; [vm_compute; reflexivity |].
  split; [vm_compute; reflexivity |].
  split; [vm_compute; reflexivity |].
  split; [vm_compute; reflexivity |].
  split; [vm_compute; reflexivity |].
  split; [vm_compute; reflexivity | vm_compute; discriminate].
Qed.

Lemma stream_reconstructs_answer_witness :
  exists chunks : list Json,
    proxy_sse_chunks (JDict (Sample.answer_dict "Hello there")) (JStr "gpt-5.2") = ret chunks
    /\ streamed_content chunks = "Hello there".
Proof.
  destruct (stream_reconstructs_answer (Sample.answer_dict "Hello there") (JStr "gpt-5.2")
              _ "Hello there" eq_refl eq_refl) as (_ & Htext & _).
  destruct (Htext eq_refl) as (chunks & chunks' & E & _ & Hc & _).
  exists chunks. split; assumption.
Defined.

Example hello_there_stream :
  proxy_sse_chunks (JDict (Sample.answer_dict "Hello there")) (JStr "gpt-5.2")
  = ret [ chunk (JStr "chatcmpl-1") (JInt 1700000001) (JStr "llama3.3:latest")
                (JDict [("role", JStr "assistant"); ("content", JStr "")]) JNull None;
          chunk (JStr "chatcmpl-1") (JInt 1700000001) (JStr "llama3.3:latest")
                (JDict [("content", JStr "Hello there")]) JNull None;
          chunk (JStr "chatcmpl-1") (JInt 1700000001) (JStr "llama3.3:latest")
                (JDict []) (JStr "stop") (Some (JDict [])) ].
Proof. reflexivity. Qed.


Lemma system_message_gets_override_witness :
  get (clean_message (Sample.system "You are helpful.")) "content"
  = JStr ("You are helpful." ++ SYSTEM_OVERRIDE)
  /\ In (clean_message (Sample.system "You are helpful."))
        (trim_messages (map clean_message Sample.history)).
Proof.
  destruct (system_message_gets_override Sample.history (Sample.system "You are helpful.")
              "You are helpful." (or_introl eq_refl) eq_refl eq_refl)
    as (stripped & _ & _ & Hget & Hin & Hsame & _).
  split; [| exact Hin].
  rewrite Hget. f_equal. f_equal. apply Hsame.
  - intros pattern [<- | [<- | []]]; vm_compute; reflexivity.
  - vm_compute. reflexivity.
Defined.

Example no_reply_line_is_stripped :
  strip_no_reply_from_content
    (JStr ("Be kind." ++ Py.nl ++ "Reply NO_REPLY when idle." ++ Py.nl ++ "Be brief."))
  = JStr ("Be kind." ++ Py.nl ++ Py.nl ++ "Be brief." ++ SYSTEM_OVERRIDE).
Proof. vm_compute. reflexivity. Qed.

Lemma rewrite_puts_request_model_witness :
  exists out : string,
    rewrite_model_in_response "I am llama3.3:latest." (JStr "gpt-5") = ret out
    /\ Py.contains "gpt-5" out = true.
Proof.
  destruct (rewrite_puts_request_model "I am llama3.3:latest." "gpt-5")
    as (out & E & _ & _ & Hmap & _).
  exists out. split; [exact E |].
  apply (Hmap "llama3.3:latest"); reflexivity.
Defined.

Lemma synthesized_calls_name_declared_tools_witness :
  Forall (call_to (fun name => In name (declared_tools (JList Sample.exec_tools))))
         [tool_call "call_exec_0" "exec" (json_dumps (JDict [("command", JStr "ls")]))].
Proof.
  apply (proj1 synthesized_calls_name_declared_tools
               (JStr "TOOL_CALL: exec ls") (JList Sample.exec_tools) "").
  vm_compute. reflexivity.
Defined.


(** ** Directives and replayed turns *)

(** The shortcut of [do_POST] is skipped when the last message that is not
    a system one is a tool result or an assistant turn with tool calls. *)
Lemma shortcut_skipped_after_tool_turn (w : world) (data : dict) (msgs : list dict) (n : nat) :
  py_len (get_or data "tools" (JList [])) = ret n ->
  has_tool_results msgs = true ->
  forced_tool_call w data msgs = ret None.
Proof.
  intros Hlen Hskip. unfold forced_tool_call. rewrite Hlen, Hskip. cbn [bind].
  destruct (fst (latest_user_text (rev msgs) None)); [| reflexivity].
  now rewrite orb_true_r.
Qed.

(** C6 fails on the code.  The user turn [skills] is answered with the
    forced call [call_skills_0].  When the client replays the history with
    the assistant turn carrying that call and its tool result as the
    newest turn, the shortcut of [do_POST] is skipped, but [_proxy] runs
    [fallback_tool_call] again, without that check, on the text of the
    last user message of the cleaned history, which is the converted tool
    result: the same directive fires a second time.  With an assistant
    turn carrying tool calls as the newest turn, [_proxy] matches the
    original user turn [next] again. *)
Theorem directive_refires_on_replayed_turn :
  let w := Sample.world "sk-or-1" (Sample.answer "Done.") in
  let list_call := exec_call "call_skills_0" (SKILL_MANAGER ++ " list") in
  let next_call := exec_call "call_fallback_0" (XCITE ++ "prospect-store.mjs next") in
  let replay := [ Sample.user "skills"; Sample.assistant_calls [list_call];
                  Sample.tool_result "call_skills_0" "exec" "[core] skills: a, b" ] in
  let pending := [ Sample.user "next"; Sample.assistant_calls [next_call] ] in
  do_POST w (Sample.request "gpt-5.2" false Sample.exec_tools [Sample.user "skills"])
  = Sent 200 JSON (json_dumps (synth_resp w (JStr "gpt-5.2") [list_call]))
  /\ has_tool_results replay = true
  /\ has_tool_results pending = true
  /\ (exists body : string,
         do_POST w (Sample.request "gpt-5.2" false Sample.exec_tools replay) = Sent 200 JSON body
         /\ Sample.tool_calls_of body = Some (JList [list_call]))
  /\ (exists body : string,
         do_POST w (Sample.request "gpt-5.2" false Sample.exec_tools pending) = Sent 200 JSON body
         /\ Sample.tool_calls_of body = Some (JList [next_call])).
Proof.
  cbv zeta. split; [vm_compute; reflexivity |].
  split; [vm_compute; reflexivity |].
  split; [vm_compute; reflexivity |].
  split; eexists; (split; [vm_compute; reflexivity | vm_compute; reflexivity]).
Qed.

Example ordinary_tool_result_is_not_matched :
  let w := Sample.world "sk-or-1" (Sample.answer "Done.") in
  let next_call := exec_call "call_fallback_0" (XCITE ++ "prospect-store.mjs next") in
  exists body : string,
    do_POST w (Sample.request "gpt-5.2" false Sample.exec_tools
                 [ Sample.user "next"; Sample.assistant_calls [next_call];
                   Sample.tool_result "call_fallback_0" "exec" "prospect 1" ])
    = Sent 200 JSON body
    /\ Sample.tool_calls_of body = None.
Proof.
  cbv zeta. eexists. split; [vm_compute; reflexivity | vm_compute; reflexivity].
Qed.

(** * Further properties of the code *)

(** ** Dictionaries with one entry per key *)

Lemma has_key_get (d : dict) (k : string) :
  has_key d k = true <-> In k (map fst d).
Proof.
  unfold has_key. induction d as [| [k' v] d IH]; simpl.
  - split; [discriminate | tauto].
  - destruct (String.eqb_spec k k') as [-> | Hne].
    + split; auto.
    + rewrite IH. split; [auto | intros [H | H]; [congruence | exact H]].
Qed.

Lemma has_key_false (d : dict) (k : string) :
  has_key d k = false <-> ~ In k (map fst d).
Proof.
  rewrite <- has_key_get. destruct (has_key d k); split; congruence.
Qed.

Lemma keys_del (d : dict) (k x : string) :
  In x (map fst (dict_del d k)) -> In x (map fst d).
Proof.
  induction d as [| [k' v] d IH]; simpl; [tauto |].
  destruct (String.eqb k k'); simpl; [auto |]. intros [H | H]; auto.
Qed.

Lemma unique_keys_del (d : dict) (k : string) :
  unique_keys d -> unique_keys (dict_del d k).
Proof.
  unfold unique_keys. induction d as [| [k' v] d IH]; simpl; intros H; [constructor |].
  inversion H as [| ? ? Hnot Hd]. subst.
  destruct (String.eqb k k'); simpl; [exact Hd |].
  constructor; [| apply IH, Hd]. intros Hin. apply Hnot. eapply keys_del. exact Hin.
Qed.

Lemma has_key_del_same (d : dict) (k : string) :
  unique_keys d -> has_key (dict_del d k) k = false.
Proof.
  unfold unique_keys. intros H. apply has_key_false.
  induction d as [| [k' v] d IH]; simpl; [tauto |].
  inversion H as [| ? ? Hnot Hd]. subst.
  destruct (String.eqb_spec k k') as [-> | Hne]; [exact Hnot |].
  simpl. intros [E | Hin]; [congruence | exact (IH Hd Hin)].
Qed.

Lemma has_key_del_other (d : dict) (k k' : string) :
  k <> k' -> has_key (dict_del d k) k' = has_key d k'.
Proof. intros H. unfold has_key. now rewrite dict_get_del_other. Qed.

Lemma has_key_set_other (d : dict) (k k' : string) (v : Json) :
  k <> k' -> has_key (dict_set d k v) k' = has_key d k'.
Proof. intros H. unfold has_key. now rewrite dict_get_set_other. Qed.

Lemma has_key_set_same (d : dict) (k : string) (v : Json) : has_key (dict_set d k v) k = true.
Proof. unfold has_key. now rewrite dict_get_set_same. Qed.

Lemma keys_set (d : dict) (k x : string) (v : Json) :
  In x (map fst (dict_set d k v)) -> x = k \/ In x (map fst d).
Proof.
  induction d as [| [k' v'] d IH]; simpl.
  - intros [H | []]; auto.
  - destruct (String.eqb_spec k k') as [-> | Hne]; simpl.
    + intros [H | H]; auto.
    + intros [H | H]; [auto | destruct (IH H); auto].
Qed.

Lemma unique_keys_set (d : dict) (k : string) (v : Json) :
  unique_keys d -> unique_keys (dict_set d k v).
Proof.
  unfold unique_keys. induction d as [| [k' v'] d IH]; simpl; intros H.
  - constructor; [tauto | constructor].
  - inversion H as [| ? ? Hnot Hd]. subst.
    destruct (String.eqb_spec k k') as [-> | Hne]; simpl.
    + constructor; assumption.
    + constructor; [| apply IH, Hd].
      intros Hin. destruct (keys_set _ _ _ _ Hin); [congruence | auto].
Qed.

(** ** Removing parameters *)

Lemma strip_keys_absent (params : list string) :
  forall (data : dict) (k : string),
    has_key data k = false -> has_key (fst (strip_keys params data)) k = false.
Proof.
  induction params as [| p params IH]; intros data k H; simpl; [exact H |].
  destruct (has_key data p); simpl; [| now apply IH].
  apply IH. apply has_key_false. intros Hin. apply keys_del in Hin.
  now apply has_key_false in H.
Qed.

Lemma strip_keys_unique (params : list string) :
  forall data : dict, unique_keys data -> unique_keys (fst (strip_keys params data)).
Proof.
  induction params as [| p params IH]; intros data H; simpl; [exact H |].
  destruct (has_key data p); simpl; [apply IH, unique_keys_del, H | apply IH, H].
Qed.

Lemma strip_keys_removed (params : list string) :
  forall (data : dict) (p : string),
    unique_keys data -> In p params -> has_key (fst (strip_keys params data)) p = false.
Proof.
  induction params as [| q params IH]; intros data p Hu Hin; simpl; [destruct Hin |].
  destruct Hin as [-> | Hin].
  - destruct (has_key data p) eqn:E; simpl.
    + apply strip_keys_absent. now apply has_key_del_same.
    + now apply strip_keys_absent.
  - destruct (has_key data q); simpl; [apply IH; [apply unique_keys_del, Hu | exact Hin] |].
    now apply IH.
Qed.

Lemma strip_keys_other (params : list string) :
  forall (data : dict) (k : string),
    ~ In k params -> dict_get (fst (strip_keys params data)) k = dict_get data k.
Proof.
  induction params as [| q params IH]; intros data k Hk; simpl; [reflexivity |].
  assert (q <> k) by (intros ->; apply Hk; now left).
  assert (~ In k params) by (intros Hin; apply Hk; now right).
  destruct (has_key data q); simpl; [| now apply IH].
  rewrite IH by assumption. now apply dict_get_del_other.
Qed.

Lemma strip_keys_reported (params : list string) :
  forall (data : dict) (p : string),
    In p (snd (strip_keys params data)) -> In p params /\ has_key data p = true.
Proof.
  induction params as [| q params IH]; intros data p H; simpl in H; [destruct H |].
  destruct (has_key data q) eqn:E; simpl in H.
  - destruct H as [<- | H]; [split; [now left | exact E] |].
    destruct (IH _ _ H) as [Hin Hk]. split; [now right |].
    apply has_key_get in Hk. apply has_key_get. eapply keys_del. exact Hk.
  - destruct (IH _ _ H) as [Hin Hk]. split; [now right | exact Hk].
Qed.

(** X1. The parameter-stripping loop: on a dictionary with one entry per
    key, none of the listed parameters is left, every other key keeps its
    value, the result again has one entry per key, and a name is reported
    as removed only if it was listed and present. *)
Theorem strip_keys_removes_exactly :
  forall (params : list string) (data : dict),
    unique_keys data ->
    unique_keys (fst (strip_keys params data))
    /\ (forall p, In p params -> has_key (fst (strip_keys params data)) p = false)
    /\ (forall k, ~ In k params -> dict_get (fst (strip_keys params data)) k = dict_get data k)
    /\ (forall p, In p (snd (strip_keys params data)) -> In p params /\ has_key data p = true).
Proof.
  intros params data Hu. split; [now apply strip_keys_unique |].
  split; [intros; now apply strip_keys_removed |].
  split; [intros; now apply strip_keys_other |].
  intros. now apply strip_keys_reported.
Qed.

(** ** The cleaning loop *)

Lemma is_str_get_set_other (d : dict) (k : string) (v : Json) (s : string) :
  k <> "role" -> is_str (get (dict_set d k v) "role") s = is_str (get d "role") s.
Proof. intros H. now rewrite get_set_other. Qed.

Lemma truthy_not_no_reply_text : is_no_reply (JStr "(thinking...)") = false
                                 /\ is_no_reply (JStr "(no response)") = false.
Proof. split; reflexivity. Qed.

(** X2. What the cleaning loop guarantees of every message it emits, for a
    message with one entry per key: the result is never a tool-role
    message and has neither [tool_calls] nor [tool_call_id]; a tool result
    becomes a user message whose text starts with the tool-result tag; any
    other message keeps its role; and an assistant message leaves with a
    non-empty content that is not NO_REPLY. *)
Theorem cleaned_message_shape :
  forall msg : dict,
    unique_keys msg ->
    is_str (get (clean_message msg) "role") "tool" = false
    /\ has_key (clean_message msg) "tool_calls" = false
    /\ has_key (clean_message msg) "tool_call_id" = false
    /\ (is_str (get msg "role") "tool" = true ->
        get (clean_message msg) "role" = JStr "user"
        /\ exists rest, get (clean_message msg) "content" = JStr ("[Tool result from " ++ rest))
    /\ (is_str (get msg "role") "tool" = false ->
        get (clean_message msg) "role" = get msg "role")
    /\ (is_str (get (clean_message msg) "role") "assistant" = true ->
        truthy (get_or (clean_message msg) "content" (JStr "")) = true
        /\ is_no_reply (get_or (clean_message msg) "content" (JStr "")) = false).
Proof.
  intros msg Hu. unfold clean_message.
  destruct (is_str (get msg "role") "tool") eqn:Etool.
  { repeat split; try reflexivity; try discriminate.
    eexists. reflexivity. }
  set (copy := dict_del (dict_del msg "tool_calls") "tool_call_id").
  assert (Hrole : get copy "role" = get msg "role")
    by (unfold copy; rewrite !get_del_other by discriminate; reflexivity).
  assert (Hk1 : has_key copy "tool_calls" = false).
  { unfold copy. rewrite has_key_del_other by discriminate. now apply has_key_del_same. }
  assert (Hk2 : has_key copy "tool_call_id" = false).
  { unfold copy. apply has_key_del_same. now apply unique_keys_del. }
  set (copy1 := if is_system copy then _ else copy).
  assert (H1 : get copy1 "role" = get msg "role"
               /\ has_key copy1 "tool_calls" = false
               /\ has_key copy1 "tool_call_id" = false).
  { unfold copy1. destruct (is_system copy); [| auto].
    destruct (get_or copy "content" (JStr "")); auto;
      (rewrite get_set_other by discriminate;
       rewrite !has_key_set_other by discriminate; auto). }
  destruct H1 as (R1 & K1 & K2).
  destruct (is_str (get copy1 "role") "assistant") eqn:Eas.
  - destruct (is_no_reply (get_or copy1 "content" (JStr ""))) eqn:Enr;
      [| destruct (truthy (get_or copy1 "content" (JStr ""))) eqn:Etr; cbn [negb]].
    + rewrite get_set_other by discriminate.
      rewrite !has_key_set_other by discriminate.
      rewrite R1, Etool. repeat split; auto; try discriminate;
        unfold get_or; rewrite dict_get_set_same; reflexivity.
    + rewrite R1, Etool. repeat split; auto; discriminate.
    + rewrite get_set_other by discriminate.
      rewrite !has_key_set_other by discriminate.
      rewrite R1, Etool. repeat split; auto; try discriminate;
        unfold get_or; rewrite dict_get_set_same; reflexivity.
  - rewrite R1, Etool. repeat split; auto; try discriminate; congruence.
Qed.

(** ** Trimming in general *)

Lemma length_last_n {A} (n : nat) (l : list A) : (length (Py.last_n n l) <= n)%nat.
Proof. unfold Py.last_n. rewrite length_skipn. lia. Qed.

Lemma trim_messages_cases (msgs : list dict) :
  exists convo : list dict,
    trim_messages msgs = (filter is_system msgs ++ convo)%list
    /\ (length convo <= MAX_HISTORY)%nat
    /\ (forall m, In m convo -> In m msgs /\ is_system m = false)
    /\ ((length (filter (fun m => negb (is_system m)) msgs) <= MAX_HISTORY)%nat ->
        convo = filter (fun m => negb (is_system m)) msgs).
Proof.
  unfold trim_messages.
  destruct (Nat.ltb_spec MAX_HISTORY (length (filter (fun m => negb (is_system m)) msgs))).
  - eexists. split; [reflexivity |]. split; [apply length_last_n |]. split; [| lia].
    intros m Hm. apply In_skipn in Hm. apply filter_In in Hm.
    destruct Hm as [Hin Hs]. apply negb_true_iff in Hs. auto.
  - eexists. split; [reflexivity |]. split; [exact H |]. split; [| reflexivity].
    intros m Hm. apply filter_In in Hm.
    destruct Hm as [Hin Hs]. apply negb_true_iff in Hs. auto.
Qed.

Lemma partition_permutation {A} (p : A -> bool) (l : list A) :
  Permutation l (filter p l ++ filter (fun x => negb (p x)) l).
Proof.
  induction l as [| x l IH]; simpl; [constructor |].
  destruct (p x); simpl.
  - now constructor.
  - apply Permutation_cons_app. exact IH.
Qed.

Lemma trim_messages_bound (msgs : list dict) :
  (length (filter (fun m => negb (is_system m)) (trim_messages msgs)) <= MAX_HISTORY)%nat.
Proof.
  destruct (trim_messages_cases msgs) as (convo & E & Hlen & Hconvo & _). rewrite E.
  rewrite filter_app.
  rewrite (filter_none (fun m => negb (is_system m)) (filter is_system msgs)).
  - rewrite filter_all; [exact Hlen |]. intros x Hx. destruct (Hconvo x Hx) as [_ Hs].
    now rewrite Hs.
  - intros x Hx. apply filter_In in Hx. destruct Hx as [_ Hs]. now rewrite Hs.
Qed.

(** X3. Trimming for any history: every message of the result comes from
    the input, all system and developer messages are kept, at most
    [MAX_HISTORY] other messages remain, and when the input has no more
    than [MAX_HISTORY] of them nothing is dropped (the result is the input
    with the system messages moved to the front). *)
Theorem trim_bounds_history :
  forall msgs : list dict,
    (forall m, In m (trim_messages msgs) -> In m msgs)
    /\ filter is_system (trim_messages msgs) = filter is_system msgs
    /\ (length (filter (fun m => negb (is_system m)) (trim_messages msgs)) <= MAX_HISTORY)%nat
    /\ (length (trim_messages msgs) <= length (filter is_system msgs) + MAX_HISTORY)%nat
    /\ ((length (filter (fun m => negb (is_system m)) msgs) <= MAX_HISTORY)%nat ->
        Permutation msgs (trim_messages msgs)).
Proof.
  intros msgs. destruct (trim_messages_cases msgs) as (convo & E & Hlen & Hconvo & Hshort).
  rewrite E.
  assert (Hsys : forall x, In x (filter is_system msgs) -> is_system x = true)
    by (intros x Hx; apply filter_In in Hx; tauto).
  assert (Hns : forall x, In x convo -> is_system x = false) by (intros x Hx; now apply Hconvo).
  split; [| split; [| split; [| split]]].
  - intros m Hm. apply in_app_or in Hm. destruct Hm as [Hm | Hm].
    + apply filter_In in Hm. tauto.
    + now apply Hconvo.
  - rewrite filter_app, (filter_all _ _ Hsys), (filter_none _ _ Hns). apply app_nil_r.
  - rewrite filter_app.
    rewrite (filter_none (fun m => negb (is_system m)) (filter is_system msgs))
      by (intros x Hx; now rewrite (Hsys x Hx)).
    rewrite filter_all by (intros x Hx; now rewrite (Hns x Hx)). exact Hlen.
  - rewrite length_app. lia.
  - intros Hle. rewrite (Hshort Hle). apply partition_permutation.
Qed.

(** ** Follow-up turns *)

Lemma last_app_singleton {A} (l : list A) (x d : A) : List.last (l ++ [x]) d = x.
Proof. apply last_last. Qed.

(** X4. The follow-up check looks at the last message that is not a system
    or developer one: system messages appended after it do not change the
    verdict, and a history that ends (system messages apart) with a tool
    result, or with an assistant message carrying tool calls, is a
    follow-up turn. *)
Theorem follow_up_ignores_trailing_system_messages :
  forall (msgs trailing : list dict) (last : dict),
    (forall m, In m trailing -> is_system m = true) ->
    is_system last = false ->
    has_tool_results (msgs ++ trailing) = has_tool_results msgs
    /\ (is_str (get last "role") "tool" = true ->
        has_tool_results ((msgs ++ [last]) ++ trailing) = true)
    /\ (is_str (get last "role") "assistant" = true ->
        truthy (get last "tool_calls") = true ->
        has_tool_results ((msgs ++ [last]) ++ trailing) = true).
Proof.
  intros msgs trailing last Htr Hlast.
  assert (Hdrop : forall l, filter (fun m => negb (is_system m)) (l ++ trailing)
                            = filter (fun m => negb (is_system m)) l).
  { intros l. rewrite filter_app.
    rewrite (filter_none _ trailing) by (intros x Hx; now rewrite (Htr x Hx)).
    apply app_nil_r. }
  assert (Hlastf : filter (fun m => negb (is_system m)) (msgs ++ [last])
                   = (filter (fun m => negb (is_system m)) msgs ++ [last])%list).
  { rewrite filter_app. simpl. now rewrite Hlast. }
  split; [| split].
  - unfold has_tool_results. now rewrite Hdrop.
  - intros H. unfold has_tool_results. rewrite Hdrop, Hlastf, last_last. now rewrite H.
  - intros H1 H2. unfold has_tool_results. rewrite Hdrop, Hlastf, last_last.
    rewrite H1, H2. simpl. now rewrite orb_true_r.
Qed.

(** ** The latest genuine user text *)

Lemma not_cron_spelled (txt : string) :
  looks_like_cron txt = false ->
  Py.startswith "System:" (Py.strip txt) = false
  /\ Py.contains "cron job" (Py.lower (Py.strip txt)) = false
  /\ Py.startswith "A cron job" (Py.strip txt) = false
  /\ Py.contains "Cron:" (Py.take 200 (Py.strip txt)) = false
  /\ Py.startswith "NO_REPLY" (Py.strip txt) = false.
Proof.
  unfold looks_like_cron. intros H.
  repeat (apply orb_false_iff in H; destruct H as [H ?]). repeat split; assumption.
Qed.

Lemma cron_spelled (txt : string) :
  looks_like_cron txt = true ->
  Py.startswith "System:" (Py.strip txt) = true
  \/ Py.contains "cron job" (Py.lower (Py.strip txt)) = true
  \/ Py.startswith "A cron job" (Py.strip txt) = true
  \/ Py.contains "Cron:" (Py.take 200 (Py.strip txt)) = true
  \/ Py.startswith "NO_REPLY" (Py.strip txt) = true.
Proof.
  unfold looks_like_cron. intros H.
  repeat (apply orb_true_iff in H; destruct H as [H | H]); tauto.
Qed.

(** X5. The text the directive check settles on is the text of the newest
    user message that is neither a metadata block nor a cron or system
    notice, or else the text embedded in the newest metadata block that
    has one: the message is found in the history, every plain user
    message newer than it starts with [System:] or [A cron job] or
    [NO_REPLY], or mentions a cron job, or has [Cron:] in its first 200
    characters, and the text itself has none of these marks.  A history
    without user messages gives no text and leaves the chat id as it
    was. *)
Theorem latest_user_text_is_genuine :
  forall (newest_first : list dict) (chat_id : option string),
    (forall (text : string) (chat_id' : option string),
        latest_user_text newest_first chat_id = (Some text, chat_id') ->
        exists (newer : list dict) (m : dict) (older : list dict),
          newest_first = (newer ++ m :: older)%list
          /\ is_str (get m "role") "user" = true
          /\ ((Py.startswith "Conversation info" (Py.strip (message_text m)) = false
               /\ text = message_text m)
              \/ (Py.startswith "Conversation info" (Py.strip (message_text m)) = true
                  /\ extract_from_metadata (message_text m) = Some text))
          /\ (Py.startswith "System:" (Py.strip text) = false
              /\ Py.contains "cron job" (Py.lower (Py.strip text)) = false
              /\ Py.startswith "A cron job" (Py.strip text) = false
              /\ Py.contains "Cron:" (Py.take 200 (Py.strip text)) = false
              /\ Py.startswith "NO_REPLY" (Py.strip text) = false)
          /\ (forall x : dict,
                 In x newer ->
                 is_str (get x "role") "user" = true ->
                 Py.startswith "Conversation info" (Py.strip (message_text x)) = false ->
                 Py.startswith "System:" (Py.strip (message_text x)) = true
                 \/ Py.contains "cron job" (Py.lower (Py.strip (message_text x))) = true
                 \/ Py.startswith "A cron job" (Py.strip (message_text x)) = true
                 \/ Py.contains "Cron:" (Py.take 200 (Py.strip (message_text x))) = true
                 \/ Py.startswith "NO_REPLY" (Py.strip (message_text x)) = true))
    /\ ((forall m, In m newest_first -> is_str (get m "role") "user" = false) ->
        latest_user_text newest_first chat_id = (None, chat_id)).
Proof.
  intros l. induction l as [| m older IH]; intros chat_id.
  - split; [intros text c H; discriminate H | reflexivity].
  - split.
    + intros text chat' H. cbn [latest_user_text] in H.
      assert (Hhere : forall t : string,
                 is_str (get m "role") "user" = true ->
                 looks_like_cron t = false ->
                 (Py.startswith "Conversation info" (Py.strip (message_text m)) = false
                  /\ t = message_text m)
                 \/ (Py.startswith "Conversation info" (Py.strip (message_text m)) = true
                     /\ extract_from_metadata (message_text m) = Some t) ->
                 t = text ->
                 exists newer m0 older0,
                   (m :: older = newer ++ m0 :: older0)%list
                   /\ is_str (get m0 "role") "user" = true
                   /\ ((Py.startswith "Conversation info" (Py.strip (message_text m0)) = false
                        /\ text = message_text m0)
                       \/ (Py.startswith "Conversation info" (Py.strip (message_text m0)) = true
                           /\ extract_from_metadata (message_text m0) = Some text))
                   /\ (Py.startswith "System:" (Py.strip text) = false
                       /\ Py.contains "cron job" (Py.lower (Py.strip text)) = false
                       /\ Py.startswith "A cron job" (Py.strip text) = false
                       /\ Py.contains "Cron:" (Py.take 200 (Py.strip text)) = false
                       /\ Py.startswith "NO_REPLY" (Py.strip text) = false)
                   /\ (forall x : dict,
                          In x newer ->
                          is_str (get x "role") "user" = true ->
                          Py.startswith "Conversation info" (Py.strip (message_text x)) = false ->
                          Py.startswith "System:" (Py.strip (message_text x)) = true
                          \/ Py.contains "cron job" (Py.lower (Py.strip (message_text x))) = true
                          \/ Py.startswith "A cron job" (Py.strip (message_text x)) = true
                          \/ Py.contains "Cron:" (Py.take 200 (Py.strip (message_text x))) = true
                          \/ Py.startswith "NO_REPLY" (Py.strip (message_text x)) = true)).
      { intros t Hu Hc Hfrom E. subst t.
        exists [], m, older. split; [reflexivity |]. split; [exact Hu |].
        split; [exact Hfrom |]. split; [now apply not_cron_spelled |].
        intros x []. }
      assert (Hrec : forall c : option string,
                 (is_str (get m "role") "user" = true ->
                  Py.startswith "Conversation info" (Py.strip (message_text m)) = false ->
                  looks_like_cron (message_text m) = true) ->
                 latest_user_text older c = (Some text, chat') ->
                 exists newer m0 older0,
                   (m :: older = newer ++ m0 :: older0)%list
                   /\ is_str (get m0 "role") "user" = true
                   /\ ((Py.startswith "Conversation info" (Py.strip (message_text m0)) = false
                        /\ text = message_text m0)
                       \/ (Py.startswith "Conversation info" (Py.strip (message_text m0)) = true
                           /\ extract_from_metadata (message_text m0) = Some text))
                   /\ (Py.startswith "System:" (Py.strip text) = false
                       /\ Py.contains "cron job" (Py.lower (Py.strip text)) = false
                       /\ Py.startswith "A cron job" (Py.strip text) = false
                       /\ Py.contains "Cron:" (Py.take 200 (Py.strip text)) = false
                       /\ Py.startswith "NO_REPLY" (Py.strip text) = false)
                   /\ (forall x : dict,
                          In x newer ->
                          is_str (get x "role") "user" = true ->
                          Py.startswith "Conversation info" (Py.strip (message_text x)) = false ->
                          Py.startswith "System:" (Py.strip (message_text x)) = true
                          \/ Py.contains "cron job" (Py.lower (Py.strip (message_text x))) = true
                          \/ Py.startswith "A cron job" (Py.strip (message_text x)) = true
                          \/ Py.contains "Cron:" (Py.take 200 (Py.strip (message_text x))) = true
                          \/ Py.startswith "NO_REPLY" (Py.strip (message_text x)) = true)).
      { intros c Hm Hc.
        destruct (proj1 (IH c) text chat' Hc)
          as (newer & m0 & older0 & E & Hu & Hfrom & Hclean & Hnewer).
        exists (m :: newer), m0, older0. split; [now rewrite E |].
        split; [exact Hu |]. split; [exact Hfrom |]. split; [exact Hclean |].
        intros x [<- | Hx] Hxu Hxm; [| now apply Hnewer].
        apply cron_spelled. now apply Hm. }
      destruct (is_str (get m "role") "user") eqn:Eu;
        [| eapply Hrec; [discriminate | exact H]].
      destruct (Py.startswith "Conversation info" (Py.strip (message_text m))) eqn:Emeta.
      * destruct (extract_from_metadata (message_text m)) as [t |] eqn:Ex;
          [| eapply Hrec; [discriminate | exact H]].
        destruct (looks_like_cron t) eqn:Ec; [eapply Hrec; [discriminate | exact H] |].
        injection H as Ht Hchat. apply (Hhere t eq_refl Ec); [right; now split | exact Ht].
      * destruct (looks_like_cron (message_text m)) eqn:Ec;
          [eapply Hrec; [intros _ _; reflexivity | exact H] |].
        injection H as Ht Hchat.
        apply (Hhere (message_text m) eq_refl Ec); [left; now split | exact Ht].
    + intros Hnone. cbn [latest_user_text].
      rewrite (Hnone m (or_introl eq_refl)).
      apply IH. intros m0 Hin. apply Hnone. now right.
Qed.

(** ** Content pieces *)

Lemma length_take (n : nat) (s : string) : (String.length (Py.take n s) <= n)%nat.
Proof.
  revert s. induction n as [| n IH]; intros [| c s]; simpl; try lia.
  specialize (IH s). lia.
Qed.

(** X6. The content of a stream is cut into pieces of at most [chunk_size]
    characters, [ceil (n / chunk_size)] of them for a text of [n > 0]
    characters and one (empty) piece for the empty text; a text of at most
    [chunk_size] characters is sent as a single piece. *)
Theorem content_pieces_are_bounded :
  forall c : string,
    Forall (fun piece => (String.length piece <= chunk_size)%nat) (text_pieces c)
    /\ length (text_pieces c) = ((Nat.max (String.length c) 1 + chunk_size - 1) / chunk_size)%nat
    /\ ((String.length c <= chunk_size)%nat -> text_pieces c = [c]).
Proof.
  intros c. unfold text_pieces. split; [| split].
  - apply Forall_forall. intros piece H. apply in_map_iff in H.
    destruct H as (i & <- & _). rewrite slice_window. apply length_take.
  - unfold Py.range0. now rewrite !length_map, length_seq.
  - intros H. unfold Py.range0, chunk_size in *.
    assert (E : ((Nat.max (String.length c) 1 + 100 - 1) / 100 = 1)%nat).
    { set (m := Nat.max (String.length c) 1).
      assert (1 <= m <= 100)%nat by (unfold m; lia).
      pose proof (Nat.div_mod_eq (m + 100 - 1) 100).
      pose proof (Nat.mod_upper_bound (m + 100 - 1) 100).
      lia. }
    rewrite E. cbn [seq map Nat.mul]. rewrite (slice_window 0 100 c).
    replace (Py.drop 0 c) with c by (destruct c; reflexivity).
    now rewrite take_all.
Qed.

(** ** Injecting the tool prompt *)

Lemma mapM_dicts (ds : list dict) : mapM as_dict (map JDict ds) = ret ds.
Proof.
  induction ds as [| d ds IH]; simpl; [reflexivity |]. now rewrite IH.
Qed.

Lemma iter_dicts_list (ds : list dict) : iter_dicts (JList (map JDict ds)) = ret ds.
Proof. unfold iter_dicts. simpl. apply mapM_dicts. Qed.

Lemma on_first_system_none (f : dict -> M dict) (msgs : list dict) :
  (forall m, In m msgs -> is_system m = false) -> on_first_system f msgs = ret None.
Proof.
  induction msgs as [| m msgs IH]; intros H; simpl; [reflexivity |].
  rewrite (H m (or_introl eq_refl)). rewrite IH; [reflexivity |].
  intros x Hx. apply H. now right.
Qed.

Lemma on_first_system_hit (f : dict -> M dict) (pre post : list dict) (m m' : dict) :
  (forall x, In x pre -> is_system x = false) ->
  is_system m = true ->
  f m = ret m' ->
  on_first_system f (pre ++ m :: post)%list = ret (Some (pre ++ m' :: post)%list).
Proof.
  intros Hpre Hm Hf. induction pre as [| x pre IH]; simpl.
  - now rewrite Hm, Hf.
  - rewrite (Hpre x (or_introl eq_refl)). rewrite IH; [reflexivity |].
    intros y Hy. apply Hpre. now right.
Qed.

Lemma get_or_messages (data : dict) (v : Json) :
  dict_get data "messages" = Some v -> get_or data "messages" (JList []) = v.
Proof. unfold get_or. now intros ->. Qed.

(** X7. Where the tool prompt goes.  With a system or developer message in
    the history, the first one with string content gets the prompt
    appended and every other message is left as it is; with none, a new
    system message holding the stripped prompt is put in front of the
    unchanged history; and when the request has no [messages] entry the
    prompt is dropped and the data is returned unchanged. *)
Theorem tool_prompt_placement :
  forall (data : dict) (tool_text : string),
    (forall (pre post : list dict) (m : dict) (c : string),
        dict_get data "messages" = Some (JList (map JDict (pre ++ m :: post)%list)) ->
        (forall x, In x pre -> is_system x = false) ->
        is_system m = true ->
        get_or m "content" (JStr "") = JStr c ->
        inject_tool_descriptions data tool_text
        = ret (set_messages data (pre ++ dict_set m "content" (JStr (c ++ tool_text)) :: post)%list))
    /\ (forall msgs : list dict,
           dict_get data "messages" = Some (JList (map JDict msgs)) ->
           (forall x, In x msgs -> is_system x = false) ->
           inject_tool_descriptions data tool_text
           = ret (dict_set data "messages"
                    (JList (JDict [("role", JStr "system");
                                   ("content", JStr (Py.strip tool_text))]
                            :: map JDict msgs))))
    /\ (dict_get data "messages" = None ->
        inject_tool_descriptions data tool_text = ret data).
Proof.
  intros data tool_text. split; [| split].
  - intros pre post m c Hmsgs Hpre Hm Hc. unfold inject_tool_descriptions.
    rewrite (get_or_messages _ _ Hmsgs), iter_dicts_list. cbn [bind ret].
    rewrite (on_first_system_hit _ pre post m (dict_set m "content" (JStr (c ++ tool_text))))
      by (try assumption; unfold append_to_message; now rewrite Hc).
    reflexivity.
  - intros msgs Hmsgs Hnone. unfold inject_tool_descriptions.
    rewrite (get_or_messages _ _ Hmsgs), iter_dicts_list. cbn [bind ret].
    rewrite (on_first_system_none _ msgs Hnone). cbn [bind ret]. now rewrite Hmsgs.
  - intros Hnone. unfold inject_tool_descriptions, get_or. rewrite Hnone. reflexivity.
Qed.

(** ** An empty registry *)

Lemma explicit_calls_unknown (reg : registry) (matches : list (nat * Re.found)) :
  (forall name, known reg name = false) -> explicit_calls reg matches = [].
Proof.
  intros H. induction matches as [| [i m] matches IH]; simpl; [reflexivity |].
  now rewrite H.
Qed.

Lemma convert_with_unknown (reg : registry) (content : string) :
  (forall name, known reg name = false) -> convert_with reg content = (content, None).
Proof.
  intros H. unfold convert_with. rewrite explicit_calls_unknown by exact H.
  now rewrite H.
Qed.

(** X8. Without function tools nothing is extracted: when the request's
    tool definitions are absent or empty the text is returned as it is with
    no tool calls, whatever markers it contains, and so is it whenever the
    definitions declare no function name. *)
Theorem no_function_tools_no_extraction :
  forall (content : string),
    convert_text_to_tool_calls (JStr content) JNull = ret (content, None)
    /\ convert_text_to_tool_calls (JStr content) (JList []) = ret (content, None)
    /\ (forall (tool_defs : Json) (r : string * option (list Json)),
           declared_tools tool_defs = [] ->
           convert_text_to_tool_calls (JStr content) tool_defs = ret r ->
           r = (content, None)).
Proof.
  intros content.
  assert (Hempty : ret (convert_with empty_registry content) = ret (content, None))
    by (rewrite convert_with_unknown by reflexivity; reflexivity).
  split; [exact Hempty |]. split; [exact Hempty |].
  intros tool_defs r Hd H. unfold convert_text_to_tool_calls in H.
  destruct (tools_or_empty tool_defs) as [e | tools] eqn:Et; cbn [bind] in H; [discriminate |].
  destruct (scan_tools tools empty_registry) as [e | reg] eqn:Es; cbn [bind] in H;
    [discriminate |].
  cbn [as_str bind ret] in H. inversion H. apply convert_with_unknown.
  intros name. destruct (known reg name) eqn:Ek; [| reflexivity].
  exfalso. pose proof (scan_tools_known_declared tools reg name Es Ek) as Hin.
  rewrite <- (tools_or_empty_inv tool_defs tools _ _ Et Es), Hd in Hin. exact Hin.
Qed.

(** ** The request sent to the local backend *)

Lemma inject_keeps_other_keys (data data' : dict) (tool_text k : string) :
  inject_tool_descriptions data tool_text = ret data' ->
  k <> "messages" ->
  dict_get data' k = dict_get data k.
Proof.
  unfold inject_tool_descriptions. intros H Hk.
  destruct (iter_dicts (get_or data "messages" (JList []))) as [e | msgs]; cbn [bind] in H;
    [discriminate |].
  destruct (on_first_system _ msgs) as [e | [msgs' |]]; cbn [bind] in H; [discriminate | |].
  - inversion H. unfold set_messages. apply dict_get_set_other. congruence.
  - destruct (dict_get data "messages") as [[| | | | l |] |]; try discriminate H;
      inversion H; [apply dict_get_set_other; congruence | reflexivity].
Qed.

Lemma normalize_inv (data data' : dict) (tool_defs : Json) :
  normalize data tool_defs = ret data' ->
  exists (data4 : dict) (msgs : list dict),
    (forall k, k <> "messages" -> dict_get data4 k = dict_get (mapped_and_stripped data) k)
    /\ data' = set_messages data4 (trim_messages (map clean_message msgs)).
Proof.
  unfold normalize. fold (mapped_and_stripped data).
  set (D := mapped_and_stripped data).
  match goal with
  | |- bind ?c _ = _ -> _ => destruct c as [e | data4] eqn:E4; cbn [bind]; [discriminate |]
  end.
  destruct (iter_dicts (get_or data4 "messages" (JList []))) as [e | msgs]; cbn [bind];
    [discriminate |].
  intros H. inversion H. exists data4, msgs. split; [| reflexivity].
  intros k Hk.
  match type of E4 with
  | (if ?b then _ else _) = _ => destruct b
  end.
  - destruct (build_tool_prompt tool_defs) as [e | [t |]]; cbn [bind] in E4; try discriminate.
    + destruct (String.eqb t ""); [inversion E4; reflexivity |].
      eapply inject_keeps_other_keys; eassumption.
    + inversion E4. reflexivity.
  - inversion E4. reflexivity.
Qed.

Lemma mapped_model_unique (data : dict) :
  unique_keys data ->
  unique_keys
    (dict_set match get_or data "model" (JStr "gpt-5.2") with
              | JStr name =>
                  match sdict_get MODEL_MAP name with
                  | Some local_name => dict_set data "model" (JStr local_name)
                  | None => data
                  end
              | _ => data
              end "stream" (JBool false)).
Proof.
  intros H. apply unique_keys_set.
  destruct (get_or data "model" (JStr "gpt-5.2")); try exact H.
  destruct (sdict_get MODEL_MAP s); [now apply unique_keys_set | exact H].
Qed.

(** X9. The request forwarded to the local backend, for request data with
    one entry per key: [stream] is false, none of the unsupported
    parameters is left, a client model id of [MODEL_MAP] is replaced by
    its backend id (any other model value is kept), every other entry but
    [messages] is passed through unchanged, and [messages] holds at most
    [MAX_HISTORY] messages that are not system or developer ones. *)
Theorem forwarded_request_shape :
  forall (data data' : dict) (tool_defs : Json),
    unique_keys data ->
    normalize data tool_defs = ret data' ->
    get data' "stream" = JBool false
    /\ (forall p, In p UNSUPPORTED_PARAMS -> has_key data' p = false)
    /\ (forall name backend,
           get_or data "model" (JStr "gpt-5.2") = JStr name ->
           sdict_get MODEL_MAP name = Some backend ->
           get data' "model" = JStr backend)
    /\ (forall name,
           get_or data "model" (JStr "gpt-5.2") = JStr name ->
           sdict_get MODEL_MAP name = None ->
           dict_get data' "model" = dict_get data "model")
    /\ (forall k, ~ In k UNSUPPORTED_PARAMS -> k <> "model" -> k <> "stream" ->
                  k <> "messages" -> dict_get data' k = dict_get data k)
    /\ exists msgs : list dict,
         dict_get data' "messages" = Some (JList (map JDict msgs))
         /\ (length (filter (fun m => negb (is_system m)) msgs) <= MAX_HISTORY)%nat.
Proof.
  intros data data' tool_defs Hu H.
  destruct (normalize_inv data data' tool_defs H) as (data4 & msgs & Hsame & ->).
  pose proof (mapped_model_unique data Hu) as Hu1.
  assert (Hget : forall k, k <> "messages" ->
                 dict_get (set_messages data4 (trim_messages (map clean_message msgs))) k
                 = dict_get (mapped_and_stripped data) k).
  { intros k Hk. unfold set_messages. rewrite dict_get_set_other by congruence.
    now apply Hsame. }
  assert (Hstrip : forall k, ~ In k UNSUPPORTED_PARAMS -> k <> "stream" ->
                   dict_get (mapped_and_stripped data) k
                   = dict_get match get_or data "model" (JStr "gpt-5.2") with
                              | JStr name =>
                                  match sdict_get MODEL_MAP name with
                                  | Some local_name => dict_set data "model" (JStr local_name)
                                  | None => data
                                  end
                              | _ => data
                              end k).
  { intros k Hk Hs. unfold mapped_and_stripped.
    rewrite strip_keys_other by exact Hk. apply dict_get_set_other. congruence. }
  assert (Hmodel : ~ In "model" UNSUPPORTED_PARAMS)
    by (unfold UNSUPPORTED_PARAMS; simpl; intuition discriminate).
  split; [| split; [| split; [| split; [| split]]]].
  - unfold get, get_or. rewrite Hget by discriminate. unfold mapped_and_stripped.
    rewrite strip_keys_other by (unfold UNSUPPORTED_PARAMS; simpl; intuition discriminate).
    now rewrite dict_get_set_same.
  - intros p Hp. unfold has_key. rewrite Hget.
    + fold (has_key (mapped_and_stripped data) p). unfold mapped_and_stripped.
      apply strip_keys_removed; assumption.
    + intros ->. revert Hp. unfold UNSUPPORTED_PARAMS. simpl. intuition discriminate.
  - intros name backend Hn Hb. unfold get, get_or.
    rewrite Hget by discriminate. rewrite Hstrip by (try exact Hmodel; discriminate).
    rewrite Hn, Hb. now rewrite dict_get_set_same.
  - intros name Hn Hb.
    rewrite Hget by discriminate. rewrite Hstrip by (try exact Hmodel; discriminate).
    now rewrite Hn, Hb.
  - intros k Hk Hm Hs Hmsg. rewrite Hget by exact Hmsg. rewrite Hstrip by assumption.
    destruct (get_or data "model" (JStr "gpt-5.2")); try reflexivity.
    destruct (sdict_get MODEL_MAP s); [| reflexivity].
    apply dict_get_set_other. congruence.
  - exists (trim_messages (map clean_message msgs)). split.
    + unfold set_messages. apply dict_get_set_same.
    + apply trim_messages_bound.
Qed.

(** ** The request sent on a direct route *)

Lemma direct_request_inv (data data' : dict) (route_cfg : route) :
  direct_request data route_cfg = ret data' ->
  forall k, k <> "messages" ->
    dict_get data' k
    = dict_get (dict_set (dict_set (fst (strip_keys (strip_params route_cfg) data)) "model"
                                   (JStr (actual_model route_cfg))) "stream" (JBool false)) k.
Proof.
  unfold direct_request. intros H k Hk.
  match type of H with
  | bind ?c _ = _ => destruct c as [e | msgs]; cbn [bind] in H; [discriminate |]
  end.
  match type of H with
  | bind ?c _ = _ => destruct c as [e | [msgs' |]]; cbn [bind] in H; [discriminate | |]
  end.
  - inversion H. unfold set_messages. apply dict_get_set_other. congruence.
  - inversion H. reflexivity.
Qed.

(** X10. The request sent on a direct route, for request data with one
    entry per key: the model is the route's own id, [stream] is false, the
    route's [strip_params] are gone when they are not [model], [stream] or
    [messages], and every other entry but [messages] (the tool definitions
    among them) is passed through unchanged. *)
Theorem direct_request_shape :
  forall (data data' : dict) (route_cfg : route),
    unique_keys data ->
    direct_request data route_cfg = ret data' ->
    get data' "model" = JStr (actual_model route_cfg)
    /\ get data' "stream" = JBool false
    /\ (forall p, In p (strip_params route_cfg) ->
                  p <> "model" -> p <> "stream" -> p <> "messages" ->
                  has_key data' p = false)
    /\ (forall k, ~ In k (strip_params route_cfg) ->
                  k <> "model" -> k <> "stream" -> k <> "messages" ->
                  dict_get data' k = dict_get data k).
Proof.
  intros data data' route_cfg Hu H.
  pose proof (direct_request_inv data data' route_cfg H) as Hget.
  split; [| split; [| split]].
  - unfold get, get_or. rewrite Hget by discriminate.
    rewrite dict_get_set_other by discriminate. now rewrite dict_get_set_same.
  - unfold get, get_or. rewrite Hget by discriminate. now rewrite dict_get_set_same.
  - intros p Hp Hm Hs Hmsg. unfold has_key. rewrite Hget by exact Hmsg.
    rewrite !dict_get_set_other by congruence.
    fold (has_key (fst (strip_keys (strip_params route_cfg) data)) p).
    now apply strip_keys_removed.
  - intros k Hk Hm Hs Hmsg. rewrite Hget by exact Hmsg.
    rewrite !dict_get_set_other by congruence. now apply strip_keys_other.
Qed.

(** ** Directives and credentials *)

Lemma consensus_call_id (k t prompt : string) (chat : option string) :
  subscript (consensus_call k t prompt chat) "id" = ret (JStr "call_consensus_0").
Proof. reflexivity. Qed.

Lemma credentials_only_in_consensus :
  forall (api_key token api_key' token' user_msg : string) (tool_defs : Json)
         (chat_id : option string),
    (forall prompt, fallback_tool_call api_key token user_msg tool_defs chat_id
                    <> ret (Some [consensus_call api_key token prompt chat_id])) ->
    fallback_tool_call api_key' token' user_msg tool_defs chat_id
    = fallback_tool_call api_key token user_msg tool_defs chat_id.
Proof.
  intros k t k' t' msg tool_defs chat. unfold fallback_tool_call.
  destruct (truthy tool_defs); cbn [negb]; [| reflexivity].
  destruct (iter tool_defs) as [e | l]; cbn [bind]; [reflexivity |].
  destruct (any_exec l) as [e | b]; cbn [bind]; [reflexivity |].
  destruct b; cbn [negb]; [| reflexivity].
  unfold fallback_command.
  destruct (Re.search ICASE SKILL_LIST_RE (Py.strip msg)); [reflexivity |].
  destruct (Re.search ICASE SKILL_ENABLE_RE (Py.strip msg)); [reflexivity |].
  destruct (Re.search ICASE SKILL_DISABLE_RE (Py.strip msg)); [reflexivity |].
  destruct (simple_command (Py.lower (Py.strip msg)) XCITE_FALLBACKS); [reflexivity |].
  destruct (Re.match_ ICASE SCOUT_RE (Py.lower (Py.strip msg))); [reflexivity |].
  destruct (negb (existsb (fun marker => Py.contains marker msg) exec_markers));
    [| reflexivity].
  destruct (Re.search ICASE_DOTALL CONSENSUS_RE (Py.strip msg)) as [cm |]; [| reflexivity].
  intros H. exfalso. eapply H. reflexivity.
Qed.

(** X11. Only the consensus directive reads the credentials: whenever
    [fallback_tool_call] returns anything but the consensus call, it
    returns the same for every value of the API key and of the bot token. *)
Theorem other_directives_ignore_credentials :
  forall (api_key token api_key' token' user_msg : string) (tool_defs : Json)
         (chat_id : option string),
    (forall prompt, fallback_tool_call api_key token user_msg tool_defs chat_id
                    <> ret (Some [consensus_call api_key token prompt chat_id])) ->
    fallback_tool_call api_key' token' user_msg tool_defs chat_id
    = fallback_tool_call api_key token user_msg tool_defs chat_id.
Proof. exact credentials_only_in_consensus. Qed.

Lemma marker_blocks_consensus (k t msg : string) (chat : option string) (prompt : string) :
  existsb (fun marker => Py.contains marker msg) exec_markers = true ->
  fallback_command k t msg chat <> Some [consensus_call k t prompt chat].
Proof.
  intros Hm. unfold fallback_command, exec_call.
  destruct (Re.search ICASE SKILL_LIST_RE (Py.strip msg)); [intros H; inversion H |].
  destruct (Re.search ICASE SKILL_ENABLE_RE (Py.strip msg)); [intros H; inversion H |].
  destruct (Re.search ICASE SKILL_DISABLE_RE (Py.strip msg)); [intros H; inversion H |].
  destruct (simple_command (Py.lower (Py.strip msg)) XCITE_FALLBACKS);
    [intros H; inversion H |].
  destruct (Re.match_ ICASE SCOUT_RE (Py.lower (Py.strip msg))); [intros H; inversion H |].
  rewrite Hm. discriminate.
Qed.

Lemma tool_result_tag_is_marked (name content : string) :
  existsb (fun marker => Py.contains marker ("[Tool result from " ++ name ++ "]: " ++ content))
          exec_markers = true.
Proof.
  unfold exec_markers. cbn [existsb].
  assert (H : Py.contains "Tool result" ("[Tool result from " ++ name ++ "]: " ++ content) = true).
  { change ("[Tool result from " ++ name ++ "]: " ++ content)
      with ("[" ++ "Tool result" ++ (" from " ++ name ++ "]: " ++ content)).
    apply contains_middle. }
  rewrite H. now rewrite !orb_true_r.
Qed.

(** X12. Tool output cannot start a consensus run: a message that contains
    one of the exec markers never yields the consensus call, and neither
    does the user message that the cleaning loop makes of a tool result;
    what [fallback_tool_call] returns for such a text is the same for every
    value of the credentials. *)
Theorem tool_output_never_runs_consensus :
  forall (api_key token : string) (tool_defs : Json) (chat_id : option string),
    (forall user_msg prompt,
        existsb (fun marker => Py.contains marker user_msg) exec_markers = true ->
        fallback_tool_call api_key token user_msg tool_defs chat_id
        <> ret (Some [consensus_call api_key token prompt chat_id]))
    /\ (forall msg : dict,
           is_str (get msg "role") "tool" = true ->
           exists text : string,
             get (clean_message msg) "content" = JStr text
             /\ (forall prompt,
                    fallback_tool_call api_key token text tool_defs chat_id
                    <> ret (Some [consensus_call api_key token prompt chat_id]))
             /\ (forall api_key' token',
                    fallback_tool_call api_key' token' text tool_defs chat_id
                    = fallback_tool_call api_key token text tool_defs chat_id)).
Proof.
  intros k t tool_defs chat.
  assert (Hgen : forall user_msg prompt,
             existsb (fun marker => Py.contains marker user_msg) exec_markers = true ->
             fallback_tool_call k t user_msg tool_defs chat
             <> ret (Some [consensus_call k t prompt chat])).
  { intros msg prompt Hm. unfold fallback_tool_call.
    destruct (truthy tool_defs); cbn [negb]; [| discriminate].
    destruct (iter tool_defs) as [e | l]; cbn [bind]; [discriminate |].
    destruct (any_exec l) as [e | b]; cbn [bind]; [discriminate |].
    destruct b; cbn [negb]; [| discriminate].
    intros H. inversion H as [Hc]. revert Hc. now apply marker_blocks_consensus. }
  split; [exact Hgen |].
  intros msg Htool. unfold clean_message. rewrite Htool.
  eexists. split; [reflexivity |].
  split.
  - intros prompt. apply Hgen. apply tool_result_tag_is_marked.
  - intros k' t'. apply credentials_only_in_consensus.
    intros prompt. apply Hgen. apply tool_result_tag_is_marked.
Qed.

(** ** What [_proxy] does with a backend that fails or does not speak JSON *)




(** ** A NO_REPLY answer *)

(** X14. An answer whose content is just NO_REPLY (in any case, with any
    white space around it) never reaches the client: the body is re-encoded
    with the conversational fallback as its content and everything else as
    it was.  Any other decodable answer with a message is left
    byte for byte as it is. *)
Theorem no_reply_answer_is_replaced :
  forall (w : world) (data : string) (r choice msg : dict) (rest : list Json),
    json_loads w data = Some (JDict r) ->
    dict_get r "choices" = Some (JList (JDict choice :: rest)) ->
    dict_get choice "message" = Some (JDict msg) ->
    (is_no_reply (get_or msg "content" (JStr "")) = true ->
     exists r' : dict,
       no_reply_block w data = ret (json_dumps (JDict r'))
       /\ r' = dict_set r "choices"
                 (JList (JDict (dict_set choice "message"
                                  (JDict (dict_set msg "content" (JStr NO_ANSWER_FALLBACK))))
                         :: rest))
       /\ unary_content (JDict r') = ret (JStr NO_ANSWER_FALLBACK)
       /\ (forall k, k <> "choices" -> dict_get r' k = dict_get r k))
    /\ (is_no_reply (get_or msg "content" (JStr "")) = false ->
        no_reply_block w data = ret data).
Proof.
  intros w data r choice msg rest Hload Hch Hmsg.
  assert (Hfm : first_message r = ret msg).
  { unfold first_message, first_choice, get_or. rewrite Hch. cbn [index0 bind ret as_dict].
    now rewrite Hmsg. }
  split.
  - intros Hnr. eexists. split; [| split; [reflexivity | split]].
    + unfold no_reply_block, loads. rewrite Hload. cbn [bind ret as_dict].
      rewrite Hfm. cbn [bind ret]. rewrite Hnr.
      unfold update_first_choice. cbn [subscript]. rewrite Hch. cbn [bind ret index0 subscript].
      rewrite Hmsg. cbn [bind ret fold_left fst snd]. reflexivity.
    + unfold unary_content, first_message, first_choice, get_or. cbn [as_dict bind ret].
      rewrite dict_get_set_same. cbn [index0 bind ret as_dict].
      rewrite dict_get_set_same. cbn [as_dict bind ret].
      now rewrite dict_get_set_same.
    + intros k Hk. apply dict_get_set_other. congruence.
  - intros Hnr. unfold no_reply_block, loads. rewrite Hload. cbn [bind ret as_dict].
    rewrite Hfm. cbn [bind ret]. now rewrite Hnr.
Qed.

(** ** Requests that are JSON but not of the expected shape *)

(** X15. Requests the handler does not answer although they are valid JSON:
    a body that is not an object (the [AttributeError] of [data.get] is
    not among the exceptions [do_POST] handles), and an object whose
    [tools] entry is null, a number or a boolean while its messages are in
    order (the log line of the fallback check takes [len] of it). *)
Theorem ill_typed_request_is_not_answered :
  forall (w : world) (body : string),
    (forall j : Json,
        json_loads w body = Some j ->
        (forall d, j <> JDict d) ->
        do_POST w body = Unanswered AttributeError)
    /\ (forall (data : dict) (all : list Json) (msgs : list dict) (tools : Json),
           json_loads w body = Some (JDict data) ->
           iter (get_or data "messages" (JList [])) = ret all ->
           mapM debug_message all = ret msgs ->
           dict_get data "tools" = Some tools ->
           py_len tools = raise TypeError ->
           do_POST w body = Unanswered TypeError).
Proof.
  intros w body. split.
  - intros j Hload Hj. unfold do_POST, loads. rewrite Hload.
    destruct j; try reflexivity. exfalso. eapply Hj. reflexivity.
  - intros data all msgs tools Hload Hiter Hdbg Htools Hlen.
    unfold do_POST, loads. rewrite Hload. cbn [as_dict ret].
    unfold shortcuts. rewrite Hiter. cbn [bind ret]. rewrite Hdbg. cbn [bind ret].
    assert (Hget : get_or data "tools" (JList []) = tools)
      by (unfold get_or; now rewrite Htools).
    unfold forced_tool_call. rewrite Hget, Hlen. reflexivity.
Qed.

(** ** The directive shortcut *)

Lemma calls_of_shape (ok : string -> Prop) (tcs : list Json) :
  Forall (call_to ok) tcs -> exists calls, tcs = map call_of calls.
Proof.
  induction 1 as [| tc tcs (id & name & args & E & _) _ (calls & IH)].
  - exists []. reflexivity.
  - exists ((id, name, args) :: calls). simpl. now rewrite E, IH.
Qed.

Lemma forced_sse_chunks_calls (created model : Json) (calls : list (string * string * string)) :
  exists chunks : list Json,
    forced_sse_chunks created model (map call_of calls) = ret chunks
    /\ streamed_tool_calls chunks = map call_of calls
    /\ flat_map content_payload chunks = [].
Proof.
  destruct (keyed_tool_chunks_calls (JStr "chatcmpl-forced-0") created model
              (JStr "assistant") calls 0) as (chunks & E & Htc & Hcp).
  unfold forced_sse_chunks, Py.enumerate. rewrite E. cbn [bind ret].
  eexists. split; [reflexivity |].
  rewrite streamed_tool_calls_app, content_payload_app, Htc, Hcp.
  split; apply app_nil_r.
Qed.

(** X16. When a directive matches, the handler answers at once, with status
    200 and without any exchange with a backend or the web search: a JSON
    completion whose message carries the forced calls and a null content
    when the client did not ask for a stream, else an event stream from
    which exactly these calls are rebuilt and which has no content delta.
    The answer is the same in every process that has the same credentials,
    clock and decoder, whatever its backends would have replied. *)
Theorem directive_shortcut_bypasses_backend :
  forall (w : world) (body : string) (data : dict) (all : list Json) (msgs : list dict)
         (tc : Json) (tcs : list Json),
    json_loads w body = Some (JDict data) ->
    iter (get_or data "messages" (JList [])) = ret all ->
    mapM debug_message all = ret msgs ->
    forced_tool_call w data msgs = ret (Some (tc :: tcs)) ->
    (truthy (get_or data "stream" (JBool false)) = false ->
     do_POST w body
     = Sent 200 JSON
         (json_dumps (synth_resp w (get_or data "model" (JStr "gpt-5.2")) (tc :: tcs))))
    /\ (truthy (get_or data "stream" (JBool false)) = true ->
        exists chunks : list Json,
          do_POST w body = Sent 200 SSE (sse_body chunks)
          /\ streamed_tool_calls chunks = tc :: tcs
          /\ flat_map content_payload chunks = [])
    /\ (forall w' : world,
           OPENROUTER_API_KEY w' = OPENROUTER_API_KEY w ->
           TELEGRAM_BOT_TOKEN w' = TELEGRAM_BOT_TOKEN w ->
           now w' = now w ->
           json_loads w' body = json_loads w body ->
           do_POST w' body = do_POST w body).
Proof.
  intros w body data all msgs tc tcs Hload Hiter Hdbg Hforced.
  destruct (forced_tool_call_exec w data msgs _ Hforced) as [Hshape _].
  destruct (calls_of_shape _ _ Hshape) as (calls & Ecalls).
  assert (Hshort : forall (w0 : world) (out : outcome),
             json_loads w0 body = Some (JDict data) ->
             forced_tool_call w0 data msgs = ret (Some (tc :: tcs)) ->
             forced_response w0 (get_or data "stream" (JBool false))
               (get_or data "model" (JStr "gpt-5.2")) (tc :: tcs) = ret out ->
             do_POST w0 body = out).
  { intros w0 out Hl Hf Hr. unfold do_POST, loads. rewrite Hl. cbn [as_dict ret].
    unfold shortcuts. rewrite Hiter. cbn [bind ret]. rewrite Hdbg. cbn [bind ret].
    rewrite Hf. cbn [bind ret]. rewrite Hr. reflexivity. }
  destruct (forced_sse_chunks_calls (JInt (now w)) (get_or data "model" (JStr "gpt-5.2")) calls)
    as (chunks & E & Htc & Hcp).
  rewrite <- Ecalls in E, Htc.
  assert (Hstream : truthy (get_or data "stream" (JBool false)) = true ->
                    forced_response w (get_or data "stream" (JBool false))
                      (get_or data "model" (JStr "gpt-5.2")) (tc :: tcs)
                    = ret (Sent 200 SSE (sse_body chunks))).
  { intros Hs. unfold forced_response. rewrite Hs, E. reflexivity. }
  assert (Hunary : truthy (get_or data "stream" (JBool false)) = false ->
                   forced_response w (get_or data "stream" (JBool false))
                     (get_or data "model" (JStr "gpt-5.2")) (tc :: tcs)
                   = ret (Sent 200 JSON
                            (json_dumps (synth_resp w (get_or data "model" (JStr "gpt-5.2"))
                                           (tc :: tcs))))).
  { intros Hs. unfold forced_response. now rewrite Hs. }
  split; [| split].
  - intros Hs. apply (Hshort w _ Hload Hforced (Hunary Hs)).
  - intros Hs. exists chunks. split; [| split; assumption].
    apply (Hshort w _ Hload Hforced (Hstream Hs)).
  - intros w' Hk Ht Hn Hl.
    assert (Hf' : forced_tool_call w' data msgs = ret (Some (tc :: tcs)))
      by (rewrite <- Hforced; unfold forced_tool_call; now rewrite Hk, Ht).
    assert (Hr' : forall out,
               forced_response w (get_or data "stream" (JBool false))
                 (get_or data "model" (JStr "gpt-5.2")) (tc :: tcs) = ret out ->
               forced_response w' (get_or data "stream" (JBool false))
                 (get_or data "model" (JStr "gpt-5.2")) (tc :: tcs) = ret out).
    { intros out <-. unfold forced_response, synth_resp. now rewrite Hn. }
    destruct (truthy (get_or data "stream" (JBool false))) eqn:Hs.
    + rewrite (Hshort w _ Hload Hforced (Hstream eq_refl)).
      apply (Hshort w' _ (eq_trans Hl Hload) Hf' (Hr' _ (Hstream eq_refl))).
    + rewrite (Hshort w _ Hload Hforced (Hunary eq_refl)).
      apply (Hshort w' _ (eq_trans Hl Hload) Hf' (Hr' _ (Hunary eq_refl))).
Qed.

(** ** Where the search results go *)

Lemma last_index_split {A} (p : A -> bool) (l : list A) (i : nat) :
  last_index p l = Some i ->
  exists pre x post,
    l = (pre ++ x :: post)%list /\ length pre = i /\ p x = true
    /\ (forall y, In y post -> p y = false).
Proof.
  revert i. induction l as [| a l IH]; intros i H; simpl in H; [discriminate |].
  destruct (last_index p l) as [j |] eqn:E.
  - inversion H. subst i. destruct (IH j eq_refl) as (pre & x & post & -> & Hlen & Hx & Hpost).
    exists (a :: pre), x, post. repeat split; simpl; auto.
  - destruct (p a) eqn:Ea; [| discriminate]. inversion H. subst i.
    exists [], a, l. repeat split; auto.
    clear -E. induction l as [| b l IH]; intros y Hy; [destruct Hy |].
    simpl in E. destruct (last_index p l); [discriminate |].
    destruct (p b) eqn:Eb; [discriminate |].
    destruct Hy as [<- | Hy]; [exact Eb | now apply IH].
Qed.

Lemma insert_at_split {A} (pre post : list A) (x y : A) :
  insert_at (length pre) y (pre ++ x :: post)%list = (pre ++ y :: x :: post)%list.
Proof.
  unfold insert_at. rewrite firstn_app, skipn_app, Nat.sub_diag, firstn_all, skipn_all.
  simpl. now rewrite app_nil_r.
Qed.

(** X17. The web-search step leaves the history as it is or adds exactly one
    system message, placed immediately before the last user message: the
    messages before and after keep their content and order, and no user
    message follows the one the results were put in front of. *)
Theorem search_results_go_before_last_user_turn :
  forall (w : world) (data data' : dict) (msgs : list dict) (last_user_text : option string),
    dict_get data "messages" = Some (JList (map JDict msgs)) ->
    search_step w data = ret (data', last_user_text) ->
    (forall k, k <> "messages" -> dict_get data' k = dict_get data k)
    /\ (dict_get data' "messages" = Some (JList (map JDict msgs))
        \/ exists (pre post : list dict) (user : dict) (text results : string),
             msgs = (pre ++ user :: post)%list
             /\ is_user user = true
             /\ (forall m, In m post -> is_user m = false)
             /\ last_user_text = Some text
             /\ search_results w text = Some results
             /\ dict_get data' "messages"
                = Some (JList (map JDict (pre ++ search_message results :: user :: post)%list))).
Proof.
  intros w data data' msgs lut Hmsgs H. unfold search_step in H.
  rewrite (get_or_messages _ _ Hmsgs), iter_dicts_list in H. cbn [bind ret] in H.
  match type of H with
  | bind (debug_last ?l) _ = _ => set (final := l) in H
  end.
  destruct (debug_last final) as [e | []]; cbn [bind ret] in H; [discriminate |].
  inversion H as [[Hd Hl]]. split.
  - intros k Hk. unfold set_messages. apply dict_get_set_other. congruence.
  - unfold set_messages. rewrite dict_get_set_same. subst final.
    destruct (last_index is_user msgs) as [i |] eqn:Ei; [| now left].
    destruct (search_text (nth i msgs [])) as [[| | | t | |] |]; try (now left).
    destruct (String.eqb t ""); [now left |].
    destruct (search_results w t) as [results |] eqn:Er; [| now left].
    destruct (String.eqb results ""); [now left |].
    right. destruct (last_index_split _ _ _ Ei) as (pre & x & post & E & Hlen & Hx & Hpost).
    exists pre, post, x, t, results. subst msgs. subst i.
    repeat split; try assumption. now rewrite insert_at_split.
Qed.

(** ** The search query *)

Lemma append_empty_r (s : string) : s ++ "" = s.
Proof. induction s as [| c s IH]; simpl; [reflexivity | now rewrite IH]. Qed.

Lemma piece_of_refl (s : string) : piece_of s s.
Proof. exists "", "". simpl. now rewrite append_empty_r. Qed.

Lemma piece_of_trans (a b c : string) : piece_of a b -> piece_of b c -> piece_of a c.
Proof.
  intros (p1 & q1 & ->) (p2 & q2 & ->). exists (p2 ++ p1), (q1 ++ q2).
  now rewrite !append_assoc.
Qed.

Lemma piece_of_suffix (pre s : string) : piece_of s (pre ++ s).
Proof. exists pre, "". now rewrite append_empty_r. Qed.

Lemma piece_of_prefix (s post : string) : piece_of s (s ++ post).
Proof. exists "", post. reflexivity. Qed.

Lemma lstrip_suffix (s : string) : exists pre, s = pre ++ Py.lstrip s.
Proof.
  induction s as [| c s (pre & E)]; simpl; [now exists "" |].
  destruct (Py.is_space c); [| now exists ""].
  exists (String c pre). simpl. now rewrite <- E.
Qed.

Lemma rstrip_prefix (s : string) : exists post, s = Py.rstrip s ++ post.
Proof.
  induction s as [| c s (post & E)]; simpl; [now exists "" |].
  destruct (Py.rstrip s) as [| a r].
  - destruct (Py.is_space c); [now exists (String c s) | now exists s].
  - exists post. simpl. f_equal. exact E.
Qed.

Lemma rstrip_chars_prefix (chars s : string) : exists post, s = rstrip_chars chars s ++ post.
Proof.
  induction s as [| c s (post & E)]; simpl; [now exists "" |].
  destruct (rstrip_chars chars s) as [| a r].
  - destruct (mem_char c chars); [now exists (String c s) | now exists s].
  - exists post. simpl. f_equal. exact E.
Qed.

Lemma drop_suffix (n : nat) (s : string) : exists pre, s = pre ++ Py.drop n s.
Proof.
  revert s. induction n as [| n IH]; intros s; [now exists "" |].
  destruct s as [| c s]; [now exists "" |].
  destruct (IH s) as (pre & E). exists (String c pre). simpl. now rewrite <- E.
Qed.

Lemma take_prefix (n : nat) (s : string) : exists post, s = Py.take n s ++ post.
Proof.
  revert s. induction n as [| n IH]; intros s; [now exists s |].
  destruct s as [| c s]; [now exists "" |].
  destruct (IH s) as (post & E). exists post. simpl. now rewrite <- E.
Qed.

Lemma strip_piece (s : string) : piece_of (Py.strip s) s.
Proof.
  unfold Py.strip. destruct (lstrip_suffix s) as (pre & E).
  destruct (rstrip_prefix (Py.lstrip s)) as (post & E').
  exists pre, post. now rewrite <- E', <- E.
Qed.

Lemma rstrip_chars_piece (chars s : string) : piece_of (rstrip_chars chars s) s.
Proof. destruct (rstrip_chars_prefix chars s) as (post & E). exists "", post. exact E. Qed.

Lemma drop_prefix_piece (text prefix : string) : piece_of (drop_prefix text prefix) text.
Proof.
  unfold drop_prefix. destruct (Py.startswith prefix (Py.lower text)); [| apply piece_of_refl].
  eapply piece_of_trans; [apply strip_piece |].
  destruct (drop_suffix (String.length prefix) text) as (pre & E).
  rewrite E at 2. apply piece_of_suffix.
Qed.

Lemma drop_prefixes_piece (prefixes : list string) (text : string) :
  piece_of (fold_left drop_prefix prefixes text) text.
Proof.
  revert text. induction prefixes as [| p prefixes IH]; intros text; simpl;
    [apply piece_of_refl |].
  eapply piece_of_trans; [apply IH | apply drop_prefix_piece].
Qed.

Lemma length_take_exact (n : nat) (s : string) :
  (n <= String.length s)%nat -> String.length (Py.take n s) = n.
Proof.
  revert s. induction n as [| n IH]; intros s H; [reflexivity |].
  destruct s as [| c s]; simpl in *; [lia |]. rewrite IH; lia.
Qed.

Lemma endswith_char_cons (c a : ascii) (r : string) :
  endswith (String c "") (String a r)
  = match r with
    | EmptyString => Ascii.eqb a c
    | _ => endswith (String c "") r
    end.
Proof.
  unfold endswith. destruct r as [| b r].
  - simpl. destruct (Ascii.eqb a c); reflexivity.
  - cbn [String.length Nat.leb Nat.sub Py.drop andb]. now rewrite Nat.sub_0_r.
Qed.

Lemma rstrip_chars_end (chars s : string) (c : ascii) :
  mem_char c chars = true -> endswith (String c "") (rstrip_chars chars s) = false.
Proof.
  intros Hc. induction s as [| a s IH]; [reflexivity |]. simpl.
  destruct (rstrip_chars chars s) as [| b r] eqn:R.
  - destruct (mem_char a chars) eqn:Ea; [reflexivity |].
    rewrite endswith_char_cons. destruct (Ascii.eqb_spec a c); [congruence | reflexivity].
  - rewrite endswith_char_cons. exact IH.
Qed.

(** X18. The search query is cut out of the user's text: it is a contiguous
    piece of it, of at most 200 characters, and unless it was truncated to
    200 characters it does not end with a question mark, a full stop or an
    exclamation mark. *)
Theorem search_query_is_bounded_piece :
  forall user_text : string,
    (String.length (extract_search_query user_text) <= 200)%nat
    /\ piece_of (extract_search_query user_text) user_text
    /\ (forall c : ascii,
           mem_char c "?.!" = true ->
           (String.length (extract_search_query user_text) < 200)%nat ->
           endswith (String c "") (extract_search_query user_text) = false).
Proof.
  intros user_text. unfold extract_search_query.
  set (stripped := Py.strip user_text).
  set (cut := rstrip_chars "?.!" (fold_left drop_prefix QUERY_PREFIXES stripped)).
  set (text := if (String.length cut <? 3)%nat then rstrip_chars "?.!" stripped else cut).
  assert (Hpiece : piece_of text user_text).
  { unfold text. destruct (String.length cut <? 3)%nat.
    - eapply piece_of_trans; [apply rstrip_chars_piece | apply strip_piece].
    - unfold cut. eapply piece_of_trans; [apply rstrip_chars_piece |].
      eapply piece_of_trans; [apply drop_prefixes_piece | apply strip_piece]. }
  assert (Hend : forall c, mem_char c "?.!" = true -> endswith (String c "") text = false).
  { intros c Hc. unfold text, cut.
    destruct (String.length _ <? 3)%nat; now apply rstrip_chars_end. }
  destruct (Nat.ltb_spec 200 (String.length text)) as [Hlong | Hshort].
  - split; [apply length_take |]. split.
    + eapply piece_of_trans; [| exact Hpiece].
      destruct (take_prefix 200 text) as (post & E). rewrite E at 2. apply piece_of_prefix.
    + intros c _ Hlt. rewrite length_take_exact in Hlt by lia. lia.
  - split; [exact Hshort |]. split; [exact Hpiece |]. intros c Hc _. now apply Hend.
Qed.

(** ** When a search is made *)

Lemma strip_keeps_bracket (s : string) : Py.startswith "[" (Py.strip (String "[" s)) = true.
Proof.
  unfold Py.strip. cbn [Py.lstrip].
  replace (Py.is_space "[") with false by reflexivity.
  cbn [Py.rstrip]. replace (Py.is_space "[") with false by reflexivity.
  destruct (Py.rstrip s); reflexivity.
Qed.

Lemma bracketed_text_needs_no_search (HAS_DDGS : bool) (s : string) :
  needs_web_search HAS_DDGS (String "[" s) = false.
Proof.
  unfold needs_web_search. destruct HAS_DDGS; [| reflexivity]. cbn [negb].
  destruct (_ || _); [reflexivity |].
  destruct (existsb _ skip_markers); [reflexivity |].
  now rewrite strip_keeps_bracket.
Qed.

(** X19. What a text must pass before a search is made for it: the search
    package is there, the stripped text has between 5 and 300 characters,
    contains none of the skip markers, starts with neither bracket nor
    brace and is not a mere greeting. *)
Theorem search_is_guarded :
  forall (HAS_DDGS : bool) (text : string),
    needs_web_search HAS_DDGS text = true ->
    HAS_DDGS = true
    /\ (5 <= String.length (Py.strip text) <= 300)%nat
    /\ (forall marker, In marker skip_markers -> Py.contains marker (Py.strip text) = false)
    /\ Py.startswith "[" (Py.strip text) = false
    /\ Py.startswith "{" (Py.strip text) = false
    /\ Re.match_ ICASE SEARCH_SKIP (Py.strip text) = None.
Proof.
  intros has text. unfold needs_web_search.
  destruct has; cbn [negb]; [| discriminate].
  destruct (String.eqb text ""); cbn [orb]; [discriminate |].
  destruct (Nat.ltb_spec (String.length (Py.strip text)) 5); [discriminate |].
  destruct (existsb (fun marker => Py.contains marker (Py.strip text)) skip_markers) eqn:Em;
    [discriminate |].
  destruct (Py.startswith "[" (Py.strip text)); cbn [orb]; [discriminate |].
  destruct (Py.startswith "{" (Py.strip text)); [discriminate |].
  destruct (Nat.ltb_spec 300 (String.length (Py.strip text))); [discriminate |].
  destruct (Re.match_ ICASE SEARCH_SKIP (Py.strip text)); [discriminate |].
  intros _. repeat split; try assumption.
  intros marker Hin.
  destruct (Py.contains marker (Py.strip text)) eqn:Ec; [| reflexivity].
  assert (existsb (fun marker => Py.contains marker (Py.strip text)) skip_markers = true)
    by (apply existsb_exists; eauto).
  congruence.
Qed.

(** ** The formatted results *)

Lemma concat_head (sep x : string) (l : list string) :
  exists rest, String.concat sep (x :: l) = x ++ rest.
Proof. destruct l; simpl; [exists ""; now rewrite append_empty_r | eauto]. Qed.

(** X20. [web_search] gives either nothing or a text that is not empty: it
    gives nothing when the package is missing, when the client raises or
    finds nothing, and when a result is not an object; otherwise the text
    starts with the entry numbered 1, made of the first result's title. *)
Theorem web_search_text_is_never_empty :
  forall (HAS_DDGS : bool) (ddgs_text : string -> nat -> M (list Json))
         (query : string) (max_results : nat),
    (forall text : string,
        web_search HAS_DDGS ddgs_text query max_results = Some text ->
        HAS_DDGS = true
        /\ text <> ""
        /\ exists (r : dict) (rest : list Json),
             ddgs_text query max_results = inr (JDict r :: rest)
             /\ Py.startswith ("[1] " ++ py_str (get_or r "title" (JStr ""))) text = true)
    /\ (HAS_DDGS = false -> web_search HAS_DDGS ddgs_text query max_results = None)
    /\ (ddgs_text query max_results = inr [] ->
        web_search HAS_DDGS ddgs_text query max_results = None)
    /\ (forall e, ddgs_text query max_results = inl e ->
                  web_search HAS_DDGS ddgs_text query max_results = None)
    /\ (forall (r : dict) (rest : list dict),
           HAS_DDGS = true ->
           ddgs_text query max_results = inr (map JDict (r :: rest)) ->
           exists text, web_search HAS_DDGS ddgs_text query max_results = Some text).
Proof.
  intros has ddgs query n. unfold web_search. split; [| split; [| split; [| split]]].
  - intros text. destruct has; cbn [negb]; [| discriminate].
    destruct (ddgs query n) as [e | [| j rest]]; try discriminate.
    cbn [Py.enumerate_from mapM]. unfold format_result at 1. cbn [fst snd].
    destruct j as [| | | | | r]; try discriminate. cbn [as_dict bind ret].
    destruct (mapM format_result (Py.enumerate_from 2 rest)) as [e | others];
      cbn [bind ret]; [discriminate |].
    intros H. injection H as <-.
    split; [reflexivity |]. split; [destruct others; discriminate |].
    exists r, rest. split; [reflexivity |].
    unfold Py.startswith.
    destruct others; cbn [append String.prefix];
      repeat (destruct (ascii_dec _ _) as [_ | Hne]; [| now elim Hne]);
      rewrite ?append_assoc; apply prefix_append.
  - intros ->. reflexivity.
  - intros ->. now destruct has.
  - intros e ->. now destruct has.
  - intros r rest -> ->. cbn [negb map].
    assert (Htotal : forall (l : list dict) (i : nat),
               exists formatted,
                 mapM format_result (Py.enumerate_from i (map JDict l)) = ret formatted).
    { induction l as [| d l IH]; intros i; [now exists [] |].
      destruct (IH (S i)) as (formatted & E).
      cbn [map Py.enumerate_from mapM]. unfold format_result at 1. cbn [fst snd as_dict bind ret].
      rewrite E. cbn [bind ret]. eauto. }
    destruct (Htotal (r :: rest) 1%nat) as (formatted & E).
    cbn [map] in E. rewrite E. unfold ret. eauto.
Qed.

(** ** Tool results and the search *)

Lemma last_index_last_hit {A} (p : A -> bool) (pre post : list A) (x : A) :
  p x = true -> (forall y, In y post -> p y = false) ->
  last_index p (pre ++ x :: post)%list = Some (length pre).
Proof.
  intros Hx Hpost.
  assert (Hnone : last_index p post = None).
  { clear Hx. induction post as [| y post IH]; [reflexivity |]. simpl.
    rewrite IH by (intros z Hz; apply Hpost; now right).
    now rewrite (Hpost y (or_introl eq_refl)). }
  induction pre as [| a pre IH]; simpl.
  - now rewrite Hnone, Hx.
  - now rewrite IH.
Qed.

Lemma nth_middle_dict {A} (pre post : list A) (x d : A) :
  nth (length pre) (pre ++ x :: post)%list d = x.
Proof. induction pre; simpl; auto. Qed.

(** X21. No search is made for tool output: when the last user message of
    the history is the message that the cleaning loop made of a tool result
    and the process searches as [do_POST] does, the search step leaves the
    messages as they are, whatever the tool wrote; the text it hands on is
    the tagged tool result. *)
Theorem tool_result_is_never_searched :
  forall (w : world) (HAS_DDGS : bool) (ddgs_text : string -> nat -> M (list Json))
         (data data' : dict) (pre post : list dict) (tool_msg : dict)
         (last_user_text : option string),
    (forall t, search_results w t = search_for HAS_DDGS ddgs_text t) ->
    is_str (get tool_msg "role") "tool" = true ->
    (forall m, In m post -> is_user m = false) ->
    dict_get data "messages"
    = Some (JList (map JDict (pre ++ clean_message tool_msg :: post)%list)) ->
    search_step w data = ret (data', last_user_text) ->
    data' = set_messages data (pre ++ clean_message tool_msg :: post)%list
    /\ last_user_text
       = Some ("[Tool result from " ++ py_str (get_or tool_msg "name" (JStr "tool")) ++ "]: "
               ++ py_str (get_or tool_msg "content" (JStr ""))).
Proof.
  intros w has ddgs data data' pre post tool_msg lut Hw Hrole Hpost Hmsgs H.
  unfold search_step in H.
  rewrite (get_or_messages _ _ Hmsgs), iter_dicts_list in H. cbn [bind ret] in H.
  assert (Hclean : clean_message tool_msg
                   = [ ("role", JStr "user");
                       ("content",
                        JStr ("[Tool result from "
                              ++ py_str (get_or tool_msg "name" (JStr "tool")) ++ "]: "
                              ++ py_str (get_or tool_msg "content" (JStr "")))) ])
    by (unfold clean_message; now rewrite Hrole).
  rewrite last_index_last_hit in H by (rewrite ?Hclean; auto).
  rewrite nth_middle_dict in H.
  assert (Hst : search_text (clean_message tool_msg)
                = Some (JStr (String "[" ("Tool result from "
                                          ++ py_str (get_or tool_msg "name" (JStr "tool")) ++ "]: "
                                          ++ py_str (get_or tool_msg "content" (JStr ""))))))
    by (rewrite Hclean; reflexivity).
  rewrite Hst in H. cbn [String.eqb] in H.
  rewrite Hw in H. unfold search_for in H.
  rewrite bracketed_text_needs_no_search in H.
  cbn [String.eqb] in H.
  destruct (debug_last _) as [e | []]; cbn [bind ret] in H; [discriminate |].
  inversion H. split; reflexivity.
Qed.

(** ** Requests that are not POSTs *)

(** X22. A request with another method than POST, as [do_GET] forwards it
    (no stream, empty tool list), is relayed: the client gets the backend's
    status and the backend's body, decoded as UTF-8 with U+FFFD for what
    cannot be decoded, with the backend model ids replaced; nothing else
    is done to it: the body is not read as JSON, so neither the tool-call
    conversion nor the NO_REPLY interception applies.  A body of ASCII
    bytes without a backend model id is relayed byte for byte. *)
Theorem other_methods_are_relayed :
  forall (w : world) (method : string) (body : option string) (original_model : string)
         (tool_defs : Json) (last_user_text : option string) (status : Z) (data : string),
    method <> "POST" ->
    upstream w method body = inr (status, data) ->
    _proxy w method body (JBool false) (JStr original_model) tool_defs last_user_text
    = Sent status JSON
        (Py.replace "phi4:latest" original_model
           (Py.replace "qwen2.5-coder:32b" original_model
              (Py.replace "llama3.3:latest" original_model (utf8_replaced data))))
    /\ (ascii_only data = true ->
        (forall b, In b (map fst REVERSE_MAP) -> Py.contains b data = false) ->
        _proxy w method body (JBool false) (JStr original_model) tool_defs last_user_text
        = Sent status JSON data).
Proof.
  intros w method body X tool_defs lut status data Hm Hup.
  assert (E : _proxy w method body (JBool false) (JStr X) tool_defs lut
              = Sent status JSON
                  (Py.replace "phi4:latest" X
                     (Py.replace "qwen2.5-coder:32b" X
                        (Py.replace "llama3.3:latest" X (utf8_replaced data))))).
  { unfold _proxy. apply String.eqb_neq in Hm. rewrite Hm, Hup.
    cbn [exchange bind ret fst snd andb]. rewrite rewrite_model_unfold. reflexivity. }
  split; [exact E |].
  intros Hascii Hnone. rewrite E, (utf8_replaced_ascii data Hascii). do 2 f_equal.
  destruct (replace_cases "llama3.3:latest" X data) as [[_ E1] | [H1 _]]; [discriminate | |].
  2: { rewrite Hnone in H1; [discriminate | simpl; tauto]. }
  rewrite E1.
  destruct (replace_cases "qwen2.5-coder:32b" X data) as [[_ E2] | [H2 _]]; [discriminate | |].
  2: { rewrite Hnone in H2; [discriminate | simpl; tauto]. }
  rewrite E2.
  destruct (replace_cases "phi4:latest" X data) as [[_ E3] | [H3 _]]; [discriminate | |].
  2: { rewrite Hnone in H3; [discriminate | simpl; tauto]. }
  exact E3.
Qed.

(** ** The ids of extracted calls *)

Lemma to_uint_nonnil (n : nat) : Nat.to_uint n <> Decimal.Nil.
Proof.
  pose proof (DecimalNat.Unsigned.to_of (Nat.to_uint n)) as H.
  rewrite DecimalNat.Unsigned.of_to in H. rewrite H. apply DecimalFacts.unorm_nonnil.
Qed.

Lemma str_of_nat_inj (a b : nat) : Py.str_of_nat a = Py.str_of_nat b -> a = b.
Proof.
  unfold Py.str_of_nat. intros H. apply DecimalNat.Unsigned.to_uint_inj.
  pose proof (NilZero.usu (Nat.to_uint a) (to_uint_nonnil a)) as Ha.
  pose proof (NilZero.usu (Nat.to_uint b) (to_uint_nonnil b)) as Hb.
  rewrite H in Ha. congruence.
Qed.

Lemma plain_digits_have_no_underscore (d : Decimal.uint) :
  mem_char "_" (NilEmpty.string_of_uint d) = false.
Proof. induction d; simpl; auto. Qed.

Lemma digits_have_no_underscore (d : Decimal.uint) :
  mem_char "_" (NilZero.string_of_uint d) = false.
Proof. destruct d; try reflexivity; apply plain_digits_have_no_underscore. Qed.

Lemma mem_char_append (c : ascii) (a b : string) :
  mem_char c (a ++ b) = mem_char c a || mem_char c b.
Proof. induction a as [| x a IH]; simpl; [reflexivity |]. now rewrite IH, orb_assoc. Qed.

Lemma last_underscore_split (a b d1 d2 : string) :
  mem_char "_" d1 = false -> mem_char "_" d2 = false ->
  a ++ String "_" d1 = b ++ String "_" d2 -> a = b /\ d1 = d2.
Proof.
  intros H1 H2. revert b. induction a as [| x a IH]; intros [| y b] H; simpl in H.
  - inversion H. auto.
  - inversion H. subst. rewrite mem_char_append in H1. simpl in H1.
    rewrite orb_true_r in H1. discriminate.
  - inversion H. subst. rewrite mem_char_append in H2. simpl in H2.
    rewrite orb_true_r in H2. discriminate.
  - inversion H. subst. destruct (IH b) as [-> ->]; auto.
Qed.

Lemma indexed_id_inj (n1 n2 : string) (i j : nat) :
  n1 ++ String "_" (Py.str_of_nat i) = n2 ++ String "_" (Py.str_of_nat j) -> i = j.
Proof.
  intros H.
  apply last_underscore_split in H; try apply digits_have_no_underscore.
  apply str_of_nat_inj. apply H.
Qed.

Lemma enumerate_from_ge {A} (l : list A) (k i : nat) (x : A) :
  In (i, x) (Py.enumerate_from k l) -> (k <= i)%nat.
Proof.
  revert k. induction l as [| y l IH]; intros k H; simpl in H; [destruct H |].
  destruct H as [H | H]; [inversion H; lia |]. apply IH in H. lia.
Qed.

Lemma explicit_calls_ids (reg : registry) (matches : list Re.found) (k : nat) :
  Forall (fun tc => exists name i, (k <= i)%nat
                                   /\ call_id tc = JStr ("call_" ++ name ++ "_" ++ Py.str_of_nat i))
         (explicit_calls reg (Py.enumerate_from k matches))
  /\ NoDup (map call_id (explicit_calls reg (Py.enumerate_from k matches))).
Proof.
  revert k. induction matches as [| m matches IH]; intros k; simpl.
  - split; constructor.
  - destruct (IH (S k)) as [Hall Hnd].
    assert (Hall' : Forall (fun tc => exists name i,
                                (k <= i)%nat
                                /\ call_id tc = JStr ("call_" ++ name ++ "_" ++ Py.str_of_nat i))
                           (explicit_calls reg (Py.enumerate_from (S k) matches))).
    { eapply Forall_impl; [| exact Hall]. intros tc (name & i & Hi & E).
      exists name, i. split; [lia | exact E]. }
    destruct (known reg (Re.group m 1)); cbn [negb]; [| now split].
    split.
    + constructor; [| exact Hall']. exists (Re.group m 1), k. split; [lia | reflexivity].
    + cbn [map]. constructor; [| exact Hnd].
      intros Hin. apply in_map_iff in Hin. destruct Hin as (tc & E & Hin).
      rewrite Forall_forall in Hall. destruct (Hall tc Hin) as (name & i & Hi & E').
      rewrite E' in E. cbn [call_id tool_call get dict_get String.eqb Ascii.eqb Bool.eqb] in E.
      inversion E as [E1]. apply indexed_id_inj in E1. lia.
Qed.

Lemma indexed_calls_distinct (f : nat * Re.found -> Json) (tag : string)
  (matches : list Re.found) (k : nat) :
  (forall im, call_id (f im) = JStr (tag ++ Py.str_of_nat (fst im))) ->
  NoDup (map call_id (map f (Py.enumerate_from k matches))).
Proof.
  intros Hf. revert k. induction matches as [| m matches IH]; intros k; simpl; constructor;
    [| apply IH].
  intros Hin. rewrite map_map in Hin. apply in_map_iff in Hin.
  destruct Hin as ([i x] & E & Hin). rewrite !Hf in E. cbn [fst] in E.
  inversion E as [E1]. apply append_inj_l, str_of_nat_inj in E1.
  apply enumerate_from_ge in Hin. lia.
Qed.

Lemma convert_with_ids (reg : registry) (content cleaned : string) (calls : list Json) :
  convert_with reg content = (cleaned, Some calls) ->
  calls <> [] /\ NoDup (map call_id calls).
Proof.
  unfold convert_with, Py.enumerate.
  pose proof (explicit_calls_ids reg (Re.finditer MLINE TOOL_CALL_PATTERN content) 0) as [_ Hex].
  destruct (explicit_calls reg _) as [| tc0 tcs0].
  2: { intros H. inversion H. subst. split; [discriminate | exact Hex]. }
  destruct (known reg "exec"); [| discriminate].
  pose proof (indexed_calls_distinct (markdown_call (param_of reg "exec" "command"))
                "call_exec_md_" (Re.finditer DOTALL_ONLY MARKDOWN_EXEC_PATTERN content) 0
                (fun im => eq_refl)) as Hmd.
  destruct (map (markdown_call _) _) as [| md mds].
  2: { intros H. inversion H. subst. split; [discriminate | exact Hmd]. }
  pose proof (indexed_calls_distinct (bare_call (param_of reg "exec" "command"))
                "call_exec_bare_" (Re.finditer MLINE BARE_EXEC_PATTERN content) 0
                (fun im => eq_refl)) as Hbare.
  destruct (map (bare_call _) _) as [| b bs]; [discriminate |].
  intros H. inversion H. subst. split; [discriminate | exact Hbare].
Qed.

(** X23. The tool calls extracted from one text have pairwise distinct ids,
    and a list of calls is never empty: when nothing is extracted the
    result holds no list at all. *)
Theorem extracted_call_ids_are_distinct :
  forall (content : Json) (tool_defs : Json) (cleaned : string) (calls : list Json),
    convert_text_to_tool_calls content tool_defs = ret (cleaned, Some calls) ->
    calls <> [] /\ NoDup (map call_id calls).
Proof.
  intros content tool_defs cleaned calls H. unfold convert_text_to_tool_calls in H.
  destruct (tools_or_empty tool_defs) as [e | tools]; cbn [bind] in H; [discriminate |].
  destruct (scan_tools tools empty_registry) as [e | reg]; cbn [bind] in H; [discriminate |].
  destruct (as_str content) as [e | text]; cbn [bind ret] in H; [discriminate |].
  inversion H as [E]. eapply convert_with_ids. exact E.
Qed.

(** ** The tool prompt *)

Lemma tool_names_declared (tools : list Json) :
  forall (names : list Json) (strs : list string),
    tool_names tools = ret names ->
    mapM as_str names = ret strs ->
    strs = filter (fun n => negb (String.eqb n "")) (flat_map declared_name tools).
Proof.
  induction tools as [| t tools IH]; intros names strs Hn Hs; simpl in Hn.
  - inversion Hn. subst names. inversion Hs. reflexivity.
  - destruct t as [| | | | | d]; try discriminate. cbn [as_dict bind ret] in Hn.
    cbn [flat_map declared_name].
    destruct (is_str (get d "type") "function"); cbn [negb] in Hn;
      [| now apply (IH names strs)].
    unfold function_name in Hn.
    destruct (get_or d "function" (JDict [])) as [| | | | | f]; try discriminate.
    cbn [as_dict bind ret] in Hn.
    destruct (tool_names tools) as [e | names'] eqn:En; cbn [bind ret] in Hn; [discriminate |].
    inversion Hn as [E]. clear Hn. subst names.
    destruct (get_or f "name" (JStr "")) as [| b | z | n | l | o]; cbn [truthy] in Hs.
    + now apply (IH names' strs).
    + destruct b; [discriminate Hs | now apply (IH names' strs)].
    + destruct (Z.eqb z 0); [now apply (IH names' strs) | discriminate Hs].
    + cbn [app filter]. destruct (String.eqb n ""); cbn [negb] in *.
      * now apply (IH names' strs).
      * cbn [mapM as_str bind ret] in Hs.
        destruct (mapM as_str names') as [e | strs'] eqn:Es; cbn [bind ret] in Hs;
          [discriminate |].
        inversion Hs. f_equal. now apply (IH names' strs').
    + destruct l; [now apply (IH names' strs) | discriminate Hs].
    + destruct o; [now apply (IH names' strs) | discriminate Hs].
Qed.

Lemma mapM_length {A B} (f : A -> M B) (l : list A) :
  forall l', mapM f l = ret l' -> length l' = length l.
Proof.
  induction l as [| x l IH]; intros l' H; simpl in H; [now inversion H |].
  destruct (f x); cbn [bind] in H; [discriminate |].
  destruct (mapM f l); cbn [bind ret] in H; [discriminate |].
  inversion H. simpl. f_equal. now apply IH.
Qed.

Lemma prefix_weaken (x l r : string) :
  String.prefix x l = true -> String.prefix x (l ++ r) = true.
Proof.
  revert l. induction x as [| c x IH]; intros l H; [now destruct (l ++ r) |].
  destruct l as [| a l]; [discriminate H |]. simpl in *.
  destruct (ascii_dec c a); [now apply IH | discriminate H].
Qed.

Lemma contains_weaken_r (x l r : string) :
  Py.contains x l = true -> Py.contains x (l ++ r) = true.
Proof.
  induction l as [| a l IH]; intros H.
  - rewrite contains_unfold in H. rewrite orb_false_r in H.
    destruct x; [destruct r; reflexivity | discriminate H].
  - rewrite contains_unfold in H. apply orb_true_iff in H. destruct H as [H | H].
    + rewrite contains_unfold. apply orb_true_iff. left. now apply prefix_weaken.
    + simpl append. apply contains_cons. now apply IH.
Qed.

Lemma contains_self (x : string) : Py.contains x x = true.
Proof. rewrite <- (append_empty_r x) at 2. apply contains_append_l. Qed.

Lemma contains_join (sep n : string) (strs : list string) :
  In n strs -> Py.contains n (Py.join sep strs) = true.
Proof.
  unfold Py.join. induction strs as [| x strs IH]; intros Hin; [destruct Hin |].
  destruct strs as [| y strs].
  - destruct Hin as [<- | []]. apply contains_self.
  - change (String.concat sep (x :: y :: strs)) with (x ++ sep ++ String.concat sep (y :: strs)).
    destruct Hin as [<- | Hin]; [apply contains_append_l |].
    apply contains_append_r, contains_append_r, IH, Hin.
Qed.

(** X24. The tool prompt names every declared function: when a prompt is
    built, each non-empty function name declared in the request occurs in
    it (in the list of available tools), and no prompt is built only when
    the request declares no function with a non-empty name. *)
Theorem tool_prompt_lists_declared_names :
  forall tool_defs : Json,
    (forall prompt : string,
        build_tool_prompt tool_defs = ret (Some prompt) ->
        (exists n, In n (declared_tools tool_defs) /\ n <> "")
        /\ (forall n, In n (declared_tools tool_defs) -> n <> "" ->
                      Py.contains n prompt = true))
    /\ (build_tool_prompt tool_defs = ret None ->
        forall n, In n (declared_tools tool_defs) -> n = "").
Proof.
  intros tool_defs.
  assert (Hlist : forall r, truthy tool_defs = true ->
                            (tools <- iter tool_defs ;; tool_names tools) = ret r ->
                            exists l, tool_defs = JList l /\ tool_names l = ret r).
  { intros r Ht H. destruct tool_defs as [| b | z | s | l | d]; try discriminate H.
    - destruct s as [| c s]; [discriminate Ht | discriminate H].
    - eauto.
    - destruct d as [| [k v] d]; [discriminate Ht | discriminate H]. }
  assert (Hnonempty : forall n, negb (String.eqb n "") = true <-> n <> "").
  { intros n. rewrite negb_true_iff. apply String.eqb_neq. }
  unfold build_tool_prompt. destruct (truthy tool_defs) eqn:Ht; cbn [negb].
  - destruct (tools <- iter tool_defs ;; tool_names tools) as [e | names] eqn:En.
    + assert (Hraise : forall k : list Json -> M (option string),
                 (tools <- iter tool_defs ;; names <- tool_names tools ;; k names) = inl e).
      { intros k. destruct (iter tool_defs) as [e' | tools]; cbn [bind] in *;
          [congruence |]. now rewrite En. }
      rewrite Hraise. split; [discriminate | discriminate].
    + destruct (Hlist names eq_refl eq_refl) as (l & -> & Hl).
      cbn [iter bind ret declared_tools]. rewrite Hl. cbn [bind ret].
      destruct names as [| name names].
      * split; [discriminate |]. intros _ n Hin.
        pose proof (tool_names_declared l [] [] Hl eq_refl) as E.
        destruct (String.eqb_spec n ""); [assumption | exfalso].
        assert (In n (filter (fun n => negb (String.eqb n "")) (flat_map declared_name l)))
          by (apply filter_In; split; [exact Hin | now apply Hnonempty]).
        rewrite <- E in H. exact H.
      * split; [| destruct (mapM as_str (name :: names)); discriminate].
        intros prompt H.
        destruct (mapM as_str (name :: names)) as [e | strs] eqn:Es; cbn [bind ret] in H;
          [discriminate |].
        pose proof (tool_names_declared l _ strs Hl Es) as E.
        assert (Hin : forall n, In n strs <-> In n (flat_map declared_name l) /\ n <> "").
        { intros n. rewrite E, filter_In, Hnonempty. reflexivity. }
        split.
        -- apply mapM_length in Es as Hlen.
           destruct strs as [| s strs]; [discriminate Hlen |].
           exists s. apply Hin. now left.
        -- intros n Hn Hne.
           match type of H with
           | ret (Some ?t) = _ => remember t as text eqn:Etext
           end.
           inversion H as [E']. clear H. subst prompt. rewrite Etext.
           do 12 apply contains_append_r. apply contains_weaken_r, contains_join.
           apply Hin. now split.
  - split; [discriminate |]. intros _ n Hin.
    destruct tool_defs as [| | | | l |]; try (now destruct Hin).
    destruct l; [destruct Hin | discriminate Ht].
Qed.

(** ** Instances *)

Lemma strip_keys_removes_exactly_witness :
  has_key (fst (strip_keys UNSUPPORTED_PARAMS (Cases.stored "gpt-5.2" []))) "store" = false
  /\ dict_get (fst (strip_keys UNSUPPORTED_PARAMS (Cases.stored "gpt-5.2" []))) "temperature"
     = Some (JInt 1).
Proof.
  assert (Hu : unique_keys (Cases.stored "gpt-5.2" []))
    by (unfold unique_keys; simpl; repeat constructor; simpl; intuition discriminate).
  destruct (strip_keys_removes_exactly UNSUPPORTED_PARAMS (Cases.stored "gpt-5.2" []) Hu)
    as (_ & Hgone & Hkept & _).
  split.
  - apply Hgone. simpl. tauto.
  - rewrite Hkept; [reflexivity |]. simpl. intuition discriminate.
Defined.

Lemma cleaned_message_shape_witness :
  get (clean_message (Sample.tool_result "call_exec_0" "exec" "done")) "role" = JStr "user"
  /\ has_key (clean_message (Sample.tool_result "call_exec_0" "exec" "done")) "tool_call_id"
     = false.
Proof.
  assert (Hu : unique_keys (Sample.tool_result "call_exec_0" "exec" "done"))
    by (unfold unique_keys; simpl; repeat constructor; simpl; intuition discriminate).
  destruct (cleaned_message_shape (Sample.tool_result "call_exec_0" "exec" "done") Hu)
    as (_ & _ & Hid & Htool & _).
  split; [apply Htool; reflexivity | exact Hid].
Defined.

Lemma trim_bounds_history_witness :
  Permutation [Sample.user "one"; Sample.system "Be brief."; Sample.assistant "two"]
              (trim_messages [Sample.user "one"; Sample.system "Be brief."; Sample.assistant "two"]).
Proof.
  apply (proj2 (proj2 (proj2 (proj2 (trim_bounds_history
           [Sample.user "one"; Sample.system "Be brief."; Sample.assistant "two"]))))).
  unfold MAX_HISTORY. simpl. lia.
Defined.

Lemma follow_up_ignores_trailing_system_messages_witness :
  has_tool_results (([Sample.user "skills"] ++ [Sample.tool_result "call_skills_0" "exec" "a, b"])
                    ++ [Sample.system "Be brief."]) = true.
Proof.
  destruct (follow_up_ignores_trailing_system_messages
              [Sample.user "skills"] [Sample.system "Be brief."]
              (Sample.tool_result "call_skills_0" "exec" "a, b")) as (_ & Htool & _).
  - intros m [<- | []]. reflexivity.
  - reflexivity.
  - apply Htool. reflexivity.
Defined.

Lemma latest_user_text_is_genuine_witness :
  exists (newer : list dict) (m : dict) (older : list dict),
    [ Sample.user "System: cron job finished"; Sample.assistant "noted";
      Sample.user "scout @alice"; Sample.user "hello" ]
    = (newer ++ m :: older)%list
    /\ is_str (get m "role") "user" = true
    /\ ((Py.startswith "Conversation info" (Py.strip (message_text m)) = false
         /\ "scout @alice" = message_text m)
        \/ (Py.startswith "Conversation info" (Py.strip (message_text m)) = true
            /\ extract_from_metadata (message_text m) = Some "scout @alice")).
Proof.
  destruct (proj1 (latest_user_text_is_genuine
                     [ Sample.user "System: cron job finished"; Sample.assistant "noted";
                       Sample.user "scout @alice"; Sample.user "hello" ] None)
                  "scout @alice" None eq_refl)
    as (newer & m & older & E & Hu & Hfrom & _).
  exists newer, m, older. repeat split; assumption.
Defined.

Lemma content_pieces_are_bounded_witness : text_pieces "Hello there" = ["Hello there"].
Proof.
  apply (proj2 (proj2 (content_pieces_are_bounded "Hello there"))).
  unfold chunk_size. simpl. lia.
Defined.

Lemma tool_prompt_placement_witness :
  inject_tool_descriptions [("messages", JList (map JDict [Sample.user "hi"]))] "  Use tools. "
  = ret (dict_set [("messages", JList (map JDict [Sample.user "hi"]))] "messages"
           (JList (JDict [("role", JStr "system"); ("content", JStr (Py.strip "  Use tools. "))]
                   :: map JDict [Sample.user "hi"]))).
Proof.
  apply (proj1 (proj2 (tool_prompt_placement
                         [("messages", JList (map JDict [Sample.user "hi"]))] "  Use tools. "))).
  - reflexivity.
  - intros x [<- | []]. reflexivity.
Defined.

Lemma no_function_tools_no_extraction_witness :
  convert_text_to_tool_calls (JStr "TOOL_CALL: exec ls")
    (JList [JDict [("type", JStr "retrieval")]])
  = ret ("TOOL_CALL: exec ls", None).
Proof.
  destruct (convert_text_to_tool_calls (JStr "TOOL_CALL: exec ls")
              (JList [JDict [("type", JStr "retrieval")]])) as [e | r] eqn:E;
    [vm_compute in E; discriminate |].
  apply (f_equal (fun x : string * option (list Json) => ret x)).
  apply (proj2 (proj2 (no_function_tools_no_extraction "TOOL_CALL: exec ls"))
               (JList [JDict [("type", JStr "retrieval")]]) r eq_refl E).
Defined.

Lemma forwarded_request_shape_witness :
  exists data' : dict,
    normalize (Cases.stored "gpt-5.2" [Sample.user "hi"]) (JList []) = ret data'
    /\ get data' "stream" = JBool false
    /\ get data' "model" = JStr "llama3.3:latest"
    /\ has_key data' "store" = false
    /\ dict_get data' "temperature" = Some (JInt 1).
Proof.
  assert (Hu : unique_keys (Cases.stored "gpt-5.2" [Sample.user "hi"]))
    by (unfold unique_keys; simpl; repeat constructor; simpl; intuition discriminate).
  destruct (normalize (Cases.stored "gpt-5.2" [Sample.user "hi"]) (JList []))
    as [e | data'] eqn:E; [vm_compute in E; discriminate |].
  destruct (forwarded_request_shape _ data' (JList []) Hu E)
    as (Hstream & Hgone & Hmodel & _ & Hkept & _).
  exists data'. split; [reflexivity |]. split; [exact Hstream |].
  split; [apply (Hmodel "gpt-5.2"); reflexivity |].
  split; [apply Hgone; simpl; tauto |].
  rewrite Hkept; [reflexivity | simpl; intuition discriminate | discriminate ..].
Defined.

Lemma direct_request_shape_witness :
  exists data' : dict,
    direct_request (Cases.stored "deepseek-v3" [Sample.user "hi"]) Cases.deepseek = ret data'
    /\ get data' "model" = JStr "deepseek/deepseek-chat"
    /\ has_key data' "store" = false
    /\ dict_get data' "temperature" = Some (JInt 1).
Proof.
  assert (Hu : unique_keys (Cases.stored "deepseek-v3" [Sample.user "hi"]))
    by (unfold unique_keys; simpl; repeat constructor; simpl; intuition discriminate).
  destruct (direct_request (Cases.stored "deepseek-v3" [Sample.user "hi"]) Cases.deepseek)
    as [e | data'] eqn:E; [vm_compute in E; discriminate |].
  destruct (direct_request_shape _ data' Cases.deepseek Hu E) as (Hmodel & _ & Hgone & Hkept).
  exists data'. split; [reflexivity |]. split; [exact Hmodel |].
  split; [apply Hgone; [simpl; tauto | discriminate ..] |].
  rewrite Hkept; [reflexivity | simpl; intuition discriminate | discriminate ..].
Defined.

Lemma other_directives_ignore_credentials_witness :
  fallback_tool_call "sk-or-2" "123:abc" "skills" (JList Sample.exec_tools) None
  = fallback_tool_call "sk-or-1" "" "skills" (JList Sample.exec_tools) None.
Proof.
  apply other_directives_ignore_credentials.
  intros prompt H. vm_compute in H. discriminate H.
Defined.

Lemma tool_output_never_runs_consensus_witness :
  exists text : string,
    get (clean_message (Sample.tool_result "call_exec_0" "exec" "consensus: again")) "content"
    = JStr text
    /\ fallback_tool_call "sk-or-2" "123:abc" text (JList Sample.exec_tools) None
       = fallback_tool_call "sk-or-1" "" text (JList Sample.exec_tools) None.
Proof.
  destruct (proj2 (tool_output_never_runs_consensus "sk-or-1" "" (JList Sample.exec_tools) None)
                  (Sample.tool_result "call_exec_0" "exec" "consensus: again") eq_refl)
    as (text & E & _ & Hsame).
  exists text. split; [exact E | apply Hsame].
Defined.


Lemma no_reply_answer_is_replaced_witness :
  exists r' : dict,
    no_reply_block (Sample.world "sk-or-1" "") (Sample.answer " no_reply ")
    = ret (json_dumps (JDict r'))
    /\ unary_content (JDict r') = ret (JStr NO_ANSWER_FALLBACK).
Proof.
  destruct (no_reply_answer_is_replaced (Sample.world "sk-or-1" "") (Sample.answer " no_reply ")
              (Sample.answer_dict " no_reply ")
              [ ("index", JInt 0);
                ("message", JDict [("role", JStr "assistant"); ("content", JStr " no_reply ")]);
                ("finish_reason", JStr "stop") ]
              [("role", JStr "assistant"); ("content", JStr " no_reply ")] [])
    as [Hyes _].
  - vm_compute. reflexivity.
  - reflexivity.
  - reflexivity.
  - destruct Hyes as (r' & E & _ & Hcontent & _); [vm_compute; reflexivity |].
    exists r'. split; assumption.
Defined.

Lemma ill_typed_request_is_not_answered_witness :
  do_POST (Sample.world "sk-or-1" "") "[1, 2]" = Unanswered AttributeError.
Proof.
  apply (proj1 (ill_typed_request_is_not_answered (Sample.world "sk-or-1" "") "[1, 2]")
               (JList [JInt 1; JInt 2])).
  - vm_compute. reflexivity.
  - intros d. discriminate.
Defined.

Lemma directive_shortcut_bypasses_backend_witness :
  do_POST (Sample.world "sk-or-1" (Sample.answer "Here are your skills."))
          (Sample.request "gpt-5.2" false Sample.exec_tools [Sample.user "skills"])
  = do_POST (Sample.world "sk-or-1" "")
            (Sample.request "gpt-5.2" false Sample.exec_tools [Sample.user "skills"]).
Proof.
  refine (proj2 (proj2 (directive_shortcut_bypasses_backend (Sample.world "sk-or-1" "")
            (Sample.request "gpt-5.2" false Sample.exec_tools [Sample.user "skills"])
            [ ("model", JStr "gpt-5.2"); ("stream", JBool false);
              ("messages", JList [JDict (Sample.user "skills")]);
              ("tools", JList Sample.exec_tools) ]
            [JDict (Sample.user "skills")] [Sample.user "skills"]
            (exec_call "call_skills_0" (SKILL_MANAGER ++ " list")) [] _ _ _ _))
          (Sample.world "sk-or-1" (Sample.answer "Here are your skills."))
          eq_refl eq_refl eq_refl eq_refl).
  - vm_compute. reflexivity.
  - reflexivity.
  - reflexivity.
  - vm_compute. reflexivity.
Defined.

Lemma search_results_go_before_last_user_turn_witness :
  exists (data' : dict) (last_user_text : option string),
    search_step (Cases.searching "")
                (Cases.stored "llama3.3:latest"
                   [Sample.system "Be brief."; Sample.user "what is the weather today"])
    = ret (data', last_user_text)
    /\ dict_get data' "temperature" = Some (JInt 1).
Proof.
  destruct (search_step (Cases.searching "")
              (Cases.stored "llama3.3:latest"
                 [Sample.system "Be brief."; Sample.user "what is the weather today"]))
    as [e | [data' lut]] eqn:E; [vm_compute in E; discriminate |].
  exists data', lut. split; [reflexivity |].
  destruct (search_results_go_before_last_user_turn (Cases.searching "")
              (Cases.stored "llama3.3:latest"
                 [Sample.system "Be brief."; Sample.user "what is the weather today"])
              data'
              [Sample.system "Be brief."; Sample.user "what is the weather today"] lut
              eq_refl E) as [Hkept _].
  rewrite Hkept; [reflexivity | discriminate].
Defined.

Lemma search_query_is_bounded_piece_witness :
  endswith "?" (extract_search_query "can you tell me who is the mayor of Paris?") = false.
Proof.
  apply (proj2 (proj2 (search_query_is_bounded_piece
                         "can you tell me who is the mayor of Paris?")) "?"%char).
  - reflexivity.
  - apply Nat.ltb_lt. vm_compute. reflexivity.
Defined.

Lemma search_is_guarded_witness :
  (5 <= String.length (Py.strip " what is the weather today? ") <= 300)%nat.
Proof.
  assert (H : needs_web_search true " what is the weather today? " = true)
    by (vm_compute; reflexivity).
  exact (proj1 (proj2 (search_is_guarded true " what is the weather today? " H))).
Defined.

Lemma web_search_text_is_never_empty_witness :
  exists text : string, web_search true Cases.ddgs_text "weather today" 5 = Some text.
Proof.
  apply (proj2 (proj2 (proj2 (proj2 (web_search_text_is_never_empty true Cases.ddgs_text
                                       "weather today" 5))))
               [ ("title", JStr "Forecast"); ("body", JStr "Sunny.");
                 ("href", JStr "https://example.org/w") ] []).
  - reflexivity.
  - reflexivity.
Defined.

Lemma tool_result_is_never_searched_witness :
  exists (data' : dict) (last_user_text : option string),
    search_step (Cases.searching "")
      [("messages",
        JList (map JDict [ Sample.user "what is the weather today";
                           clean_message
                             (Sample.tool_result "call_exec_0" "exec"
                                                 "what is the latest news today?") ]))]
    = ret (data', last_user_text)
    /\ data'
       = [("messages",
           JList (map JDict [ Sample.user "what is the weather today";
                              clean_message
                                (Sample.tool_result "call_exec_0" "exec"
                                                    "what is the latest news today?") ]))].
Proof.
  destruct (search_step (Cases.searching "")
              [("messages",
                JList (map JDict [ Sample.user "what is the weather today";
                                   clean_message
                                     (Sample.tool_result "call_exec_0" "exec"
                                                         "what is the latest news today?") ]))])
    as [e | [data' lut]] eqn:E; [vm_compute in E; discriminate |].
  exists data', lut. split; [reflexivity |].
  destruct (tool_result_is_never_searched (Cases.searching "") true Cases.ddgs_text
              [("messages",
                JList (map JDict [ Sample.user "what is the weather today";
                                   clean_message
                                     (Sample.tool_result "call_exec_0" "exec"
                                                         "what is the latest news today?") ]))]
              data'
              [Sample.user "what is the weather today"] []
              (Sample.tool_result "call_exec_0" "exec" "what is the latest news today?") lut
              (fun t => eq_refl) eq_refl (fun m (H : In m []) => match H with end) eq_refl E)
    as [Hdata _].
  exact Hdata.
Defined.

Lemma other_methods_are_relayed_witness :
  _proxy (Sample.world "sk-or-1" "served by llama3.3:latest") "GET" None (JBool false)
         (JStr "gpt-5.2") (JList []) None
  = Sent 200 JSON "served by gpt-5.2".
Proof.
  rewrite (proj1 (other_methods_are_relayed (Sample.world "sk-or-1" "served by llama3.3:latest")
                    "GET" None "gpt-5.2" (JList []) None 200 "served by llama3.3:latest"
                    ltac:(discriminate) eq_refl)).
  vm_compute. reflexivity.
Defined.

Lemma extracted_call_ids_are_distinct_witness :
  exists (cleaned : string) (calls : list Json),
    convert_text_to_tool_calls
      (JStr ("TOOL_CALL: exec ls" ++ Py.nl ++ "TOOL_CALL: exec pwd")) (JList Sample.exec_tools)
    = ret (cleaned, Some calls)
    /\ length calls = 2%nat
    /\ NoDup (map call_id calls).
Proof.
  destruct (convert_text_to_tool_calls
              (JStr ("TOOL_CALL: exec ls" ++ Py.nl ++ "TOOL_CALL: exec pwd"))
              (JList Sample.exec_tools)) as [e | [cleaned [calls |]]] eqn:E;
    try (vm_compute in E; discriminate).
  exists cleaned, calls. split; [reflexivity |]. split.
  - vm_compute in E. inversion E. reflexivity.
  - exact (proj2 (extracted_call_ids_are_distinct _ _ cleaned calls E)).
Defined.

Lemma tool_prompt_lists_declared_names_witness :
  exists prompt : string,
    build_tool_prompt (JList Sample.exec_tools) = ret (Some prompt)
    /\ Py.contains "exec" prompt = true.
Proof.
  destruct (build_tool_prompt (JList Sample.exec_tools)) as [e | [prompt |]] eqn:E;
    try (vm_compute in E; discriminate).
  exists prompt. split; [reflexivity |].
  apply (proj1 (tool_prompt_lists_declared_names (JList Sample.exec_tools)) prompt E).
  - simpl. tauto.
  - discriminate.
Defined.
